(** * VidDwn: a shallow embedding of the video downloader

    The program is a PyQt front end over two external tools.  What it
    contributes itself is modelled here, function by function:
    the URL classifier [validate_url], the export-format selection, the
    file-name sanitisation of [start_download], the JSON history log
    ([save_history], [load_history], [add_to_history],
    [delete_selected_file]), the FFmpeg installer and the background
    worker [DownloadWorker.run].

    The texts the program computes with (the URL, the directory, titles,
    paths, file contents) are modelled by [string]: sequences of code
    points below 256.  Library functions the program calls ([str.lower],
    [str.strip], [re.match], [re.sub], [os.path.join], ...) are modelled
    on that range after their CPython behaviour.  The entries of the
    history list, the strings of JSON values and the texts of message
    boxes and log records are [Py.str], sequences of any code points:
    [json.load] yields them from ASCII text. *)

From Stdlib Require Import ZArith NArith Lia Bool.
From Stdlib Require Import Ascii String.
From stdpp Require Import gmap strings list pretty.


(** ** Python string primitives *)

Module Py.

Definition ord (c : ascii) : N := N_of_ascii c.

(** [str.isspace] on one code point, which is also what the regex class
    [\s] accepts for [str] patterns: TAB..CR, FS..US, SPACE, NEL, NBSP. *)
Definition isspace (c : ascii) : bool :=
  let n := ord c in
  ((9 <=? n) && (n <=? 13) || (28 <=? n) && (n <=? 32)
   || (n =? 133) || (n =? 160))%N.

(** [str.lower] on one code point below 256: A..Z and the Latin-1 capitals
    (U+00C0..U+00DE except the multiplication sign U+00D7) move up by 32. *)
Definition lower_char (c : ascii) : ascii :=
  let n := ord c in
  if ((65 <=? n) && (n <=? 90)
      || (192 <=? n) && (n <=? 222) && negb (n =? 215))%N
  then ascii_of_N (n + 32) else c.

Fixpoint lower (s : string) : string :=
  match s with
  | EmptyString => EmptyString
  | String c s' => String (lower_char c) (lower s')
  end.

(** [s.startswith(p)] *)
Fixpoint startswith (p s : string) : bool :=
  match p, s with
  | EmptyString, _ => true
  | String a p', String b s' => Ascii.eqb a b && startswith p' s'
  | String _ _, EmptyString => false
  end.

(** [key in s] for two strings: [key] occurs in [s] as a contiguous run. *)
Fixpoint contains (key s : string) : bool :=
  startswith key s ||
  match s with
  | EmptyString => false
  | String _ s' => contains key s'
  end.

(** [c in chars] for a one-character string [c]. *)
Fixpoint char_in (c : ascii) (chars : string) : bool :=
  match chars with
  | EmptyString => false
  | String a rest => Ascii.eqb c a || char_in c rest
  end.

Fixpoint rev_string (s acc : string) : string :=
  match s with
  | EmptyString => acc
  | String c s' => rev_string s' (String c acc)
  end.

(** [s.lstrip(...)], [s.rstrip(...)] and [s.strip(...)], the characters to
    drop given as a predicate. *)
Fixpoint lstrip_by (p : ascii -> bool) (s : string) : string :=
  match s with
  | EmptyString => EmptyString
  | String c s' => if p c then lstrip_by p s' else s
  end.

Definition rstrip_by (p : ascii -> bool) (s : string) : string :=
  rev_string (lstrip_by p (rev_string s EmptyString)) EmptyString.

Definition strip_by (p : ascii -> bool) (s : string) : string :=
  rstrip_by p (lstrip_by p s).

(** [s.strip()] *)
Definition strip : string -> string := strip_by isspace.

(** [s.strip(chars)] *)
Definition strip_chars (chars : string) : string -> string :=
  strip_by (fun c => char_in c chars).

(** [s.endswith(suffix)] *)
Definition endswith (suffix s : string) : bool :=
  startswith (rev_string suffix EmptyString) (rev_string s EmptyString).

(** The longest prefix of characters that satisfy [p], and the rest. *)
Fixpoint span (p : ascii -> bool) (s : string) : string * string :=
  match s with
  | EmptyString => (EmptyString, EmptyString)
  | String c s' =>
      if p c then let '(a, b) := span p s' in (String c a, b)
      else (EmptyString, s)
  end.

(** [s[n:]] *)
Definition drop (n : nat) (s : string) : string :=
  String.substring n (String.length s - n) s.

(** Truthiness of a [str]: the empty string is falsy. *)
Definition truthy (s : string) : bool :=
  match s with EmptyString => false | String _ _ => true end.

(** The specification-side reading of [key in s]. *)
Definition occurs_in (key s : string) : Prop :=
  exists pre post, s = pre +:+ key +:+ post.

(** A [str] in general: its code points. *)
Definition str : Type := list N.

(** The [str] of a text of code points below 256. *)
Definition of_latin1 (s : string) : str :=
  N_of_ascii <$> list_ascii_of_string s.

(** The text of a [str] whose code points are all below 256. *)
Definition latin1 (u : str) : option string :=
  if forallb (fun c => c <? 256)%N u
  then Some (string_of_list_ascii (ascii_of_N <$> u))
  else None.

(** [Py_UNICODE_IS_HIGH_SURROGATE] and [Py_UNICODE_IS_LOW_SURROGATE] *)
Definition is_high_surrogate (c : N) : bool :=
  ((0xd800 <=? c) && (c <=? 0xdbff))%N.

Definition is_low_surrogate (c : N) : bool :=
  ((0xdc00 <=? c) && (c <=? 0xdfff))%N.

(** Whether a high surrogate stands directly before a low one. *)
Fixpoint has_surrogate_pair (u : str) : bool :=
  match u with
  | a :: rest =>
      match rest with
      | b :: _ => is_high_surrogate a && is_low_surrogate b
      | [] => false
      end || has_surrogate_pair rest
  | [] => false
  end.

(** A [str] as the text of a Qt item is handed over, the item holding
    UTF-16: code points up to 0x10FFFF, with two surrogates that pair
    having become the one code point they stand for, so that no high
    surrogate is left standing before a low one.  A lone surrogate may
    occur. *)
Definition qstring_text (u : str) : Prop :=
  Forall (fun c => (c < 0x110000)%N) u /\ has_surrogate_pair u = false.

End Py.

(** A text of code points below 256 is read as a [str] where one is
    expected. *)
Coercion Py.of_latin1 : string >-> Py.str.

(** ** A backtracking matcher for the regular expressions the program uses *)

Module Re.

(** The fragment of [re] syntax the two patterns of the program need.
    Repetition is over a character set only, which is all they use. *)
Inductive regex : Type :=
| Eps                                   (* the empty pattern *)
| Bol                                   (* ^ *)
| Chr (c : ascii)                       (* a literal character *)
| Cls (p : ascii -> bool)               (* a character set [...] *)
| Seq (r1 r2 : regex)
| Opt (r : regex)                       (* r?, greedy *)
| PlusCls (p : ascii -> bool)           (* [...]+, greedy *)
| Group (n : nat) (r : regex).          (* the n-th capturing group *)

Fixpoint Lit (s : string) : regex :=
  match s with
  | EmptyString => Eps
  | String c s' => Seq (Chr c) (Lit s')
  end.

(** The characters consumed between two suffixes of the same subject. *)
Fixpoint consumed (from to : string) : string :=
  if Nat.leb (String.length from) (String.length to) then EmptyString
  else match from with
       | EmptyString => EmptyString
       | String c from' => String c (consumed from' to)
       end.

Section Matcher.
Context {R : Type}.
(** A continuation receives the position reached, the text left and the
    groups captured so far; [None] makes the matcher backtrack. *)
Definition cont : Type := nat -> string -> gmap nat string -> option R.

(** Greedy [p*]: take as many characters as possible, give one back each
    time the continuation fails. *)
Fixpoint star_cls (p : ascii -> bool) (pos : nat) (s : string)
    (caps : gmap nat string) (k : cont) : option R :=
  match s with
  | String c s' =>
      if p c then
        match star_cls p (S pos) s' caps k with
        | Some r => Some r
        | None => k pos s caps
        end
      else k pos s caps
  | EmptyString => k pos s caps
  end.

Fixpoint run (r : regex) (pos : nat) (s : string)
    (caps : gmap nat string) (k : cont) : option R :=
  match r with
  | Eps => k pos s caps
  | Bol => if Nat.eqb pos 0 then k pos s caps else None
  | Chr c =>
      match s with
      | String a s' => if Ascii.eqb a c then k (S pos) s' caps else None
      | EmptyString => None
      end
  | Cls p =>
      match s with
      | String a s' => if p a then k (S pos) s' caps else None
      | EmptyString => None
      end
  | Seq r1 r2 =>
      run r1 pos s caps (fun pos' s' caps' => run r2 pos' s' caps' k)
  | Opt r' =>
      match run r' pos s caps k with
      | Some x => Some x
      | None => k pos s caps
      end
  | PlusCls p =>
      match s with
      | String a s' => if p a then star_cls p (S pos) s' caps k else None
      | EmptyString => None
      end
  | Group n r' =>
      run r' pos s caps
        (fun pos' s' caps' => k pos' s' (<[n := consumed s s']> caps'))
  end.
End Matcher.

(** [re.match(pattern, s)]: match at the start of [s]; the match object is
    represented by its captured groups. *)
Definition re_match (r : regex) (s : string) : option (gmap nat string) :=
  run r 0 s ∅ (fun _ _ caps => Some caps).

(** [m.group(n)] *)
Definition group (m : gmap nat string) (n : nat) : option string := m !! n.

(** [re.sub(pattern, repl, s)] for a pattern that is one character set:
    every character of the set is replaced by [repl]. *)
Fixpoint sub_cls (p : ascii -> bool) (repl s : string) : string :=
  match s with
  | EmptyString => EmptyString
  | String c s' =>
      if p c then repl +:+ sub_cls p repl s' else String c (sub_cls p repl s')
  end.

End Re.

(** ** [os.path], POSIX flavour (Linux and macOS) *)

Module PosixPath.

Definition sep : ascii := "/"%char.

Definition is_sep (c : ascii) : bool := Ascii.eqb c sep.

Fixpoint has_sep (p : string) : bool :=
  match p with
  | EmptyString => false
  | String c p' => is_sep c || has_sep p'
  end.

(** [p[:p.rfind('/') + 1]] *)
Fixpoint upto_last_sep (p : string) : string :=
  match p with
  | EmptyString => EmptyString
  | String c p' =>
      if has_sep p' then String c (upto_last_sep p')
      else if is_sep c then String c EmptyString
      else EmptyString
  end.

(** [p[p.rfind('/') + 1:]] *)
Fixpoint after_last_sep (p : string) : string :=
  match p with
  | EmptyString => EmptyString
  | String c p' =>
      if has_sep p' then after_last_sep p'
      else if is_sep c then p'
      else p
  end.

(** [os.path.basename] *)
Definition basename (p : string) : string := after_last_sep p.

(** [os.path.dirname]: the head, without its trailing slashes unless it
    consists of slashes only. *)
Definition dirname (p : string) : string :=
  let head := upto_last_sep p in
  if Py.truthy (Py.lstrip_by is_sep head) then Py.rstrip_by is_sep head
  else head.

(** [os.path.join(a, b)] *)
Definition join (a b : string) : string :=
  if Py.startswith "/" b then b
  else if negb (Py.truthy a) || Py.endswith "/" a then a +:+ b
  else a +:+ "/" +:+ b.

(** [os.pathsep] *)
Definition pathsep : string := ":".

End PosixPath.

(** ** The [json] module, as far as the history log uses it *)

Module Json.

Definition quote : ascii := "034"%char.
Definition backslash : ascii := "\"%char.
Definition newline : ascii := "010"%char.

(** *** Encoding: [json.dump(list_of_str, f, indent=4)] *)

Definition hex_digit (n : N) : ascii :=
  if (n <? 10)%N then ascii_of_N (48 + n) else ascii_of_N (87 + n).

(** ['\\u{0:04x}'.format(n)] for [n] below 0x10000: the four hexadecimal
    digits of [n] *)
Definition escape_u (n : N) : string :=
  String backslash
    (String "u"
      (String (hex_digit (n / 4096 mod 16))
        (String (hex_digit (n / 256 mod 16))
          (String (hex_digit (n / 16 mod 16))
            (String (hex_digit (n mod 16)) EmptyString))))).

(** [Py_UNICODE_HIGH_SURROGATE] and [Py_UNICODE_LOW_SURROGATE]: the two
    halves of the surrogate pair of a code point from 0x10000 up. *)
Definition high_surrogate (n : N) : N :=
  (0xd800 - N.shiftr 0x10000 10 + N.shiftr n 10)%N.

Definition low_surrogate (n : N) : N := (0xdc00 + N.land n 0x3ff)%N.

(** The replacement [ESCAPE_ASCII] and [ESCAPE_DCT] give one code point:
    printable ASCII other than the quote and the backslash stands for
    itself, any other code point is written as [\uXXXX], as two of them
    from 0x10000 up. *)
Definition escape_char (n : N) : string :=
  if (n =? 92)%N then String backslash (String backslash EmptyString)
  else if (n =? 34)%N then String backslash (String quote EmptyString)
  else if (n =? 8)%N then String backslash "b"
  else if (n =? 12)%N then String backslash "f"
  else if (n =? 10)%N then String backslash "n"
  else if (n =? 13)%N then String backslash "r"
  else if (n =? 9)%N then String backslash "t"
  else if ((32 <=? n) && (n <=? 126))%N then String (ascii_of_N n) EmptyString
  else if (n <? 0x10000)%N then escape_u n
  else escape_u (high_surrogate n) +:+ escape_u (low_surrogate n).

Fixpoint escape (s : Py.str) : string :=
  match s with
  | [] => EmptyString
  | c :: s' => escape_char c +:+ escape s'
  end.

(** [encode_basestring_ascii] *)
Definition encode_basestring_ascii (s : Py.str) : string :=
  String quote (escape s +:+ String quote EmptyString).

(** [sep.join(chunks)] *)
Fixpoint join (sep : string) (chunks : list string) : string :=
  match chunks with
  | [] => EmptyString
  | [x] => x
  | x :: rest => x +:+ sep +:+ join sep rest
  end.

Fixpoint spaces (n : nat) : string :=
  match n with
  | O => EmptyString
  | S n' => String " " (spaces n')
  end.

(** The text [json.dump] writes for a list of [str] at nesting level 0:
    [[]] for the empty list, else one item per line, indented. *)
Definition dumps_list (indent : nat) (items : list Py.str) : string :=
  match items with
  | [] => "[]"
  | _ =>
      let newline_indent := String newline (spaces indent) in
      let separator := "," +:+ newline_indent in
      "[" +:+ newline_indent
          +:+ join separator (map encode_basestring_ascii items)
          +:+ String newline "]"
  end.

(** *** Decoding: [json.load] *)

#[local] Set Warnings "-register-all".
Inductive value : Type :=
| JNull
| JBool (b : bool)
| JNumber (literal : string)
| JString (s : Py.str)
| JArray (items : list value)
| JObject (members : list (Py.str * value)).

Definition is_ws (c : ascii) : bool :=
  let n := Py.ord c in ((n =? 32) || (n =? 9) || (n =? 10) || (n =? 13))%N.

Definition skip_ws : string -> string := Py.lstrip_by is_ws.

Definition hex_value (c : ascii) : option N :=
  let n := Py.ord c in
  if ((48 <=? n) && (n <=? 57))%N then Some (n - 48)%N
  else if ((97 <=? n) && (n <=? 102))%N then Some (n - 87)%N
  else if ((65 <=? n) && (n <=? 70))%N then Some (n - 55)%N
  else None.

(** The number of [\uXXXX]; [None] when one of the four is no hexadecimal
    digit. *)
Definition decode_uXXXX (h1 h2 h3 h4 : ascii) : option N :=
  a ← hex_value h1; b ← hex_value h2; c ← hex_value h3; d ← hex_value h4;
  Some (4096 * a + 256 * b + 16 * c + d)%N.

(** [Py_UNICODE_JOIN_SURROGATES] *)
Definition join_surrogates (high low : N) : N :=
  (0x10000 + N.lor (N.shiftl (N.land high 0x3ff) 10) (N.land low 0x3ff))%N.

(** The [BACKSLASH] table of the decoder. *)
Definition unescape (e : ascii) : option N :=
  if Ascii.eqb e quote then Some 34%N
  else if Ascii.eqb e backslash then Some 92%N
  else if Ascii.eqb e "/" then Some 47%N
  else if Ascii.eqb e "b" then Some 8%N
  else if Ascii.eqb e "f" then Some 12%N
  else if Ascii.eqb e "n" then Some 10%N
  else if Ascii.eqb e "r" then Some 13%N
  else if Ascii.eqb e "t" then Some 9%N
  else None.

(** What [scanstring] finds after the escape of a high surrogate: the
    escape of a low surrogate, with what follows it; an escape whose
    digits are not hexadecimal; or anything else. *)
Inductive second_escape : Type :=
| LowSurrogate (low : N) (rest : string)
| BadEscape
| NoLowSurrogate.

Definition scan_second_escape (s : string) : second_escape :=
  match s with
  | String b (String u (String k1 (String k2 (String k3 (String k4 rest))))) =>
      if Ascii.eqb b backslash && Ascii.eqb u "u" then
        match decode_uXXXX k1 k2 k3 k4 with
        | Some low =>
            if Py.is_low_surrogate low then LowSurrogate low rest
            else NoLowSurrogate
        | None => BadEscape
        end
      else NoLowSurrogate
  | _ => NoLowSurrogate
  end.

(** [scanstring], strict, from just after the opening quote: the decoded
    text and what follows the closing quote.  The escape of a high
    surrogate directly followed by the escape of a low one gives the one
    code point of the pair. *)
Fixpoint scanstring (s : string) : option (Py.str * string) :=
  match s with
  | EmptyString => None
  | String c rest =>
      if Ascii.eqb c quote then Some ([], rest)
      else if Ascii.eqb c backslash then
        match rest with
        | String e rest' =>
            if Ascii.eqb e "u" then
              match rest' with
              | String h1 (String h2 (String h3 (String h4 rest''))) =>
                  match decode_uXXXX h1 h2 h3 h4 with
                  | Some uni =>
                      let alone :=
                        match scanstring rest'' with
                        | Some (str, r) => Some (uni :: str, r)
                        | None => None
                        end in
                      if Py.is_high_surrogate uni then
                        match rest'' with
                        | String b (String u (String k1 (String k2
                            (String k3 (String k4 rest3))))) =>
                            if Ascii.eqb b backslash && Ascii.eqb u "u" then
                              match decode_uXXXX k1 k2 k3 k4 with
                              | Some low =>
                                  if Py.is_low_surrogate low then
                                    match scanstring rest3 with
                                    | Some (str, r) =>
                                        Some (join_surrogates uni low :: str, r)
                                    | None => None
                                    end
                                  else alone
                              | None => None
                              end
                            else alone
                        | _ => alone
                        end
                      else alone
                  | None => None
                  end
              | _ => None
              end
            else
              match unescape e with
              | Some c' =>
                  match scanstring rest' with
                  | Some (str, r) => Some (c' :: str, r)
                  | None => None
                  end
              | None => None
              end
        | EmptyString => None
        end
      else if (Py.ord c <? 32)%N then None
      else
        match scanstring rest with
        | Some (str, r) => Some (Py.ord c :: str, r)
        | None => None
        end
  end.

Definition is_digit (c : ascii) : bool :=
  let n := Py.ord c in ((48 <=? n) && (n <=? 57))%N.

(** [NUMBER_RE]: an optional minus sign and either 0 or a digit string that
    does not start with 0; then optionally a point and digits; then
    optionally e or E, a sign and digits.  The number is kept as its
    literal. *)
Definition scan_int (s : string) : option (string * string) :=
  let '(sign, s1) :=
    match s with
    | String "-" s' => ("-", s')
    | _ => (EmptyString, s)
    end in
  match s1 with
  | String "0" s2 => Some (sign +:+ "0", s2)
  | String c s2 =>
      if is_digit c then
        let '(ds, s3) := Py.span is_digit s2 in Some (sign +:+ String c ds, s3)
      else None
  | EmptyString => None
  end.

Definition scan_frac (s : string) : string * string :=
  match s with
  | String "." s1 =>
      match Py.span is_digit s1 with
      | (String d ds, s2) => (String "." (String d ds), s2)
      | _ => (EmptyString, s)
      end
  | _ => (EmptyString, s)
  end.

Definition scan_exp (s : string) : string * string :=
  match s with
  | String e s1 =>
      if Ascii.eqb e "e" || Ascii.eqb e "E" then
        let '(sign, s2) :=
          match s1 with
          | String g s' =>
              if Ascii.eqb g "-" || Ascii.eqb g "+"
              then (String g EmptyString, s') else (EmptyString, s1)
          | EmptyString => (EmptyString, s1)
          end in
        match Py.span is_digit s2 with
        | (String d ds, s3) => (String e (sign +:+ String d ds), s3)
        | _ => (EmptyString, s)
        end
      else (EmptyString, s)
  | EmptyString => (EmptyString, s)
  end.

Definition scan_number (s : string) : option (string * string) :=
  '(i, s1) ← scan_int s;
  let '(f, s2) := scan_frac s1 in
  let '(e, s3) := scan_exp s2 in
  Some (i +:+ f +:+ e, s3).

(** A literal word at the head of the text. *)
Definition expect (word s : string) : option string :=
  if Py.startswith word s then Some (Py.drop (String.length word) s)
  else None.

(** [scan_once], [JSONArray] and [JSONObject].  [fuel] bounds the number of
    nested calls; [loads] starts with twice the length of the text and
    two more. *)
Fixpoint scan_once (fuel : nat) (s : string) : option (value * string) :=
  match fuel with
  | O => None
  | S fuel' =>
      match s with
      | EmptyString => None
      | String c rest =>
          if Ascii.eqb c quote then
            '(str, r) ← scanstring rest; Some (JString str, r)
          else if Ascii.eqb c "{" then
            match skip_ws rest with
            | String "}" r => Some (JObject [], r)
            | r => '(ms, r') ← scan_members fuel' r; Some (JObject ms, r')
            end
          else if Ascii.eqb c "[" then
            match skip_ws rest with
            | String "]" r => Some (JArray [], r)
            | r => '(vs, r') ← scan_elements fuel' r; Some (JArray vs, r')
            end
          else if Ascii.eqb c "n" then r ← expect "null" s; Some (JNull, r)
          else if Ascii.eqb c "t" then
            r ← expect "true" s; Some (JBool true, r)
          else if Ascii.eqb c "f" then
            r ← expect "false" s; Some (JBool false, r)
          else
            match scan_number s with
            | Some (lit, r) => Some (JNumber lit, r)
            | None =>
                if Ascii.eqb c "N" then
                  r ← expect "NaN" s; Some (JNumber "NaN", r)
                else if Ascii.eqb c "I" then
                  r ← expect "Infinity" s; Some (JNumber "Infinity", r)
                else if Ascii.eqb c "-" then
                  r ← expect "-Infinity" s; Some (JNumber "-Infinity", r)
                else None
            end
      end
  end
with scan_elements (fuel : nat) (s : string) : option (list value * string) :=
  match fuel with
  | O => None
  | S fuel' =>
      '(v, r) ← scan_once fuel' s;
      match skip_ws r with
      | String "]" r' => Some ([v], r')
      | String "," r' =>
          '(vs, r'') ← scan_elements fuel' (skip_ws r'); Some (v :: vs, r'')
      | _ => None
      end
  end
with scan_members (fuel : nat) (s : string)
    : option (list (Py.str * value) * string) :=
  match fuel with
  | O => None
  | S fuel' =>
      match s with
      | String c rest =>
          if Ascii.eqb c quote then
            '(key, r) ← scanstring rest;
            match skip_ws r with
            | String ":" r1 =>
                '(v, r2) ← scan_once fuel' (skip_ws r1);
                match skip_ws r2 with
                | String "}" r3 => Some ([(key, v)], r3)
                | String "," r3 =>
                    '(ms, r4) ← scan_members fuel' (skip_ws r3);
                    Some ((key, v) :: ms, r4)
                | _ => None
                end
            | _ => None
            end
          else None
      | EmptyString => None
      end
  end.

(** [json.loads]: one value with blanks around it and nothing after.
    [None] stands for [JSONDecodeError]. *)
Definition loads (s : string) : option value :=
  '(v, r) ← scan_once (2 * String.length s + 2) (skip_ws s);
  match skip_ws r with
  | EmptyString => Some v
  | String _ _ => None
  end.

End Json.

(** ** [os.path] as an interface

    The program reaches the file-name functions through [os.path], which is
    [posixpath] on Linux and macOS and [ntpath] on Windows. *)

Class OsPath : Type := {
  path_join : string -> string -> string;
  path_dirname : string -> string;
  path_basename : string -> string;
  path_pathsep : string
}.

#[export] Instance posix : OsPath := {|
  path_join := PosixPath.join;
  path_dirname := PosixPath.dirname;
  path_basename := PosixPath.basename;
  path_pathsep := PosixPath.pathsep
|}.

(** ** Effects: exceptions, the mutable program state, observable events *)

Module Eff.

(** An exception is represented by the most specific of the classes the
    handlers of the program name, and by its [str(e)].  Every class here
    derives from [Exception]. *)
Inductive exn_class : Type :=
| DownloadError | URLError | ValueError | OverflowError | KeyError
| TypeError | AttributeError | OSError | JSONDecodeError | OtherException.

Record exn : Type := Exn { exn_cls : exn_class; exn_str : string }.

#[export] Instance exn_class_eq_dec : EqDecision exn_class.
Proof. solve_decision. Defined.

Inductive outcome (A : Type) : Type :=
| Ret (a : A)
| Raise (e : exn).
Arguments Ret {A} a.
Arguments Raise {A} e.

(** The four signals of [DownloadWorker]. *)
Inductive signal : Type :=
| progress (percent : Z)
| error (message : string)
| finished
| download_complete (filepath : string).

Inductive level : Type := INFO | WARNING | ERROR.

Inductive icon : Type := Information | Warning | Critical | Question.

(** What the program does to its surroundings, in order. *)
Inductive event : Type :=
| MessageBox (i : icon) (title : string) (text : Py.str)
| Logging (l : level) (msg : Py.str)
| Stdout (msg : string)
| Emit (s : signal)
| ExtractInfo (url : string)
| FileWrite (path content : string)   (* a file opened and written in full *)
| FileRemove (path : string)          (* os.remove *)
| NewThread
| ThreadStart
| DirCreated (path : string).         (* os.makedirs has returned *)

(** Values found in the dictionaries exchanged with the download library. *)
Inductive pyvalue : Type :=
| PNone
| PBool (b : bool)
| PInt (z : Z)
| PStr (s : string)
| PDicts (ds : list (gmap string string)).

(** The arguments [DownloadWorker] is constructed with. *)
Record worker_args : Type := {
  w_opts : gmap string pyvalue;
  w_url : string;
  w_format_choice : string;
  w_final_filepath : string
}.

(** The widgets the program reads and writes, the regular files by path,
    and the process environment.  Directories are no part of it: whether
    one exists is asked of the surroundings, and creating one is an
    event.  Nor is the log file [downloader.log] that [logging.basicConfig]
    names: the records appended to it are the [Logging] events.  The
    entries of the history list are the texts of its items, as
    [item(i).text()] hands them over. *)
Record world : Type := {
  url_input : string;
  dir_display : string;
  quality_dropdown : string;
  format_dropdown : string;
  download_button : bool;
  cancel_button : bool;
  delete_button : bool;
  progress_bar : Z;
  status_label : string;
  history_list : list Py.str;
  worker : option worker_args;
  fs : gmap string string;
  environ : gmap string string
}.

Definition M (A : Type) : Type := world -> outcome A * world * list event.

Definition ret {A} (a : A) : M A := fun w => (Ret a, w, []).

Definition bind {A B} (m : M A) (k : A -> M B) : M B :=
  fun w =>
    match m w with
    | (Ret a, w1, t1) => let '(o, w2, t2) := k a w1 in (o, w2, t1 ++ t2)
    | (Raise e, w1, t1) => (Raise e, w1, t1)
    end.

Definition raise {A} (e : exn) : M A := fun w => (Raise e, w, []).

Definition emit (ev : event) : M unit := fun w => (Ret tt, w, [ev]).

Definition get : M world := fun w => (Ret w, w, []).

Definition modify (f : world -> world) : M unit := fun w => (Ret tt, f w, []).

(** [try: body except ...: handler]; [handler e = None] when no clause
    matches [e], which then propagates. *)
Definition try_except {A} (body : M A) (handler : exn -> option (M A)) : M A :=
  fun w =>
    match body w with
    | (Ret a, w1, t1) => (Ret a, w1, t1)
    | (Raise e, w1, t1) =>
        match handler e with
        | Some h => let '(o, w2, t2) := h w1 in (o, w2, t1 ++ t2)
        | None => (Raise e, w1, t1)
        end
    end.

(** [try: body finally: fin] *)
Definition try_finally {A} (body : M A) (fin : M unit) : M A :=
  fun w =>
    let '(o, w1, t1) := body w in
    match fin w1 with
    | (Ret _, w2, t2) => (o, w2, t1 ++ t2)
    | (Raise e, w2, t2) => (Raise e, w2, t1 ++ t2)
    end.

(** [except cls as e: h e] *)
Definition except (cls : exn_class) {A} (h : exn -> M A) (e : exn)
    : option (M A) :=
  if decide (exn_cls e = cls) then Some (h e) else None.

(** [except Exception as e: h e] *)
Definition except_Exception {A} (h : exn -> M A) (e : exn) : option (M A) :=
  Some (h e).

(** Two [except] clauses in order. *)
Definition or_else {A} (h1 h2 : exn -> option (M A)) (e : exn)
    : option (M A) :=
  match h1 e with
  | Some h => Some h
  | None => h2 e
  end.

Fixpoint for_each {A} (xs : list A) (body : A -> M unit) : M unit :=
  match xs with
  | [] => ret tt
  | x :: rest => bind (body x) (fun _ => for_each rest body)
  end.

(** A library call whose failure, if any, the environment decides. *)
Definition may_raise (failure : option exn) : M unit :=
  match failure with
  | Some e => raise e
  | None => ret tt
  end.

Definition logging (l : level) (msg : Py.str) : M unit :=
  emit (Logging l msg).
Definition print (msg : string) : M unit := emit (Stdout msg).
Definition message_box (i : icon) (title : string) (text : Py.str) : M unit :=
  emit (MessageBox i title text).

(** Field updates. *)
Definition set_download_button (b : bool) (w : world) : world :=
  {| url_input := url_input w; dir_display := dir_display w;
     quality_dropdown := quality_dropdown w;
     format_dropdown := format_dropdown w;
     download_button := b; cancel_button := cancel_button w;
     delete_button := delete_button w; progress_bar := progress_bar w;
     status_label := status_label w; history_list := history_list w;
     worker := worker w; fs := fs w; environ := environ w |}.

Definition set_cancel_button (b : bool) (w : world) : world :=
  {| url_input := url_input w; dir_display := dir_display w;
     quality_dropdown := quality_dropdown w;
     format_dropdown := format_dropdown w;
     download_button := download_button w; cancel_button := b;
     delete_button := delete_button w; progress_bar := progress_bar w;
     status_label := status_label w; history_list := history_list w;
     worker := worker w; fs := fs w; environ := environ w |}.

Definition set_delete_button (b : bool) (w : world) : world :=
  {| url_input := url_input w; dir_display := dir_display w;
     quality_dropdown := quality_dropdown w;
     format_dropdown := format_dropdown w;
     download_button := download_button w; cancel_button := cancel_button w;
     delete_button := b; progress_bar := progress_bar w;
     status_label := status_label w; history_list := history_list w;
     worker := worker w; fs := fs w; environ := environ w |}.

Definition set_progress_bar (v : Z) (w : world) : world :=
  {| url_input := url_input w; dir_display := dir_display w;
     quality_dropdown := quality_dropdown w;
     format_dropdown := format_dropdown w;
     download_button := download_button w; cancel_button := cancel_button w;
     delete_button := delete_button w; progress_bar := v;
     status_label := status_label w; history_list := history_list w;
     worker := worker w; fs := fs w; environ := environ w |}.

Definition set_status_label (s : string) (w : world) : world :=
  {| url_input := url_input w; dir_display := dir_display w;
     quality_dropdown := quality_dropdown w;
     format_dropdown := format_dropdown w;
     download_button := download_button w; cancel_button := cancel_button w;
     delete_button := delete_button w; progress_bar := progress_bar w;
     status_label := s; history_list := history_list w;
     worker := worker w; fs := fs w; environ := environ w |}.

Definition set_history_list (l : list Py.str) (w : world) : world :=
  {| url_input := url_input w; dir_display := dir_display w;
     quality_dropdown := quality_dropdown w;
     format_dropdown := format_dropdown w;
     download_button := download_button w; cancel_button := cancel_button w;
     delete_button := delete_button w; progress_bar := progress_bar w;
     status_label := status_label w; history_list := l;
     worker := worker w; fs := fs w; environ := environ w |}.

Definition set_worker (x : option worker_args) (w : world) : world :=
  {| url_input := url_input w; dir_display := dir_display w;
     quality_dropdown := quality_dropdown w;
     format_dropdown := format_dropdown w;
     download_button := download_button w; cancel_button := cancel_button w;
     delete_button := delete_button w; progress_bar := progress_bar w;
     status_label := status_label w; history_list := history_list w;
     worker := x; fs := fs w; environ := environ w |}.

Definition set_fs (m : gmap string string) (w : world) : world :=
  {| url_input := url_input w; dir_display := dir_display w;
     quality_dropdown := quality_dropdown w;
     format_dropdown := format_dropdown w;
     download_button := download_button w; cancel_button := cancel_button w;
     delete_button := delete_button w; progress_bar := progress_bar w;
     status_label := status_label w; history_list := history_list w;
     worker := worker w; fs := m; environ := environ w |}.

Definition set_environ (m : gmap string string) (w : world) : world :=
  {| url_input := url_input w; dir_display := dir_display w;
     quality_dropdown := quality_dropdown w;
     format_dropdown := format_dropdown w;
     download_button := download_button w; cancel_button := cancel_button w;
     delete_button := delete_button w; progress_bar := progress_bar w;
     status_label := status_label w; history_list := history_list w;
     worker := worker w; fs := fs w; environ := m |}.

Definition set_url_input (s : string) (w : world) : world :=
  {| url_input := s; dir_display := dir_display w;
     quality_dropdown := quality_dropdown w;
     format_dropdown := format_dropdown w;
     download_button := download_button w; cancel_button := cancel_button w;
     delete_button := delete_button w; progress_bar := progress_bar w;
     status_label := status_label w; history_list := history_list w;
     worker := worker w; fs := fs w; environ := environ w |}.

(** File-system calls.  Each attempt is an event; a write either happens in
    full or raises before it changes the file. *)
Definition path_exists (p : string) : M bool :=
  fun w => (Ret (bool_decide (is_Some (fs w !! p))), w, []).

Definition write_text (p content : string) (failure : option exn) : M unit :=
  bind (emit (FileWrite p content)) (fun _ =>
  bind (may_raise failure) (fun _ =>
  modify (fun w => set_fs (<[p := content]> (fs w)) w))).

Definition os_remove (p : string) (failure : option exn) : M unit :=
  bind (emit (FileRemove p)) (fun _ =>
  bind (may_raise failure) (fun _ =>
  modify (fun w => set_fs (delete p (fs w)) w))).

(** [os.makedirs(p)]: the directory is there when the call returns. *)
Definition makedirs (p : string) (failure : option exn) : M unit :=
  bind (may_raise failure) (fun _ => emit (DirCreated p)).

(** The files after some of them were written, one after the other. *)
Definition write_all (files : list (string * string))
    (m : gmap string string) : gmap string string :=
  foldl (fun m f => <[f.1 := f.2]> m) m files.

End Eff.

(** [x ← m; k] and [m ;; k] sequence computations of [Eff.M]. *)
#[export] Instance M_ret : MRet Eff.M := @Eff.ret.
#[export] Instance M_bind : MBind Eff.M := fun A B k m => Eff.bind m k.

(** ** [download_and_install_ffmpeg] *)

Module Installer.
Import Eff.

(** What the machine answers during one installation attempt. *)
Record install_env : Type := {
  platform_system : string;          (* platform.system() *)
  getcwd : string;                   (* os.getcwd() *)
  extract_dir_exists : bool;         (* os.path.exists(extract_dir) *)
  makedirs_failure : option exn;     (* raised by os.makedirs, if any *)
  urlretrieve_failure : option exn;  (* raised by urlretrieve, if any *)
  extract_failure : option exn;      (* raised while unpacking, if any *)
  walk : list (string * list string * list string);
                                     (* os.walk(extract_dir) *)
  archive_created : bool;            (* urlretrieve got to create the archive
                                        file; always so when it returns *)
  archive_bytes : string;            (* the archive file as urlretrieve left
                                        it *)
  unpacked : list (string * string)  (* the files unpacking has written
                                        before it returned or raised, by
                                        path, with their contents *)
}.

Definition ffmpeg_url_of (system : string) : option string :=
  if String.eqb system "windows" then
    Some "https://www.gyan.dev/ffmpeg/builds/ffmpeg-release-essentials.zip"
  else if String.eqb system "linux" then
    Some "https://johnvansickle.com/ffmpeg/releases/ffmpeg-release-amd64-static.tar.xz"
  else if String.eqb system "darwin" then
    Some "https://evermeet.cx/ffmpeg/ffmpeg.zip"
  else None.

(** [os.environ[key] += value] *)
Definition environ_append (key value : string) : M unit :=
  w ← get;
  match environ w !! key with
  | Some old => modify (set_environ (<[key := old +:+ value]> (environ w)))
  | None => raise (Exn KeyError ("'" +:+ key +:+ "'"))
  end.

Section WithOsPath.
Context `{OsPath}.

(** The inner loop: the first file of [files] named like the executable. *)
Fixpoint find_in_files (root : string) (files : list string) : option string :=
  match files with
  | [] => None
  | file :: rest =>
      if String.eqb file "ffmpeg" || String.eqb file "ffmpeg.exe"
      then Some (path_join root file)
      else find_in_files root rest
  end.

(** The outer loop over [os.walk], left as soon as a path is set. *)
Fixpoint locate (entries : list (string * list string * list string))
    : option string :=
  match entries with
  | [] => None
  | (root, _, files) :: rest =>
      match find_in_files root files with
      | Some ffmpeg_path =>
          if Py.truthy ffmpeg_path then Some ffmpeg_path else locate rest
      | None => locate rest
      end
  end.

(** [urllib.request.urlretrieve(url, filename)]: the file is written in
    full when the call returns; when it raises, the file holds what was
    written until then, if it was created at all. *)
Definition urlretrieve (env : install_env) (filename : string) : M unit :=
  match urlretrieve_failure env with
  | None => write_text filename (archive_bytes env) None
  | Some e =>
      (if archive_created env
       then write_text filename (archive_bytes env) None else mret tt) ;;
      raise e
  end.

(** [extractall] of the archive: the files it writes stay when it
    raises. *)
Definition extractall (env : install_env) : M unit :=
  for_each (unpacked env) (fun f => write_text f.1 f.2 None) ;;
  may_raise (extract_failure env).

(** The steps below answer [Some b] when the function returns [b] from
    inside them, and [None] when control falls through to the next step. *)
Definition download_step (env : install_env)
    (ffmpeg_url ffmpeg_archive : string) : M (option bool) :=
  try_except
    (urlretrieve env ffmpeg_archive ;; mret None)
    (except URLError (fun e =>
       print ("Error downloading FFmpeg: " +:+ exn_str e) ;;
       logging ERROR ("Error downloading FFmpeg: " +:+ exn_str e) ;;
       mret (Some false))).

Definition extract_step (env : install_env) (ffmpeg_url : string)
    : M (option bool) :=
  try_except
    (if Py.endswith ".zip" ffmpeg_url then
       extractall env ;; mret None
     else if Py.endswith ".tar.xz" ffmpeg_url then
       extractall env ;; mret None
     else
       logging ERROR ("Unsupported archive format: " +:+ ffmpeg_url) ;;
       print ("Unsupported archive format: " +:+ ffmpeg_url) ;;
       mret (Some false))
    (except_Exception (fun e =>
       print ("Error extracting FFmpeg archive: " +:+ exn_str e) ;;
       logging ERROR ("Error extracting FFmpeg archive: " +:+ exn_str e) ;;
       mret (Some false))).

Definition locate_step (env : install_env) : M bool :=
  print "Locating FFmpeg executable..." ;;
  logging INFO "Locating FFmpeg executable" ;;
  match locate (walk env) with
  | None =>
      print "Failed to locate FFmpeg executable after extraction." ;;
      logging ERROR "Failed to locate FFmpeg executable after extraction." ;;
      mret false
  | Some ffmpeg_path =>
      let ffmpeg_dir := path_dirname ffmpeg_path in
      environ_append "PATH" (path_pathsep +:+ ffmpeg_dir) ;;
      print "FFmpeg has been installed temporarily and added to the current session's PATH." ;;
      logging INFO "FFmpeg added to PATH temporarily." ;;
      print "Installation complete." ;;
      logging INFO "FFmpeg installation complete." ;;
      mret true
  end.

(** The body of the outer [try]. *)
Definition install_from (env : install_env)
    (ffmpeg_url extract_dir ffmpeg_archive : string) : M bool :=
  print ("Downloading FFmpeg from " +:+ ffmpeg_url +:+ "...") ;;
  logging INFO ("Downloading FFmpeg from " +:+ ffmpeg_url) ;;
  r ← download_step env ffmpeg_url ffmpeg_archive;
  match r with
  | Some b => mret b
  | None =>
      print "Download complete." ;;
      logging INFO ("Downloaded FFmpeg from " +:+ ffmpeg_url +:+ " to "
                    +:+ ffmpeg_archive) ;;
      print "Extracting FFmpeg..." ;;
      logging INFO "Extracting FFmpeg archive" ;;
      r ← extract_step env ffmpeg_url;
      match r with
      | Some b => mret b
      | None =>
          print "Extraction complete." ;;
          logging INFO ("Extracted FFmpeg archive to " +:+ extract_dir) ;;
          locate_step env
      end
  end.

(** The outer [try ... except Exception] around [install_from]. *)
Definition guarded_install (env : install_env)
    (ffmpeg_url extract_dir ffmpeg_archive : string) : M bool :=
  try_except
    (install_from env ffmpeg_url extract_dir ffmpeg_archive)
    (except_Exception (fun e =>
       print ("Failed to install FFmpeg: " +:+ exn_str e) ;;
       logging ERROR ("Failed to install FFmpeg: " +:+ exn_str e) ;;
       mret false)).

Definition download_and_install_ffmpeg (env : install_env) : M bool :=
  let system := Py.lower (platform_system env) in
  let extract_dir := path_join (getcwd env) "ffmpeg_temp" in
  match ffmpeg_url_of system with
  | None =>
      logging ERROR "Unsupported operating system for FFmpeg installation." ;;
      print "Unsupported operating system for FFmpeg installation." ;;
      mret false
  | Some ffmpeg_url =>
      (if negb (extract_dir_exists env)
       then makedirs extract_dir (makedirs_failure env) else mret tt) ;;
      let ffmpeg_archive := path_join extract_dir "ffmpeg_download" in
      guarded_install env ffmpeg_url extract_dir ffmpeg_archive
  end.

End WithOsPath.
End Installer.

(** ** The main window, class [YouTubeDownloader] *)

Module YouTubeDownloader.
Import Eff.

(** A [dict] literal keeps the order of its declaration. *)
Definition SUPPORTED_PLATFORMS : list (string * string) :=
  [ ("youtube.com", "YouTube");
    ("youtu.be", "YouTube");
    ("twitter.com", "X (Twitter)");
    ("x.com", "X (Twitter)");
    ("fb.watch", "Facebook");
    ("facebook.com", "Facebook") ].

Definition FORMAT_OPTIONS : list string := ["mp4"; "mp3"; "wav"; "mov"].

Definition HISTORY_FILE : string := "download_history.json".

(** [d[key]] for a key the dictionary holds. *)
Fixpoint dict_get (d : list (string * string)) (key : string) : option string :=
  match d with
  | [] => None
  | (k, v) :: rest => if String.eqb k key then Some v else dict_get rest key
  end.

(** *** [validate_url] *)

(** The set of the capturing group: anything but a colon, a slash and
    white space. *)
Definition domain_char (c : ascii) : bool :=
  negb (Py.char_in c ":/" || Py.isspace c).

(** The pattern of [validate_url]: the start of the text, an optional
    [http://] or [https://], then group 1, one or more [domain_char]. *)
Definition url_pattern : Re.regex :=
  Re.Seq Re.Bol
    (Re.Seq
       (Re.Opt (Re.Seq (Re.Lit "http")
                  (Re.Seq (Re.Opt (Re.Cls (fun c => Py.char_in c "s")))
                     (Re.Lit "://"))))
       (Re.Group 1 (Re.PlusCls domain_char))).

(** What the pattern captures, read off the text directly: group 1 at the
    head of [s] is the longest run of [domain_char], if it is not empty. *)
Definition captured (s : string) : option string :=
  match Py.span domain_char s with
  | (String c d, _) => Some (String c d)
  | (EmptyString, _) => None
  end.

(** The run is taken after the scheme when the scheme is there and a run
    follows it, else from the start of the text. *)
Definition domain_of (url : string) : option string :=
  let after_scheme :=
    if Py.startswith "https://" url then captured (Py.drop 8 url)
    else if Py.startswith "http://" url then captured (Py.drop 7 url)
    else None in
  match after_scheme with
  | Some d => Some d
  | None => captured url
  end.

(** [for key in table: if key in domain: return table[key]] *)
Fixpoint first_match (keys : list string) (domain : string) : option string :=
  match keys with
  | [] => None
  | key :: rest =>
      if Py.contains key domain then dict_get SUPPORTED_PLATFORMS key
      else first_match rest domain
  end.

Definition validate_url (url : string) : option string :=
  match Re.re_match url_pattern url with
  | Some m =>
      match Re.group m 1 with
      | Some g =>
          let domain := Py.lower g in
          first_match (map fst SUPPORTED_PLATFORMS) domain
      | None => None
      end
  | None => None
  end.

(** The window as [setup_ui] leaves it: empty URL field, the given text in
    the directory field, the first quality and mp4 selected, only the
    cancel button disabled, an empty history list, no worker. *)
Definition fresh_window (directory : string) (files environment : gmap string string)
    : world :=
  {| url_input := EmptyString; dir_display := directory;
     quality_dropdown := "Best Available (Default)";
     format_dropdown := "mp4";
     download_button := true; cancel_button := false; delete_button := true;
     progress_bar := 0; status_label := "Idle"; history_list := [];
     worker := None; fs := files; environ := environment |}.

(** *** [get_format_option] *)

Definition get_format_option : M string :=
  w ← get;
  let selected_format := format_dropdown w in
  if String.eqb selected_format "mp3" then mret "mp3"
  else if String.eqb selected_format "wav" then mret "wav"
  else if String.eqb selected_format "mov" then mret "mov"
  else mret "mp4".

(** *** The history log *)

(** [save_history]; [write_failure] is what opening or writing the file
    raises, if anything. *)
Definition save_history (write_failure : option exn) : M unit :=
  w ← get;
  let history := history_list w in
  try_except
    (write_text HISTORY_FILE (Json.dumps_list 4 history) write_failure)
    (except_Exception (fun e =>
       message_box Warning "History Save Error"
         ("Failed to save download history: " +:+ exn_str e) ;;
       logging ERROR ("Failed to save download history: " +:+ exn_str e))).

(** [self.history_list.addItem(x)]: a [str] becomes a new item; [None] is
    taken for an absent item and adds nothing; any other value is
    refused. *)
Definition addItem (x : Json.value) : M unit :=
  match x with
  | Json.JString filepath =>
      modify (fun w => set_history_list (history_list w ++ [filepath]) w)
  | Json.JNull => mret tt
  | _ => raise (Exn TypeError "addItem(): argument 1 has unexpected type")
  end.

(** The keys of the [dict] built from the members of an object, in the
    order of their first occurrence. *)
Fixpoint object_keys (members : list (Py.str * Json.value))
    (seen : list Py.str) : list Py.str :=
  match members with
  | [] => []
  | (k, _) :: rest =>
      if bool_decide (k ∈ seen) then object_keys rest seen
      else k :: object_keys rest (k :: seen)
  end.

(** What [for filepath in history] runs through. *)
Definition iterate (history : Json.value) : M (list Json.value) :=
  match history with
  | Json.JArray items => mret items
  | Json.JObject members => mret (Json.JString <$> object_keys members [])
  | Json.JString s => mret ((fun c => Json.JString [c]) <$> s)
  | _ => raise (Exn TypeError "object is not iterable")
  end.

(** [load_history]; [read_failure] is what opening or reading the file
    raises, if anything. *)
Definition load_history (read_failure : option exn) : M unit :=
  present ← path_exists HISTORY_FILE;
  if (present : bool) then
    try_except
      (may_raise read_failure ;;
       w ← get;
       match Json.loads (default EmptyString (fs w !! HISTORY_FILE)) with
       | None => raise (Exn JSONDecodeError "Expecting value")
       | Some history => items ← iterate history; for_each items addItem
       end)
      (except_Exception (fun e =>
         message_box Warning "History Load Error"
           ("Failed to load download history: " +:+ exn_str e) ;;
         logging ERROR ("Failed to load download history: " +:+ exn_str e)))
  else mret tt.

(** [add_to_history], the slot of the [download_complete] signal. *)
Definition add_to_history (filepath : Py.str) (write_failure : option exn)
    : M unit :=
  modify (fun w => set_history_list (history_list w ++ [filepath]) w) ;;
  save_history write_failure ;;
  logging INFO (Py.of_latin1 "Download completed: " ++ filepath) ;;
  modify (set_download_button true) ;;
  modify (set_cancel_button false) ;;
  modify (set_delete_button true) ;;
  modify (set_status_label "Download finished.").

Section WithOsPath.
Context `{OsPath}.

(** [os.path.exists(filepath)] for the text of an item: the path as a key
    of the files when a file of that name exists.  A text with a code
    point of 256 or more names none of the files. *)
Definition existing_file (filepath : Py.str) : M (option string) :=
  match Py.latin1 filepath with
  | Some p =>
      present ← path_exists p;
      mret (if (present : bool) then Some p else None)
  | None => mret None
  end.

(** [delete_selected_file].  The list widget is in its default
    single-selection mode, so [selectedItems()] holds the item of the
    selected row, if a row is selected. *)
Definition delete_item (row : nat) (filepath : Py.str)
    (remove_failure write_failure : option exn) : M unit :=
  present ← existing_file filepath;
  match present with
  | Some p =>
    try_except
      (os_remove p remove_failure ;;
       logging INFO ("Deleted file: " +:+ p) ;;
       modify (fun w => set_history_list (delete row (history_list w)) w) ;;
       save_history write_failure)
      (except_Exception (fun e =>
         message_box Critical "Deletion Error"
           ("Failed to delete '" +:+ path_basename p +:+ "': "
            +:+ exn_str e) ;;
         logging ERROR ("Failed to delete '" +:+ p +:+ "': "
                        +:+ exn_str e)))
  | None =>
    message_box Warning "File Not Found"
      (Py.of_latin1 ("The file does not exist:" +:+ String Json.newline "")
       ++ filepath) ;;
    logging WARNING (Py.of_latin1 "File not found for deletion: " ++ filepath)
  end.

Definition delete_selected_file (selected_row : option nat)
    (remove_failure write_failure : option exn) : M unit :=
  w ← get;
  let selected_items :=
    match selected_row with
    | Some row =>
        match history_list w !! row with
        | Some filepath => [(row, filepath)]
        | None => []
        end
    | None => []
    end in
  match selected_items with
  | [] =>
      message_box Information "No Selection" "Please select a file to delete."
  | _ =>
      for_each selected_items
        (fun item => delete_item item.1 item.2 remove_failure write_failure)
  end.

(** *** [start_download] *)

(** What the surroundings answer during one call of [start_download]. *)
Record download_env : Type := {
  extract_info_result : outcome (gmap string pyvalue);
                                   (* ydl.extract_info(url, download=False) *)
  overwrite_answer : bool;         (* Yes to the question File Exists *)
  remove_failure : option exn;     (* raised by os.remove, if any *)
  which_ffmpeg : option string     (* shutil.which of ffmpeg *)
}.

(** The characters the sanitising pattern removes from a title. *)
Definition unsafe_chars : string :=
  String Json.backslash (String "/" (String "*" (String "?" (String ":"
    (String Json.quote (String "<" (String ">" (String "|" EmptyString)))))))).

Definition unsafe_char (c : ascii) : bool := Py.char_in c unsafe_chars.

(** The same nine characters, listed: backslash, slash, star, question
    mark, colon, double quote, less-than, greater-than and bar. *)
Definition forbidden : list ascii :=
  [ "\"; "/"; "*"; "?"; ":"; "034"; "<"; ">"; "|" ]%char.

(** The extension chosen for the expected file. *)
Definition ext_of (export_format : string) : string :=
  if bool_decide (export_format ∈ ["mp3"; "wav"]) then export_format
  else if String.eqb export_format "mov" then "mov"
  else "mp4".

(** The file name expected for a title: the title without the unsafe
    characters, a dot, the extension. *)
Definition expected_filename (title export_format : string) : string :=
  let ext := ext_of export_format in
  let filename := Re.sub_cls unsafe_char EmptyString title in
  filename +:+ "." +:+ ext.

(** The body of the [try] that asks the library for the title. *)
Definition expected_path (directory export_format : string)
    (env : download_env) (url : string) : M string :=
  emit (ExtractInfo url) ;;
  match extract_info_result env with
  | Raise e => raise e
  | Ret info =>
      match default (PStr "downloaded_video") (info !! "title") with
      | PStr title =>
          mret (path_join directory (expected_filename title export_format))
      | _ => raise (Exn TypeError "expected string or bytes-like object")
      end
  end.

Definition ffmpeg_location (env : download_env) : pyvalue :=
  match which_ffmpeg env with
  | Some p => PStr p
  | None => PNone
  end.

(** The post-processor entries of [ydl_opts]. *)
Definition extract_audio (codec : string) : gmap string string :=
  {[ "key" := "FFmpegExtractAudio";
     "preferredcodec" := codec;
     "preferredquality" := "192" ]}.

Definition video_convertor (format : string) : gmap string string :=
  {[ "key" := "FFmpegVideoConvertor"; "preferedformat" := format ]}.

(** [ydl_opts], as built for one format choice. *)
Definition ydl_opts_for (format_choice directory : string)
    (env : download_env) : gmap string pyvalue :=
  let ydl_opts : gmap string pyvalue :=
    {[ "outtmpl" := PStr (path_join directory "%(title)s.%(ext)s");
       "quiet" := PBool true;
       "noprogress" := PBool true;
       "ffmpeg_location" := ffmpeg_location env ]} in
  if String.eqb format_choice "mp3" then
    <["postprocessors" := PDicts (cons (extract_audio "mp3") nil)]>
      (<["format" := PStr "bestaudio/best"]> ydl_opts)
  else if String.eqb format_choice "wav" then
    <["postprocessors" := PDicts (cons (extract_audio "wav") nil)]>
      (<["format" := PStr "bestaudio/best"]> ydl_opts)
  else if String.eqb format_choice "mov" then
    <["postprocessors" := PDicts (cons (video_convertor "mov") nil)]>
      (<["format" := PStr "bestvideo+bestaudio/best"]> ydl_opts)
  else
    <["format" := PStr "bestvideo+bestaudio/best"]> ydl_opts.

(** The check for an existing file: [true] when the download goes on. *)
Definition confirm_overwrite (expected_filepath : string) (env : download_env)
    : M bool :=
  present ← path_exists expected_filepath;
  if (present : bool) then
    message_box Question "File Exists"
      ("The file '" +:+ path_basename expected_filepath
       +:+ "' already exists."
       +:+ String Json.newline "Do you want to overwrite it?") ;;
    if negb (overwrite_answer env) then
      message_box Information "Download Skipped"
        "The download has been skipped." ;;
      mret false
    else
      try_except
        (os_remove expected_filepath (remove_failure env) ;;
         logging INFO ("Existing file '" +:+ expected_filepath
                       +:+ "' removed for overwrite.") ;;
         mret true)
        (except_Exception (fun e =>
           message_box Critical "Error"
             ("Failed to remove existing file: " +:+ exn_str e) ;;
           logging ERROR ("Failed to remove existing file '"
                          +:+ expected_filepath +:+ "': " +:+ exn_str e) ;;
           mret false))
  else mret true.

(** The part of [start_download] after the checks of its input. *)
Definition launch (url directory export_format platform_name : string)
    (env : download_env) : M unit :=
  r ← try_except
        (p ← expected_path directory export_format env url; mret (Some p))
        (except_Exception (fun e =>
           message_box Critical "Error"
             ("Failed to retrieve video information: " +:+ exn_str e) ;;
           logging ERROR
             ("Failed to retrieve video information: " +:+ exn_str e) ;;
           mret None));
  match r with
  | None => mret tt
  | Some expected_filepath =>
      go_on ← confirm_overwrite expected_filepath env;
      if (go_on : bool) then
        modify (set_download_button false) ;;
        modify (set_cancel_button true) ;;
        modify (set_delete_button false) ;;
        modify (set_status_label
                  ("Starting download from " +:+ platform_name +:+ "...")) ;;
        modify (set_progress_bar 0) ;;
        format_choice ← get_format_option;
        let ydl_opts := ydl_opts_for format_choice directory env in
        emit NewThread ;;
        modify (set_worker
                  (Some {| w_opts := ydl_opts; w_url := url;
                           w_format_choice := format_choice;
                           w_final_filepath := expected_filepath |})) ;;
        emit ThreadStart
      else mret tt
  end.

Definition start_download (env : download_env) : M unit :=
  w ← get;
  let url := Py.strip (url_input w) in
  let directory := Py.strip (dir_display w) in
  export_format ← get_format_option;
  let selected_quality := quality_dropdown w in
  if negb (Py.truthy url) then
    message_box Warning "Input Error" "Please enter a video URL."
  else if negb (Py.truthy directory) then
    message_box Warning "Input Error" "Please select a download directory."
  else
    match validate_url url with
    | Some platform_name =>
        if Py.truthy platform_name then
          launch url directory export_format platform_name env
        else
          message_box Warning "Unsupported URL"
            "The provided URL is either unsupported or invalid."
    | None =>
        message_box Warning "Unsupported URL"
          "The provided URL is either unsupported or invalid."
    end.

End WithOsPath.
End YouTubeDownloader.

(** ** The background task, class [DownloadWorker] *)

Module DownloadWorker.
Import Eff.

(** [int(float(s))]: a number, or [ValueError] when [s] is no float
    literal, or [OverflowError] for an infinity. *)
Inductive conversion : Type :=
| Converted (z : Z)
| NoFloat (msg : string)
| Infinite (msg : string).

(** What the download library does during [download([url])]: it returns,
    it raises, or it calls the progress hooks with a status dictionary and
    goes on according to how the hook ended.  A behaviour is a finite
    tree: the call comes to an end. *)
Inductive ydl_behaviour : Type :=
| Returns
| Raises (e : exn)
| CallsHook (d : gmap string pyvalue) (k : outcome unit -> ydl_behaviour).

Definition is_str (v : pyvalue) (s : string) : bool :=
  match v with
  | PStr x => String.eqb x s
  | _ => false
  end.

Section Worker.
(** Floating-point parsing is left to the caller of the model. *)
Variable int_of_float : string -> conversion.
Variable self : worker_args.

Definition parse_percent (percent_str : string) : M Z :=
  try_except
    (match int_of_float percent_str with
     | Converted z => mret z
     | NoFloat msg => raise (Exn ValueError msg)
     | Infinite msg => raise (Exn OverflowError msg)
     end)
    (except ValueError (fun _ => mret 0%Z)).

Definition progress_hook (d : gmap string pyvalue) : M unit :=
  match d !! "status" with
  | None => raise (Exn KeyError "'status'")
  | Some status =>
      if is_str status "downloading" then
        match default (PStr "0.0%") (d !! "_percent_str") with
        | PStr s =>
            let percent_str := Py.strip_chars "%" s in
            percent ← parse_percent percent_str;
            emit (Emit (progress percent))
        | _ => raise (Exn AttributeError "object has no attribute 'strip'")
        end
      else if is_str status "finished" then
        emit (Emit (download_complete (w_final_filepath self)))
      else mret tt
  end.

(** [self.downloader.download([self.url])] with [progress_hook] added. *)
Fixpoint download (lib : ydl_behaviour) : M unit :=
  match lib with
  | Returns => mret tt
  | Raises e => raise e
  | CallsHook d k =>
      fun w =>
        let '(o, w1, t1) := progress_hook d w in
        let '(o', w2, t2) := download (k o) w1 in
        (o', w2, t1 ++ t2)
  end.

Definition run (lib : ydl_behaviour) : M unit :=
  try_finally
    (try_except
       (download lib)
       (or_else
          (except DownloadError (fun de =>
             emit (Emit (error ("Download failed: " +:+ exn_str de))) ;;
             logging ERROR ("Download failed: " +:+ exn_str de)))
          (except_Exception (fun e =>
             emit (Emit (error ("An unexpected error occurred: "
                                +:+ exn_str e))) ;;
             logging ERROR ("Unexpected error: " +:+ exn_str e)))))
    (emit (Emit finished)).

End Worker.

(** The class attribute a signal is declared as. *)
Definition signal_name (s : signal) : string :=
  match s with
  | progress _ => "progress"
  | error _ => "error"
  | finished => "finished"
  | download_complete _ => "download_complete"
  end.

(** The signals the progress hook may emit, and the events it may cause. *)
Definition hook_signal (s : signal) : Prop :=
  match s with
  | progress _ | download_complete _ => True
  | error _ | finished => False
  end.

Definition hook_event (ev : event) : Prop :=
  match ev with
  | Emit s => hook_signal s
  | _ => False
  end.

(** The signals among the events of a trace, in order. *)
Fixpoint signals_of (t : list event) : list signal :=
  match t with
  | [] => []
  | Emit s :: rest => s :: signals_of rest
  | _ :: rest => signals_of rest
  end.

End DownloadWorker.

(** ** The other methods of the main window *)

Module Window.
Import Eff YouTubeDownloader.

Definition QUALITY_OPTIONS : list string :=
  [ "Best Available (Default)"; "Best Video + Audio"; "Best Video Only";
    "Best Audio Only"; "720p"; "1080p"; "4K" ].

Definition set_dir_display (s : string) (w : world) : world :=
  {| url_input := url_input w; dir_display := s;
     quality_dropdown := quality_dropdown w;
     format_dropdown := format_dropdown w;
     download_button := download_button w; cancel_button := cancel_button w;
     delete_button := delete_button w; progress_bar := progress_bar w;
     status_label := status_label w; history_list := history_list w;
     worker := worker w; fs := fs w; environ := environ w |}.

Definition set_quality_dropdown (s : string) (w : world) : world :=
  {| url_input := url_input w; dir_display := dir_display w;
     quality_dropdown := s;
     format_dropdown := format_dropdown w;
     download_button := download_button w; cancel_button := cancel_button w;
     delete_button := delete_button w; progress_bar := progress_bar w;
     status_label := status_label w; history_list := history_list w;
     worker := worker w; fs := fs w; environ := environ w |}.

Definition set_format_dropdown (s : string) (w : world) : world :=
  {| url_input := url_input w; dir_display := dir_display w;
     quality_dropdown := quality_dropdown w;
     format_dropdown := s;
     download_button := download_button w; cancel_button := cancel_button w;
     delete_button := delete_button w; progress_bar := progress_bar w;
     status_label := status_label w; history_list := history_list w;
     worker := worker w; fs := fs w; environ := environ w |}.

(** [QProgressBar.setValue] with the default range 0..100: a value outside
    the range is ignored. *)
Definition progress_bar_setValue (v : Z) (w : world) : world :=
  if bool_decide (0 <= v <= 100)%Z then set_progress_bar v w else w.

(** [is_ffmpeg_installed]; [which] is [shutil.which("ffmpeg")]. *)
Definition is_ffmpeg_installed (which : option string) : bool :=
  match which with
  | Some _ => true
  | None => false
  end.

(** What the machine and the user answer while the window is created. *)
Record startup_env : Type := {
  home : string;                        (* os.path.expanduser('~') *)
  downloads_dir_exists : bool;          (* os.path.exists of the default *)
  downloads_makedirs_failure : option exn;
  history_read_failure : option exn;
  ffmpeg_on_path : option string;       (* shutil.which("ffmpeg") *)
  install_answer : bool;                (* Yes to the installation prompt *)
  installer : Installer.install_env
}.

Section WithOsPath.
Context `{OsPath}.

(** [prompt_ffmpeg_installation].  The answer is [Some status] when the
    method ends in [sys.exit(status)], which nothing around it catches, and
    [None] when it returns.  The informative text of the box follows its
    text after a line break. *)
Definition prompt_ffmpeg_installation (env : startup_env) : M (option Z) :=
  message_box Warning "FFmpeg Not Found"
    ("You need FFmpeg to run this program."
     +:+ String Json.newline "Install temporarily? (This is required to run)") ;;
  if install_answer env then
    success ← Installer.download_and_install_ffmpeg (installer env);
    if (success : bool) then
      message_box Information "FFmpeg Installed"
        "FFmpeg has been installed temporarily and added to the current session's PATH." ;;
      mret None
    else
      message_box Critical "FFmpeg Installation Failed"
        "Failed to install FFmpeg automatically. The application will now close." ;;
      mret (Some 1%Z)
  else
    message_box Critical "FFmpeg Required"
      "FFmpeg is required to run this program. The application will now close." ;;
    mret (Some 1%Z).

(** [check_ffmpeg] *)
Definition check_ffmpeg (env : startup_env) : M (option Z) :=
  if negb (is_ffmpeg_installed (ffmpeg_on_path env))
  then prompt_ffmpeg_installation env
  else mret None.

(** The step of [setup_ui] that can fail: the default directory is created
    when it is missing, and the directory field is emptied when that
    fails. *)
Definition ensure_default_dir (env : startup_env) : M unit :=
  let default_download_dir := path_join (home env) "Downloads" in
  if negb (downloads_dir_exists env) then
    try_except
      (makedirs default_download_dir (downloads_makedirs_failure env))
      (except_Exception (fun e =>
         message_box Critical "Directory Error"
           ("Failed to create default directory: " +:+ exn_str e) ;;
         modify (set_dir_display EmptyString)))
  else mret tt.

(** [__init__]: the window is set up, the history is loaded, FFmpeg is
    looked for.  [files] and [environment] are the files and the process
    environment found at start. *)
Definition init (env : startup_env) (files environment : gmap string string)
    : outcome (option Z) * world * list event :=
  let default_download_dir := path_join (home env) "Downloads" in
  (ensure_default_dir env ;;
   load_history (history_read_failure env) ;;
   check_ffmpeg env)
    (fresh_window default_download_dir files environment).

End WithOsPath.

(** [browse_directory]; [chosen] is what the dialog returns, the empty
    string when it is cancelled. *)
Definition browse_directory (chosen : string) : M unit :=
  if Py.truthy chosen then modify (set_dir_display chosen) else mret tt.

(** The slots below also stop and join the worker thread when there is
    one; the thread is no part of the state modelled here, so that step
    leaves it as it is. *)

(** [cancel_download]; [interrupt_failure] is what the call into the
    download library raises, if anything. *)
Definition cancel_download (interrupt_failure : option exn) : M unit :=
  w ← get;
  match worker w with
  | Some _ =>
      may_raise interrupt_failure ;;
      modify (set_status_label "Download canceled.") ;;
      modify (set_download_button true) ;;
      modify (set_cancel_button false) ;;
      modify (set_delete_button true) ;;
      logging INFO "Download canceled by user."
  | None => mret tt
  end.

(** [update_progress], the slot of the [progress] signal. *)
Definition update_progress (percent : Z) : M unit :=
  modify (progress_bar_setValue percent) ;;
  modify (set_status_label ("Downloading... " +:+ pretty percent +:+ "%")).

(** [handle_error], the slot of the [error] signal. *)
Definition handle_error (error_message : string) : M unit :=
  message_box Critical "Download Error" error_message ;;
  modify (set_status_label "Download failed.") ;;
  modify (set_download_button true) ;;
  modify (set_cancel_button false) ;;
  modify (set_delete_button true) ;;
  logging ERROR ("Download error: " +:+ error_message).

(** [download_finished], the slot of the [finished] signal. *)
Definition download_finished : M unit :=
  modify (set_status_label "Download finished.") ;;
  modify (set_download_button true) ;;
  modify (set_cancel_button false) ;;
  modify (set_delete_button true) ;;
  logging INFO "Download thread finished.".

(** What can happen to the window once it is shown: the user edits a
    field, picks an entry of a dropdown, presses a button, or a signal of
    the worker is delivered. *)
Inductive action : Type :=
| EditUrl (text : string)
| PickQuality (index : nat)
| PickFormat (index : nat)
| BrowseDirectory (chosen : string)
| StartDownload (env : download_env)
| CancelDownload (interrupt_failure : option exn)
| DeleteSelectedFile (selected_row : option nat)
    (remove_failure write_failure : option exn)
| ProgressSignal (percent : Z)
| ErrorSignal (error_message : string)
| DownloadCompleteSignal (filepath : string) (write_failure : option exn)
| FinishedSignal.

(** Picking an entry of a dropdown sets its text to that entry. *)
Definition pick (options : list string) (index : nat)
    (set : string -> world -> world) : M unit :=
  match options !! index with
  | Some text => modify (set text)
  | None => mret tt
  end.

(** A click reaches its slot only while the button is enabled. *)
Definition clicked (enabled : world -> bool) (slot : M unit) : M unit :=
  w ← get;
  if enabled w then slot else mret tt.

(** The slot each action runs, as connected in [setup_ui] and in
    [start_download]. *)
Definition step `{OsPath} (a : action) : M unit :=
  match a with
  | EditUrl text => modify (set_url_input text)
  | PickQuality i => pick QUALITY_OPTIONS i set_quality_dropdown
  | PickFormat i => pick FORMAT_OPTIONS i set_format_dropdown
  | BrowseDirectory chosen => browse_directory chosen
  | StartDownload env => clicked download_button (start_download env)
  | CancelDownload f => clicked cancel_button (cancel_download f)
  | DeleteSelectedFile row rf wf =>
      clicked delete_button (delete_selected_file row rf wf)
  | ProgressSignal percent => update_progress percent
  | ErrorSignal msg => handle_error msg
  | DownloadCompleteSignal filepath wf => add_to_history filepath wf
  | FinishedSignal => download_finished
  end.




(** *** What [start_download] comes to *)

(** The format [get_format_option] answers in a state. *)
Definition chosen_format (w : world) : string :=
  if bool_decide (format_dropdown w ∈ ["mp3"; "wav"; "mov"])
  then format_dropdown w else "mp4".

(** The title the library reports, when it reports a string. *)
Definition reported_title (env : download_env) : option string :=
  match extract_info_result env with
  | Ret info =>
      match default (PStr "downloaded_video") (info !! "title") with
      | PStr title => Some title
      | _ => None
      end
  | Raise _ => None
  end.

(** The platform and the expected file of a download that passes the
    checks of its input and learns its title. *)
Definition prepared `{OsPath} (env : download_env) (w : world)
    : option (string * string) :=
  let url := Py.strip (url_input w) in
  let directory := Py.strip (dir_display w) in
  if Py.truthy url && Py.truthy directory then
    platform_name ← validate_url url;
    title ← reported_title env;
    Some (platform_name,
          path_join directory (expected_filename title (chosen_format w)))
  else None.

(** The download is started when the expected file is not there, or when
    the user agrees to overwrite it and it can be removed. *)
Definition started `{OsPath} (env : download_env) (w : world)
    : option (string * string) :=
  p ← prepared env w;
  if bool_decide (fs w !! p.2 = None) then Some p
  else if overwrite_answer env then
    match remove_failure env with
    | None => Some p
    | Some _ => None
    end
  else None.

(** The state a started download leaves: the expected file is gone, the
    buttons are in their busy configuration, the status names the
    platform, the progress bar is at 0 and the worker is set. *)
Definition launched `{OsPath} (platform_name filepath : string)
    (env : download_env) (w : world) : world :=
  set_worker
    (Some {| w_opts := ydl_opts_for (chosen_format w)
                         (Py.strip (dir_display w)) env;
             w_url := Py.strip (url_input w);
             w_format_choice := chosen_format w;
             w_final_filepath := filepath |})
    (set_progress_bar 0
       (set_status_label ("Starting download from " +:+ platform_name +:+ "...")
          (set_delete_button false
             (set_cancel_button true
                (set_download_button false
                   (set_fs (delete filepath (fs w)) w)))))).

(** The state after a sequence of actions, each slot running to its end
    before the next action is taken; the state a slot leaves counts also
    when it ended in an exception. *)
Definition steps `{OsPath} (actions : list action) (w : world) : world :=
  foldl (fun w a => (step a w).1.2) w actions.

(** The buttons as they stand while nothing is downloaded, and while a
    download runs. *)
Definition idle_buttons (w : world) : Prop :=
  download_button w = true /\ cancel_button w = false /\
  delete_button w = true.

Definition busy_buttons (w : world) : Prop :=
  download_button w = false /\ cancel_button w = true /\
  delete_button w = false.

(** Every dropdown shows one of its entries, the progress bar is within its
    range, the buttons are in one of their two configurations, and a
    download is marked as running only when a worker was created. *)
Definition controls_ok (w : world) : Prop :=
  (idle_buttons w \/ busy_buttons w) /\
  (0 <= progress_bar w <= 100)%Z /\
  format_dropdown w ∈ FORMAT_OPTIONS /\
  quality_dropdown w ∈ QUALITY_OPTIONS /\
  (busy_buttons w -> is_Some (worker w)).

(** What holds of a worker the window created: its format is one of the
    four, its options are those built for that format, its URL is one of a
    supported platform, and the file it announces is an expected file for
    that format. *)
Definition worker_ok `{OsPath} (w : world) : Prop :=
  forall args, worker w = Some args ->
    w_format_choice args ∈ FORMAT_OPTIONS /\
    is_Some (validate_url (w_url args)) /\
    (exists directory env,
        w_opts args = ydl_opts_for (w_format_choice args) directory env) /\
    (exists directory title,
        w_final_filepath args
          = path_join directory
              (expected_filename title (w_format_choice args))).

(** The strings at the head of a list of JSON values, up to the first
    value that is neither a string nor [null]. *)
Fixpoint leading_strings (items : list Json.value) : list Py.str :=
  match items with
  | Json.JString s :: rest => s :: leading_strings rest
  | Json.JNull :: rest => leading_strings rest
  | _ => []
  end.

(** What [for filepath in history] runs through, or [None] when the value
    cannot be iterated. *)
Definition elements (history : Json.value) : option (list Json.value) :=
  match history with
  | Json.JArray items => Some items
  | Json.JObject members => Some (Json.JString <$> object_keys members [])
  | Json.JString s => Some ((fun c => Json.JString [c]) <$> s)
  | _ => None
  end.

(** A character the history file may hold: printable ASCII or a line
    break. *)
Definition plain (c : ascii) : Prop :=
  c = Json.newline \/ (32 <= Py.ord c <= 126)%N.

#[export] Instance plain_dec (c : ascii) : Decision (plain c) :=
  or_dec (decide (c = Json.newline)) (decide (32 <= Py.ord c <= 126)%N).

(** An event that, if it writes a file, writes printable text to the
    history file. *)
Definition writes_plain_history (ev : event) : Prop :=
  match ev with
  | FileWrite p content =>
      p = HISTORY_FILE /\ Forall plain (list_ascii_of_string content)
  | _ => True
  end.

Definition all_strings (items : list Json.value) : bool :=
  forallb (fun v => match v with
                    | Json.JString _ | Json.JNull => true
                    | _ => false
                    end)
          items.

(** Whether an action leaves the history file writable: its write, if it
    makes one, does not fail. *)
Definition writes_succeed (a : action) : Prop :=
  match a with
  | DeleteSelectedFile _ _ write_failure => write_failure = None
  | DownloadCompleteSignal _ write_failure => write_failure = None
  | _ => True
  end.

(** The list kept in step with its file: the file holds the serialisation
    of the list. *)
Definition history_synced (w : world) : Prop :=
  fs w !! HISTORY_FILE = Some (Json.dumps_list 4 (history_list w)).

End Window.

(** * Facts about the string primitives *)

Section StringFacts.

Lemma app_cons (c : ascii) (s t : string) :
  String c s +:+ t = String c (s +:+ t).
Proof. reflexivity. Qed.

Lemma app_empty_l (s : string) : EmptyString +:+ s = s.
Proof. reflexivity. Qed.

Lemma app_empty_r (s : string) : s +:+ EmptyString = s.
Proof. induction s as [|c s IH]; [reflexivity|]. by rewrite app_cons, IH. Qed.

Lemma app_assoc_str (a b c : string) : (a +:+ b) +:+ c = a +:+ (b +:+ c).
Proof.
  induction a as [|x a IH]; [reflexivity|].
  by rewrite !app_cons, IH.
Qed.

Lemma length_app_str (a b : string) :
  String.length (a +:+ b) = String.length a + String.length b.
Proof. induction a as [|x a IH]; [reflexivity|]. rewrite app_cons. simpl. lia. Qed.

Lemma drop_0 (s : string) : Py.drop 0 s = s.
Proof.
  unfold Py.drop. rewrite Nat.sub_0_r.
  induction s as [|c s IH]; [done|]. simpl. by rewrite IH.
Qed.

Lemma drop_cons (n : nat) (c : ascii) (s : string) :
  Py.drop (S n) (String c s) = Py.drop n s.
Proof. reflexivity. Qed.

Lemma drop_empty (n : nat) : Py.drop n EmptyString = EmptyString.
Proof. by destruct n. Qed.

Lemma drop_drop (m n : nat) (s : string) :
  Py.drop n (Py.drop m s) = Py.drop (m + n) s.
Proof.
  revert s. induction m as [|m IH]; intros s.
  - by rewrite drop_0.
  - destruct s as [|c s].
    + by rewrite !drop_empty.
    + simpl. by rewrite !drop_cons, IH.
Qed.

Lemma startswith_app (a b s : string) :
  Py.startswith (a +:+ b) s =
  Py.startswith a s && Py.startswith b (Py.drop (String.length a) s).
Proof.
  revert s. induction a as [|x a IH]; intros s.
  - by rewrite app_empty_l, drop_0.
  - rewrite app_cons. destruct s as [|y s]; [done|].
    simpl. rewrite drop_cons, IH. by rewrite andb_assoc.
Qed.

Lemma startswith_cons (a b : ascii) (p s : string) :
  Py.startswith (String a p) (String b s) = Ascii.eqb a b && Py.startswith p s.
Proof. reflexivity. Qed.

Lemma startswith_spec (p s : string) :
  Py.startswith p s = true <-> exists post, s = p +:+ post.
Proof.
  revert s. induction p as [|a p IH]; intros s; simpl.
  - split; [intros _; by exists s | done].
  - destruct s as [|b s].
    + split; [done | intros [post Hpost]; discriminate].
    + rewrite andb_true_iff, Ascii.eqb_eq, IH. split.
      * intros [-> [post ->]]. by exists post.
      * intros [post Hpost]. rewrite app_cons in Hpost.
        injection Hpost as -> ->. eauto.
Qed.

Lemma contains_spec (key s : string) :
  Py.contains key s = true <-> Py.occurs_in key s.
Proof.
  unfold Py.occurs_in. induction s as [|c s IH].
  - simpl. rewrite orb_false_r, startswith_spec. split.
    + intros [post Hpost]. by exists EmptyString, post.
    + intros [[|x pre] [post Hpost]]; [by exists post|discriminate].
  - cbn [Py.contains]. rewrite orb_true_iff, startswith_spec, IH. split.
    + intros [[post Hpost] | (pre & post & Hs)].
      * by exists EmptyString, post.
      * exists (String c pre), post. by rewrite app_cons, Hs.
    + intros [[|x pre] [post Hs]].
      * left. by exists post.
      * right. rewrite app_cons in Hs. injection Hs as -> ->. eauto.
Qed.

(** The longest prefix of characters in a set, and what follows it. *)
Lemma span_app (p : ascii -> bool) (s : string) :
  (Py.span p s).1 +:+ (Py.span p s).2 = s.
Proof.
  induction s as [|c s IH]; [reflexivity|]. simpl.
  destruct (p c); [|reflexivity].
  destruct (Py.span p s) as [a b]. simpl in *. by rewrite app_cons, IH.
Qed.

Lemma consumed_app (pre rest : string) : Re.consumed (pre +:+ rest) rest = pre.
Proof.
  induction pre as [|c pre IH].
  - rewrite app_empty_l. destruct rest; simpl; [done|].
    by rewrite Nat.leb_refl.
  - rewrite app_cons. cbn [Re.consumed].
    replace (String.length (String c (pre +:+ rest)) <=? String.length rest)
      with false; [by rewrite IH|].
    symmetry. apply Nat.leb_gt. simpl. rewrite length_app_str. lia.
Qed.

End StringFacts.

(** * Facts about the matcher *)

Section MatcherFacts.
Context {R : Type}.
Implicit Types (k : @Re.cont R) (caps : gmap nat string).

(** A literal matches exactly when the text starts with it. *)
Lemma run_Lit lit pos s caps k :
  Re.run (Re.Lit lit) pos s caps k =
  if Py.startswith lit s
  then k (pos + String.length lit) (Py.drop (String.length lit) s) caps
  else None.
Proof.
  revert pos s. induction lit as [|c lit IH]; intros pos s.
  - simpl. by rewrite Nat.add_0_r, drop_0.
  - simpl. destruct s as [|a s]; [done|].
    rewrite (Ascii.eqb_sym c a). destruct (Ascii.eqb a c); [|done].
    simpl. rewrite IH. by rewrite Nat.add_succ_comm.
Qed.

(** Greedy repetition reaches the end of the longest run when the
    continuation accepts there. *)
Lemma star_cls_greedy p pos s caps k x :
  k (pos + String.length (Py.span p s).1) (Py.span p s).2 caps = Some x ->
  Re.star_cls p pos s caps k = Some x.
Proof.
  revert pos. induction s as [|c s IH]; intros pos; simpl.
  - by rewrite Nat.add_0_r.
  - destruct (p c) eqn:Hc.
    + destruct (Py.span p s) as [a b] eqn:Hspan. simpl in *.
      intros Hk. rewrite (IH (S pos)); [done|].
      by rewrite Nat.add_succ_comm.
    + simpl. by rewrite Nat.add_0_r.
Qed.

End MatcherFacts.

(** * The classifier *)

Section Classifier.
Import YouTubeDownloader.

(** Group 1 of the pattern, run at the head of a text. *)
Lemma run_group1 pos s caps :
  Re.run (Re.Group 1 (Re.PlusCls domain_char)) pos s caps
    (fun _ _ caps' => Some caps') =
  (fun d => <[1 := d]> caps) <$> captured s.
Proof.
  unfold captured. destruct s as [|c s]; [reflexivity|].
  cbn [Re.run Py.span]. destruct (domain_char c); [|reflexivity].
  pose proof (span_app domain_char s) as Hs.
  destruct (Py.span domain_char s) as [d rest] eqn:E. simpl in Hs.
  erewrite star_cls_greedy; [reflexivity|]. rewrite E. cbn beta.
  by rewrite <- Hs, <- app_cons, consumed_app.
Qed.

(** The optional scheme, run before any continuation. *)
Lemma run_scheme {R} pos url caps (k : @Re.cont R) :
  Re.run (Re.Seq (Re.Lit "http")
            (Re.Seq (Re.Opt (Re.Cls (fun c => Py.char_in c "s")))
               (Re.Lit "://"))) pos url caps k =
  if Py.startswith "https://" url then k (pos + 8) (Py.drop 8 url) caps
  else if Py.startswith "http://" url then k (pos + 7) (Py.drop 7 url) caps
  else None.
Proof.
  cbn [Re.run]. rewrite !run_Lit.
  change "https://" with ("http" +:+ "s://").
  change "http://" with ("http" +:+ "://").
  rewrite !startswith_app.
  destruct (Py.startswith "http" url); [|done]. cbn [andb].
  replace (Py.drop 8 url) with (Py.drop 4 (Py.drop 4 url))
    by by rewrite drop_drop.
  replace (Py.drop 7 url) with (Py.drop 3 (Py.drop 4 url))
    by by rewrite drop_drop.
  change (String.length "http") with 4.
  destruct (Py.drop 4 url) as [|a u]; [done|].
  destruct (Ascii.eqb_spec a "s") as [->|Hne].
  - cbn [Py.char_in Ascii.eqb Bool.eqb orb]. rewrite !run_Lit.
    rewrite !startswith_cons. cbn [Ascii.eqb Bool.eqb andb]. rewrite drop_cons.
    replace (S (pos + 4) + String.length "://") with (pos + 8) by (simpl; lia).
    destruct (Py.startswith "://" u); [|done].
    by destruct (k _ _ _).
  - assert (Ascii.eqb a "s" = false) as E by by apply Ascii.eqb_neq.
    assert (Ascii.eqb "s" a = false) as E' by by rewrite Ascii.eqb_sym.
    cbn [Py.char_in]. rewrite E, run_Lit.
    rewrite (startswith_cons "s"), E'. cbn [andb orb].
    replace (pos + 4 + String.length "://") with (pos + 7) by (simpl; lia).
    done.
Qed.

(** What [re.match] returns for the pattern of [validate_url]. *)
Lemma re_match_url_pattern url :
  Re.re_match url_pattern url = (fun d => {[1 := d]}) <$> domain_of url.
Proof.
  unfold Re.re_match, url_pattern, domain_of.
  change (Re.run (Re.Seq Re.Bol ?r) 0 url ∅ ?k) with (Re.run r 0 url ∅ k).
  change (Re.run (Re.Seq (Re.Opt ?p) ?g) 0 url ∅ ?k)
    with (match Re.run p 0 url ∅ (fun pos' s' caps' => Re.run g pos' s' caps' k)
          with Some x => Some x | None => Re.run g 0 url ∅ k end).
  rewrite run_scheme, !run_group1.
  destruct (Py.startswith "https://" url).
  - by destruct (captured (Py.drop 8 url)).
  - destruct (Py.startswith "http://" url).
    + by destruct (captured (Py.drop 7 url)).
    + done.
Qed.
(** The loop of [validate_url] stops at the first key the domain holds. *)
Lemma first_match_list_find keys domain :
  first_match keys domain =
  list_find (fun key => Py.contains key domain = true) keys
    ≫= (fun hit => dict_get SUPPORTED_PLATFORMS hit.2).
Proof.
  induction keys as [|key keys IH]; [reflexivity|].
  cbn [first_match list_find]. case_decide as Hkey.
  - by rewrite Hkey.
  - apply not_true_is_false in Hkey. rewrite Hkey, IH.
    by destruct (list_find _ keys) as [[i k]|].
Qed.

(** The table has one name for each of its keys. *)
Lemma dict_get_entry i key name :
  SUPPORTED_PLATFORMS !! i = Some (key, name) ->
  dict_get SUPPORTED_PLATFORMS key = Some name.
Proof.
  intros Hi. unfold SUPPORTED_PLATFORMS in Hi.
  do 6 (destruct i as [|i]; [by simplify_eq/=|]). done.
Qed.

Lemma validate_url_domain url :
  validate_url url =
  domain_of url ≫= (fun g =>
    first_match SUPPORTED_PLATFORMS.*1 (Py.lower g)).
Proof.
  unfold validate_url. rewrite re_match_url_pattern.
  destruct (domain_of url) as [g|]; [|done]. simpl.
  unfold Re.group. by rewrite lookup_singleton_eq.
Qed.

(** C1.  For every URL, [validate_url] runs the pattern on it; when the
    pattern does not match it returns [None]; when it matches, group 1 is
    lowercased, and the result is the platform name of the first key of
    [SUPPORTED_PLATFORMS], in the order of its declaration, that occurs in
    the lowercased domain, and [None] when no key of the table occurs in
    it. *)
Theorem validate_url_first_key (url : string) :
  match Re.re_match url_pattern url with
  | None => validate_url url = None
  | Some m =>
      exists g, Re.group m 1 = Some g /\
        (forall i key name,
            SUPPORTED_PLATFORMS !! i = Some (key, name) ->
            Py.occurs_in key (Py.lower g) ->
            (forall j key' name',
                j < i -> SUPPORTED_PLATFORMS !! j = Some (key', name') ->
                ~ Py.occurs_in key' (Py.lower g)) ->
            validate_url url = Some name) /\
        ((forall key name,
             (key, name) ∈ SUPPORTED_PLATFORMS ->
             ~ Py.occurs_in key (Py.lower g)) ->
         validate_url url = None)
  end.
Proof.
  rewrite validate_url_domain, re_match_url_pattern.
  destruct (domain_of url) as [g|]; [|reflexivity]. cbn [fmap option_fmap option_map mbind option_bind].
  exists g. split; [apply lookup_singleton_eq|].
  rewrite first_match_list_find. split.
  - intros i key name Hi Hocc Hfirst.
    assert (list_find (fun k => Py.contains k (Py.lower g) = true)
              SUPPORTED_PLATFORMS.*1 = Some (i, key)) as ->.
    { apply list_find_Some. split_and!.
      - by rewrite list_lookup_fmap, Hi.
      - by apply contains_spec.
      - intros j key' Hj Hlt Hin.
        rewrite list_lookup_fmap in Hj.
        destruct (SUPPORTED_PLATFORMS !! j) as [[k n]|] eqn:Ej; [|done].
        simplify_eq/=. apply (Hfirst j key' n Hlt Ej). by apply contains_spec. }
    simpl. by apply dict_get_entry with i.
  - intros Hnone.
    assert (list_find (fun k => Py.contains k (Py.lower g) = true)
              SUPPORTED_PLATFORMS.*1 = None) as ->; [|done].
    apply list_find_None, Forall_forall. intros key Hkey Hin.
    apply list_elem_of_fmap in Hkey as [[k n] [-> Hkn]].
    apply (Hnone k n Hkn). by apply contains_spec.
Qed.
(** C8, as stated, fails: the domain [x.com.youtube.com] contains the key
    [x.com], whose platform is X (Twitter), and the classifier answers
    YouTube, the platform of the earlier key [youtube.com]. *)
Lemma validate_url_other_key :
  (Re.re_match url_pattern "x.com.youtube.com" ≫= (fun m => Re.group m 1))
    = Some "x.com.youtube.com" /\
  ("x.com", "X (Twitter)") ∈ SUPPORTED_PLATFORMS /\
  Py.occurs_in "x.com" (Py.lower "x.com.youtube.com") /\
  validate_url "x.com.youtube.com" = Some "YouTube" /\
  validate_url "x.com.youtube.com" <> Some "X (Twitter)".
Proof.
  split_and!.
  - by vm_compute.
  - apply (bool_decide_unpack _). by vm_compute.
  - by exists "", ".youtube.com".
  - by vm_compute.
  - by vm_compute.
Qed.

(** C8, amended.  The domain [linux.com] is no key of the table and is
    classified as X (Twitter).  For every URL whose lowercased domain
    contains a key of the table, [validate_url] returns the platform name
    of a key the domain contains, the first one in the order of the table,
    and so never [None]; it is the name of the given key whenever all the
    keys the domain contains have that name. *)
Theorem validate_url_contained_key :
  ((Re.re_match url_pattern "linux.com" ≫= (fun m => Re.group m 1))
     = Some "linux.com" /\
   ("linux.com" ∉ map fst SUPPORTED_PLATFORMS) /\
   validate_url "linux.com" = Some "X (Twitter)") /\
  forall url m g key name,
    Re.re_match url_pattern url = Some m ->
    Re.group m 1 = Some g ->
    (key, name) ∈ SUPPORTED_PLATFORMS ->
    Py.occurs_in key (Py.lower g) ->
    (exists i key' name',
        SUPPORTED_PLATFORMS !! i = Some (key', name') /\
        Py.occurs_in key' (Py.lower g) /\
        (forall j k n, j < i -> SUPPORTED_PLATFORMS !! j = Some (k, n) ->
                       ~ Py.occurs_in k (Py.lower g)) /\
        validate_url url = Some name') /\
    ((forall key' name',
         (key', name') ∈ SUPPORTED_PLATFORMS ->
         Py.occurs_in key' (Py.lower g) -> name' = name) ->
     validate_url url = Some name).
Proof.
  split.
  { split_and!; [by vm_compute| |by vm_compute].
    apply (bool_decide_unpack _). by vm_compute. }
  intros url m g key name Hm Hg Hkey Hocc.
  rewrite validate_url_domain.
  rewrite re_match_url_pattern in Hm.
  destruct (domain_of url) as [d|]; [|done].
  cbn [fmap option_fmap option_map] in Hm. injection Hm as <-.
  unfold Re.group in Hg. rewrite lookup_singleton_eq in Hg. injection Hg as ->.
  cbn [mbind option_bind]. rewrite first_match_list_find.
  destruct (list_find (fun k => Py.contains k (Py.lower g) = true)
              SUPPORTED_PLATFORMS.*1) as [[i key']|] eqn:Efind.
  - apply list_find_Some in Efind as (Hi & Hkey' & Hfirst).
    rewrite list_lookup_fmap in Hi.
    destruct (SUPPORTED_PLATFORMS !! i) as [[k name']|] eqn:Ei; [|done].
    cbn [fmap option_fmap option_map fst] in Hi. injection Hi as <-.
    cbn [mbind option_bind snd]. rewrite (dict_get_entry i k name' Ei).
    apply contains_spec in Hkey'. split.
    + exists i, k, name'. split_and!; try done.
      intros j k' n Hlt Hj Hocc'. apply (Hfirst j k'); [|done|].
      * by rewrite list_lookup_fmap, Hj.
      * by apply contains_spec.
    + intros Hsame. f_equal. apply (Hsame k); [|done].
      by apply list_elem_of_lookup_2 with i.
  - apply list_find_None in Efind. rewrite Forall_forall in Efind.
    destruct (Efind key).
    + apply list_elem_of_fmap. by exists (key, name).
    + by apply contains_spec.
Qed.

(** An instance: [linux.com] contains only the key [x.com]. *)
Lemma validate_url_contained_key_witness :
  validate_url "linux.com" = Some "X (Twitter)".
Proof.
  apply (proj2 validate_url_contained_key "linux.com" {[1 := "linux.com"]}
           "linux.com" "x.com" "X (Twitter)").
  - by vm_compute.
  - by vm_compute.
  - apply (bool_decide_unpack _). by vm_compute.
  - by exists "linu", "".
  - intros key' name' Hin Hocc. apply contains_spec in Hocc.
    unfold SUPPORTED_PLATFORMS in Hin.
    repeat (apply elem_of_cons in Hin as [Hin|Hin];
            [injection Hin as -> ->; first [reflexivity | by vm_compute in Hocc]|]).
    by apply elem_of_nil in Hin.
Defined.
End Classifier.

(** * File names *)

Section FileNames.
Import YouTubeDownloader.

Lemma chars_app (a b : string) : list_ascii_of_string (a +:+ b) = list_ascii_of_string a ++ list_ascii_of_string b.
Proof.
  induction a as [|c a IH]; [reflexivity|].
  rewrite app_cons. simpl. by rewrite IH.
Qed.

Lemma char_in_spec (c : ascii) (s : string) :
  Py.char_in c s = true <-> c ∈ list_ascii_of_string s.
Proof.
  induction s as [|a s IH]; simpl.
  - split; [done|]. by intros ?%elem_of_nil.
  - rewrite orb_true_iff, Ascii.eqb_eq, IH, elem_of_cons. done.
Qed.

(** Substituting the empty string for a character set filters it out. *)
Lemma sub_cls_empty_filter (p : ascii -> bool) (s : string) :
  list_ascii_of_string (Re.sub_cls p EmptyString s) = filter (fun c => p c = false) (list_ascii_of_string s).
Proof.
  induction s as [|c s IH]; [reflexivity|]. simpl.
  destruct (p c) eqn:Hc.
  - rewrite app_empty_l, IH, filter_cons_False; [done|]. by rewrite Hc.
  - simpl. by rewrite IH, filter_cons_True.
Qed.

Lemma has_sep_spec (s : string) :
  PosixPath.has_sep s = true <-> PosixPath.sep ∈ list_ascii_of_string s.
Proof.
  induction s as [|a s IH]; simpl.
  - split; [done|]. by intros ?%elem_of_nil.
  - unfold PosixPath.is_sep at 1.
    rewrite orb_true_iff, Ascii.eqb_eq, IH, elem_of_cons.
    split; (intros [E|E]; [left; by symmetry|by right]).
Qed.

Lemma after_last_sep_none (s : string) :
  PosixPath.has_sep s = false -> PosixPath.after_last_sep s = s.
Proof.
  destruct s as [|c s]; [done|]. simpl.
  intros [Hc ->]%orb_false_iff. by rewrite Hc.
Qed.

Lemma has_sep_app (a b : string) :
  PosixPath.has_sep (a +:+ b) = PosixPath.has_sep a || PosixPath.has_sep b.
Proof.
  induction a as [|c a IH]; [reflexivity|].
  rewrite app_cons. simpl. by rewrite IH, orb_assoc.
Qed.

(** What follows the last slash of [a/b] is [b] when [b] has no slash. *)
Lemma after_last_sep_app (a b : string) :
  PosixPath.has_sep b = false ->
  PosixPath.after_last_sep (a +:+ String PosixPath.sep b) = b.
Proof.
  intros Hb. induction a as [|c a IH].
  - rewrite app_empty_l. simpl. by rewrite Hb.
  - rewrite app_cons. simpl.
    assert (PosixPath.has_sep (a +:+ String PosixPath.sep b) = true) as ->
      by (rewrite has_sep_app; simpl; apply orb_true_r).
    done.
Qed.
Lemma rev_string_acc (s acc : string) :
  Py.rev_string s acc = Py.rev_string s EmptyString +:+ acc.
Proof.
  revert acc. induction s as [|c s IH]; intros acc; [reflexivity|].
  simpl. rewrite (IH (String c acc)), (IH (String c EmptyString)).
  by rewrite app_assoc_str.
Qed.

Lemma rev_string_app (a b : string) :
  Py.rev_string (a +:+ b) EmptyString =
  Py.rev_string b EmptyString +:+ Py.rev_string a EmptyString.
Proof.
  induction a as [|c a IH].
  - by rewrite app_empty_l, app_empty_r.
  - rewrite app_cons. simpl.
    rewrite (rev_string_acc (a +:+ b)), (rev_string_acc a), IH.
    by rewrite app_assoc_str.
Qed.

Lemma rev_string_involutive (s : string) :
  Py.rev_string (Py.rev_string s EmptyString) EmptyString = s.
Proof.
  induction s as [|c s IH]; [reflexivity|].
  simpl. by rewrite (rev_string_acc s (String c EmptyString)), rev_string_app, IH.
Qed.

Lemma endswith_spec (suffix s : string) :
  Py.endswith suffix s = true <-> exists pre, s = pre +:+ suffix.
Proof.
  unfold Py.endswith. rewrite startswith_spec. split.
  - intros [post Hpost]. exists (Py.rev_string post EmptyString).
    rewrite <- (rev_string_involutive s), Hpost, rev_string_app.
    by rewrite rev_string_involutive.
  - intros [pre ->]. exists (Py.rev_string pre EmptyString).
    apply rev_string_app.
Qed.

(** Joining a directory and a name without slash, then taking the last
    component, gives the name back. *)
Lemma basename_join (directory name : string) :
  PosixPath.has_sep name = false ->
  PosixPath.basename (PosixPath.join directory name) = name.
Proof.
  intros Hname. unfold PosixPath.basename, PosixPath.join.
  assert (Py.startswith "/" name = false) as ->.
  { destruct name as [|c name]; [done|]. cbn [PosixPath.has_sep] in Hname.
    apply orb_false_iff in Hname as [Hc _].
    unfold PosixPath.is_sep, PosixPath.sep in Hc.
    by rewrite startswith_cons, Ascii.eqb_sym, Hc. }
  destruct directory as [|d directory]; cbn [Py.truthy negb orb].
  - rewrite app_empty_l. by apply after_last_sep_none.
  - destruct (Py.endswith "/" (String d directory)) eqn:Hend.
    + apply endswith_spec in Hend as [pre ->].
      rewrite app_assoc_str. by apply after_last_sep_app.
    + by apply after_last_sep_app.
Qed.
Lemma unsafe_char_spec (c : ascii) : unsafe_char c = true <-> c ∈ forbidden.
Proof. unfold unsafe_char. by rewrite char_in_spec. Qed.

Lemma ext_of_format (export_format : string) :
  ext_of export_format ∈ FORMAT_OPTIONS /\
  (export_format ∈ FORMAT_OPTIONS -> ext_of export_format = export_format).
Proof.
  unfold ext_of, FORMAT_OPTIONS. case_bool_decide as Hin.
  - split; [|done].
    repeat (apply elem_of_cons in Hin as [->|Hin];
            [apply (bool_decide_unpack _); by vm_compute|]).
    by apply elem_of_nil in Hin.
  - destruct (String.eqb_spec export_format "mov") as [->|Hne].
    + split; [apply (bool_decide_unpack _); by vm_compute | done].
    + split; [apply (bool_decide_unpack _); by vm_compute|]. intros Hf.
      repeat (apply elem_of_cons in Hf as [->|Hf];
              [first [ done
                     | exfalso; apply Hin; apply (bool_decide_unpack _);
                       by vm_compute ]|]).
      by apply elem_of_nil in Hf.
Qed.

(** None of the nine characters occurs in a dot or in an extension. *)
Lemma forbidden_not_in_ext (ext : string) :
  ext ∈ "." :: FORMAT_OPTIONS ->
  Forall (fun c => c ∉ list_ascii_of_string ext) forbidden.
Proof.
  intros Hext. unfold FORMAT_OPTIONS in Hext.
  repeat (apply elem_of_cons in Hext as [->|Hext];
          [apply (bool_decide_unpack _); by vm_compute|]).
  by apply elem_of_nil in Hext.
Qed.

(** C10.  For every title, the expected file name is the title with every
    occurrence of the nine characters removed and nothing else changed,
    followed by a dot and the extension, which is the chosen export
    format; this is the name [start_download] joins to the directory.
    None of the nine characters occurs in the name, and the name is the
    basename of the expected path. *)
Theorem expected_filename_sanitised (directory title export_format : string) :
  (exists clean,
      expected_filename title export_format
        = clean +:+ "." +:+ ext_of export_format /\
      list_ascii_of_string clean
        = filter (fun c => c ∉ forbidden) (list_ascii_of_string title)) /\
  (ext_of export_format ∈ FORMAT_OPTIONS /\
   (export_format ∈ FORMAT_OPTIONS -> ext_of export_format = export_format)) /\
  (forall env url w info,
      extract_info_result env = Eff.Ret info ->
      info !! "title" = Some (Eff.PStr title) ->
      expected_path directory export_format env url w
        = (Eff.Ret (PosixPath.join directory
                      (expected_filename title export_format)),
           w, [Eff.ExtractInfo url])) /\
  (forall c, c ∈ forbidden ->
             c ∉ list_ascii_of_string (expected_filename title export_format)) /\
  PosixPath.basename
    (PosixPath.join directory (expected_filename title export_format))
  = expected_filename title export_format.
Proof.
  assert (list_ascii_of_string (Re.sub_cls unsafe_char EmptyString title)
          = filter (fun c => c ∉ forbidden) (list_ascii_of_string title))
    as Hclean.
  { rewrite sub_cls_empty_filter. apply list_filter_iff. intros c.
    rewrite <- unsafe_char_spec. by destruct (unsafe_char c). }
  assert (forall c, c ∈ forbidden ->
            c ∉ list_ascii_of_string (expected_filename title export_format))
    as Hnone.
  { intros c Hc. unfold expected_filename.
    rewrite !chars_app, Hclean, !elem_of_app, list_elem_of_filter.
    intros [[Hno _]|[Hdot|Hext]]; [done| |].
    - refine (proj1 (Forall_forall _ _) (forbidden_not_in_ext "." _) c Hc Hdot).
      apply list_elem_of_here.
    - refine (proj1 (Forall_forall _ _)
                (forbidden_not_in_ext (ext_of export_format) _) c Hc Hext).
      apply list_elem_of_further, ext_of_format. }
  split_and!.
  - by exists (Re.sub_cls unsafe_char EmptyString title).
  - apply ext_of_format.
  - apply ext_of_format.
  - intros env url w info Hinfo Htitle. unfold expected_path.
    rewrite Hinfo, Htitle. reflexivity.
  - done.
  - apply basename_join.
    destruct (PosixPath.has_sep _) eqn:Hsep; [|done].
    apply has_sep_spec in Hsep. destruct (Hnone PosixPath.sep); [|done].
    apply (bool_decide_unpack _). by vm_compute.
Qed.
End FileNames.

(** * Running computations of [Eff.M] *)

(** Unfolds the monad operations of a computation applied to a world. *)
Ltac eff_unfold :=
  cbv [mbind mret M_bind M_ret Eff.bind Eff.ret Eff.get Eff.modify Eff.emit
       Eff.raise Eff.try_except Eff.try_finally Eff.except
       Eff.except_Exception Eff.or_else Eff.may_raise Eff.logging Eff.print
       Eff.message_box Eff.path_exists Eff.write_text Eff.os_remove].

Ltac eff_simpl := eff_unfold; cbn [app fst snd].

(** * The export format *)

Section Formats.
Import Eff YouTubeDownloader.

(** The value [get_format_option] computes from the text of the dropdown. *)
Lemma get_format_option_value (w : world) :
  get_format_option w =
  (Ret (if bool_decide (format_dropdown w ∈ ["mp3"; "wav"; "mov"])
        then format_dropdown w else "mp4"), w, []).
Proof.
  unfold get_format_option. eff_simpl.
  destruct (String.eqb_spec (format_dropdown w) "mp3") as [->|H1];
    [reflexivity|].
  destruct (String.eqb_spec (format_dropdown w) "wav") as [->|H2];
    [reflexivity|].
  destruct (String.eqb_spec (format_dropdown w) "mov") as [->|H3];
    [reflexivity|].
  rewrite bool_decide_eq_false_2; [done|].
  intros Hin.
  repeat (apply elem_of_cons in Hin as [Hin|Hin]; [done|]).
  by apply elem_of_nil in Hin.
Qed.

Lemma start_download_worker `{OsPath} (env : download_env) (w : world) :
  let v := if bool_decide (format_dropdown w ∈ ["mp3"; "wav"; "mov"])
           then format_dropdown w else "mp4" in
  let w' := (start_download env w).1.2 in
  worker w' = worker w \/
  exists filepath,
    worker w' = Some {| w_opts := ydl_opts_for v (Py.strip (dir_display w)) env;
                        w_url := Py.strip (url_input w);
                        w_format_choice := v;
                        w_final_filepath := filepath |}.
Proof.
  intros v w'. subst w'. unfold start_download.
  eff_simpl. rewrite get_format_option_value. fold v.
  destruct (Py.truthy (Py.strip (url_input w))); [|by left].
  destruct (Py.truthy (Py.strip (dir_display w))); [|by left].
  cbn [negb].
  destruct (validate_url _) as [name|]; [|by left].
  destruct (Py.truthy name); [|by left].
  unfold launch, confirm_overwrite, expected_path. eff_simpl.
  destruct (extract_info_result env) as [info|e]; [|by left].
  destruct (default _ _); try by left.
  cbn. case_bool_decide.
  - destruct (overwrite_answer env); cbn; [|by left].
    destruct (remove_failure env); cbn; [by left|].
    rewrite get_format_option_value. cbn. right. eauto.
  - rewrite get_format_option_value. cbn. right. eauto.
Qed.

(** The entries of [ydl_opts] for each of the four format choices. *)
Lemma ydl_opts_shape `{OsPath} (v directory : string) (env : download_env) :
  v ∈ FORMAT_OPTIONS ->
  let opts := ydl_opts_for v directory env in
  opts !! "outtmpl" = Some (PStr (path_join directory "%(title)s.%(ext)s")) /\
  opts !! "quiet" = Some (PBool true) /\
  opts !! "noprogress" = Some (PBool true) /\
  opts !! "ffmpeg_location" = Some (ffmpeg_location env) /\
  size opts = (if String.eqb v "mp4" then 5 else 6) /\
  (v = "mp3" /\ opts !! "format" = Some (PStr "bestaudio/best") /\
   opts !! "postprocessors" = Some (PDicts [extract_audio "mp3"])
   \/ v = "wav" /\ opts !! "format" = Some (PStr "bestaudio/best") /\
      opts !! "postprocessors" = Some (PDicts [extract_audio "wav"])
   \/ v = "mov" /\ opts !! "format" = Some (PStr "bestvideo+bestaudio/best") /\
      opts !! "postprocessors" = Some (PDicts [video_convertor "mov"])
   \/ v = "mp4" /\ opts !! "format" = Some (PStr "bestvideo+bestaudio/best") /\
      opts !! "postprocessors" = None).
Proof.
  intros Hv opts. subst opts. unfold FORMAT_OPTIONS in Hv.
  repeat (apply elem_of_cons in Hv as [->|Hv];
          [split_and!; try (by vm_compute); naive_solver (by vm_compute)|]).
  by apply elem_of_nil in Hv.
Qed.

(** C9.  [get_format_option] always returns, without effect; its value is
    the text of the dropdown when that is mp3, wav or mov, and mp4 for any
    other text; each of the four values is returned for some text; and the
    options [start_download] hands to the worker it creates are
    [ydl_opts_for] at that value, which has one of four shapes. *)
Theorem get_format_option_range `{OsPath} :
  (forall w, exists v,
      get_format_option w = (Ret v, w, []) /\
      v ∈ FORMAT_OPTIONS /\
      (format_dropdown w ∈ ["mp3"; "wav"; "mov"] -> v = format_dropdown w) /\
      (format_dropdown w ∉ ["mp3"; "wav"; "mov"] -> v = "mp4") /\
      (forall env,
          worker (start_download env w).1.2 = worker w \/
          exists args,
            worker (start_download env w).1.2 = Some args /\
            w_format_choice args = v /\
            w_opts args = ydl_opts_for v (Py.strip (dir_display w)) env) /\
      forall directory env,
        (v = "mp3" /\
         ydl_opts_for v directory env !! "format"
           = Some (PStr "bestaudio/best") /\
         ydl_opts_for v directory env !! "postprocessors"
           = Some (PDicts [extract_audio "mp3"])
         \/ v = "wav" /\
            ydl_opts_for v directory env !! "format"
              = Some (PStr "bestaudio/best") /\
            ydl_opts_for v directory env !! "postprocessors"
              = Some (PDicts [extract_audio "wav"])
         \/ v = "mov" /\
            ydl_opts_for v directory env !! "format"
              = Some (PStr "bestvideo+bestaudio/best") /\
            ydl_opts_for v directory env !! "postprocessors"
              = Some (PDicts [video_convertor "mov"])
         \/ v = "mp4" /\
            ydl_opts_for v directory env !! "format"
              = Some (PStr "bestvideo+bestaudio/best") /\
            ydl_opts_for v directory env !! "postprocessors" = None)) /\
  (forall v, v ∈ FORMAT_OPTIONS ->
             exists w, get_format_option w = (Ret v, w, [])).
Proof.
  split.
  - intros w. eexists. split; [apply get_format_option_value|].
    assert ((if bool_decide (format_dropdown w ∈ ["mp3"; "wav"; "mov"])
             then format_dropdown w else "mp4") ∈ FORMAT_OPTIONS) as Hv.
    { case_bool_decide as Hin; [|apply (bool_decide_unpack _); by vm_compute].
      unfold FORMAT_OPTIONS.
      repeat (apply elem_of_cons in Hin as [->|Hin];
              [apply (bool_decide_unpack _); by vm_compute|]).
      by apply elem_of_nil in Hin. }
    split_and!; [done| | | |].
    + intros Hin. by rewrite bool_decide_eq_true_2.
    + intros Hin. by rewrite bool_decide_eq_false_2.
    + intros env.
      destruct (start_download_worker env w) as [E|[fp E]]; [by left|].
      right. eexists. split; [exact E|done].
    + intros directory env. by apply ydl_opts_shape.
  - intros v Hv.
    exists {| url_input := ""; dir_display := ""; quality_dropdown := "";
              format_dropdown := v; download_button := true;
              cancel_button := false; delete_button := true;
              progress_bar := 0; status_label := "Idle"; history_list := [];
              worker := None; fs := ∅; environ := ∅ |}.
    rewrite get_format_option_value. cbn [format_dropdown].
    unfold FORMAT_OPTIONS in Hv.
    repeat (apply elem_of_cons in Hv as [->|Hv]; [reflexivity|]).
    by apply elem_of_nil in Hv.
Qed.
End Formats.

(** * Input checks of [start_download] *)

Section StartDownload.
Import Eff YouTubeDownloader.

Lemma strip_empty : Py.strip EmptyString = EmptyString.
Proof. reflexivity. Qed.

(** C7.  When the stripped URL is empty, or the directory field is empty,
    or [validate_url] finds no platform for the stripped URL,
    [start_download] returns normally, its only effect is one warning box,
    and the state is the one it started from: no button is touched, no
    video information is asked for, no worker or thread is created, and
    the history list and the files are unchanged. *)
Theorem start_download_rejects `{OsPath} (env : download_env) (w : world) :
  Py.strip (url_input w) = EmptyString \/
  dir_display w = EmptyString \/
  validate_url (Py.strip (url_input w)) = None ->
  exists title text,
    start_download env w = (Ret tt, w, [MessageBox Warning title text]).
Proof.
  intros Hbad. unfold start_download. eff_simpl.
  rewrite get_format_option_value.
  destruct (Py.strip (url_input w)) as [|c url] eqn:Eurl; cbn [Py.truthy negb].
  { eauto. }
  destruct (Py.strip (dir_display w)) as [|d directory] eqn:Edir;
    cbn [Py.truthy negb].
  { eauto. }
  destruct Hbad as [?|[Hdir|Hnone]]; [done| |].
  - by rewrite Hdir, strip_empty in Edir.
  - rewrite Hnone. eauto.
Qed.

(** An instance: a URL of no supported platform, typed into a new window. *)
Lemma start_download_rejects_witness :
  exists title text,
    start_download
      {| extract_info_result := Ret ∅; overwrite_answer := true;
         remove_failure := None; which_ffmpeg := None |}
      (set_url_input "  http://example.org/watch  " (fresh_window "/home/u/Downloads" ∅ ∅))
    = (Ret tt,
       set_url_input "  http://example.org/watch  " (fresh_window "/home/u/Downloads" ∅ ∅),
       [MessageBox Warning title text]).
Proof.
  apply (start_download_rejects (H := posix)). right. right. by vm_compute.
Defined.
End StartDownload.

(** * The background task *)

Section WorkerFacts.
Import Eff DownloadWorker.
Variable int_of_float : string -> conversion.
Variable self : worker_args.

Lemma progress_hook_events d w :
  (progress_hook int_of_float self d w).1.2 = w /\
  Forall hook_event (progress_hook int_of_float self d w).2.
Proof.
  unfold progress_hook, parse_percent.
  destruct (d !! "status") as [status|]; [|by split].
  destruct (is_str status "downloading").
  - destruct (default _ _); try by split.
    eff_simpl. destruct (int_of_float _); eff_simpl; cbn.
    + split; [done|]. by repeat constructor.
    + split; [done|]. by repeat constructor.
    + by split.
  - destruct (is_str status "finished"); eff_simpl; cbn; [|by split].
    split; [done|]. by repeat constructor.
Qed.

(** While the library runs, only the hook acts: the state is untouched and
    every event is a progress or completion signal. *)
Lemma download_events lib w :
  (download int_of_float self lib w).1.2 = w /\
  Forall hook_event (download int_of_float self lib w).2.
Proof.
  revert w. induction lib as [|e|d k IH]; intros w; cbn [download].
  - by split.
  - by split.
  - pose proof (progress_hook_events d w) as [Hw Ht].
    destruct (progress_hook int_of_float self d w) as [[o w1] t1].
    simpl in Hw, Ht. subst w1.
    pose proof (IH o w) as [Hw' Ht'].
    destruct (download int_of_float self (k o) w) as [[o' w2] t2].
    simpl in *. split; [done|]. by apply Forall_app.
Qed.

(** [run], by the way [download] ends. *)
Lemma run_by_outcome lib w :
  run int_of_float self lib w =
  match download int_of_float self lib w with
  | (Ret _, w1, t1) => (Ret tt, w1, t1 ++ [Emit finished])
  | (Raise e, w1, t1) =>
      let shown := if decide (exn_cls e = DownloadError)
                   then "Download failed: "
                   else "An unexpected error occurred: " in
      let logged := if decide (exn_cls e = DownloadError)
                    then "Download failed: " else "Unexpected error: " in
      (Ret tt, w1,
       t1 ++ [Emit (error (shown +:+ exn_str e));
              Logging ERROR (logged +:+ exn_str e);
              Emit finished])
  end.
Proof.
  unfold run. eff_simpl.
  destruct (download int_of_float self lib w) as [[[[]|e] w1] t1].
  - reflexivity.
  - cbn zeta. destruct (decide (exn_cls e = DownloadError)); cbn;
      by rewrite <- app_assoc.
Qed.

Lemma signals_of_app t1 t2 :
  signals_of (t1 ++ t2) = signals_of t1 ++ signals_of t2.
Proof.
  induction t1 as [|ev t1 IH]; [done|].
  destruct ev; simpl; by rewrite ?IH.
Qed.

Lemma hook_events_signals t :
  Forall hook_event t -> Forall hook_signal (signals_of t).
Proof.
  induction 1 as [|ev t Hev _ IH]; [constructor|].
  destruct ev; try done. simpl. by constructor.
Qed.

(** C5.  No exception leaves [run].  When the call into the download
    library raises [e], [run] emits the error signal with a message that
    ends in [str(e)], headed by "Download failed: " for a [DownloadError]
    and by "An unexpected error occurred: " for any other exception, logs
    it, emits [finished] and returns. *)
Theorem run_surfaces_exceptions lib w :
  (run int_of_float self lib w).1.1 = Ret tt /\
  forall e w1 t1,
    download int_of_float self lib w = (Raise e, w1, t1) ->
    exists shown logged,
      run int_of_float self lib w =
        (Ret tt, w1,
         t1 ++ [Emit (error (shown +:+ exn_str e));
                Logging ERROR (logged +:+ exn_str e);
                Emit finished]) /\
      (exn_cls e = DownloadError -> shown = "Download failed: ") /\
      (exn_cls e <> DownloadError -> shown = "An unexpected error occurred: ").
Proof.
  rewrite run_by_outcome. split.
  - by destruct (download int_of_float self lib w) as [[[[]|e] w1] t1].
  - intros e w1 t1 ->. cbn zeta.
    destruct (decide (exn_cls e = DownloadError)) as [Hcls|Hcls];
      eexists _, _; (split; [reflexivity|]); by split.
Qed.

(** C6.  The worker has four signals, named progress, error, finished and
    download_complete.  In every execution of [run] the signals emitted
    end with [finished], and [finished] is emitted nowhere before: the
    signals before it are those of the hook, followed by [error] when the
    library raised. *)
Theorem run_finished_last lib w :
  (NoDup ["progress"; "error"; "finished"; "download_complete"] /\
   forall name,
     name ∈ ["progress"; "error"; "finished"; "download_complete"] <->
     exists s, signal_name s = name) /\
  exists before,
    signals_of (run int_of_float self lib w).2 = before ++ [finished] /\
    (finished ∉ before) /\
    (run int_of_float self lib w).1.1 = Ret tt.
Proof.
  split.
  { split; [apply (bool_decide_unpack _); by vm_compute|].
    intros name. split.
    - intros Hin.
      repeat (apply elem_of_cons in Hin as [->|Hin]).
      + by exists (progress 0).
      + by exists (error EmptyString).
      + by exists finished.
      + by exists (download_complete EmptyString).
      + by apply elem_of_nil in Hin.
    - intros [[]  <-]; apply (bool_decide_unpack _); by vm_compute. }
  rewrite run_by_outcome.
  pose proof (download_events lib w) as [_ Hev].
  destruct (download int_of_float self lib w) as [[[[]|e] w1] t1];
    simpl in Hev; apply hook_events_signals in Hev; cbn zeta; cbn [fst snd].
  - exists (signals_of t1). rewrite signals_of_app. split_and!; try done.
    intros Hin. by apply (proj1 (Forall_forall _ _) Hev) in Hin.
  - exists (signals_of t1 ++
            [error ((if decide (exn_cls e = DownloadError)
                     then "Download failed: "
                     else "An unexpected error occurred: ") +:+ exn_str e)]).
    rewrite signals_of_app. cbn [signals_of]. rewrite <- app_assoc.
    split_and!; try done.
    intros [Hin|Hin]%elem_of_app.
    + by apply (proj1 (Forall_forall _ _) Hev) in Hin.
    + by apply list_elem_of_singleton in Hin.
Qed.

End WorkerFacts.

(** An instance: the library reports progress once, then raises a
    [DownloadError]. *)
Lemma run_surfaces_exceptions_witness :
  exists shown logged,
    DownloadWorker.run (fun _ => DownloadWorker.Converted 0)
      {| Eff.w_opts := ∅; Eff.w_url := "https://youtu.be/x";
         Eff.w_format_choice := "mp4";
         Eff.w_final_filepath := "/home/u/Downloads/x.mp4" |}
      (DownloadWorker.CallsHook {[ "status" := Eff.PStr "downloading" ]}
         (fun _ => DownloadWorker.Raises
                     (Eff.Exn Eff.DownloadError "HTTP Error 404")))
      (YouTubeDownloader.fresh_window "/home/u/Downloads" ∅ ∅)
    = (Eff.Ret tt, YouTubeDownloader.fresh_window "/home/u/Downloads" ∅ ∅,
       [Eff.Emit (Eff.progress 0)] ++
       [Eff.Emit (Eff.error (shown +:+ "HTTP Error 404"));
        Eff.Logging Eff.ERROR (logged +:+ "HTTP Error 404");
        Eff.Emit Eff.finished]) /\
    (Eff.DownloadError = Eff.DownloadError -> shown = "Download failed: ") /\
    (Eff.DownloadError <> Eff.DownloadError
     -> shown = "An unexpected error occurred: ").
Proof.
  apply (proj2 (run_surfaces_exceptions _ _ _ _)
           (Eff.Exn Eff.DownloadError "HTTP Error 404")).
  by vm_compute.
Defined.

(** * The installer *)

Section InstallerFacts.
Import Eff Installer.
Context `{OsPath}.

Ltac installer_unfold :=
  unfold download_and_install_ffmpeg, guarded_install, install_from,
    download_step, extract_step, locate_step, environ_append, makedirs.

(** C4, where the code departs from it.  On a supported system, when the
    directory [ffmpeg_temp] does not exist and [os.makedirs] raises, the
    exception leaves [download_and_install_ffmpeg]: the call stands before
    the outer [try]. *)
Theorem download_and_install_ffmpeg_makedirs_raises env w e url :
  ffmpeg_url_of (Py.lower (platform_system env)) = Some url ->
  extract_dir_exists env = false ->
  makedirs_failure env = Some e ->
  download_and_install_ffmpeg env w = (Raise e, w, []).
Proof.
  intros Hurl Hdir Hmk. installer_unfold.
  rewrite Hurl, Hdir, Hmk. reflexivity.
Qed.

Lemma set_fs_same (w : world) : set_fs (fs w) w = w.
Proof. by destruct w. Qed.

Lemma set_fs_set_fs (m1 m2 : gmap string string) (w : world) :
  set_fs m2 (set_fs m1 w) = set_fs m2 w.
Proof. reflexivity. Qed.

Lemma write_all_cons (f : string * string) (files : list (string * string))
    (m : gmap string string) :
  write_all (f :: files) m = write_all files (<[f.1 := f.2]> m).
Proof. reflexivity. Qed.

Lemma write_all_nil (w : world) : set_fs (write_all [] (fs w)) w = w.
Proof. apply set_fs_same. Qed.

(** Writing files leaves every other file as it was. *)
Lemma write_all_other (files : list (string * string))
    (m : gmap string string) (p : string) :
  p ∉ files.*1 -> write_all files m !! p = m !! p.
Proof.
  revert m. induction files as [|f files IH]; intros m Hp; [done|].
  rewrite write_all_cons. cbn [fmap list_fmap] in Hp.
  apply not_elem_of_cons in Hp as [Hne Hp].
  rewrite IH by done. by apply lookup_insert_ne.
Qed.

Lemma urlretrieve_run (env : install_env) (filename : string) (w : world) :
  urlretrieve env filename w =
  match urlretrieve_failure env with
  | None =>
      (Ret tt, set_fs (<[filename := archive_bytes env]> (fs w)) w,
       [FileWrite filename (archive_bytes env)])
  | Some e =>
      if archive_created env
      then (Raise e, set_fs (<[filename := archive_bytes env]> (fs w)) w,
            [FileWrite filename (archive_bytes env)])
      else (Raise e, w, [])
  end.
Proof.
  unfold urlretrieve. destruct (urlretrieve_failure env); [|done].
  by destruct (archive_created env).
Qed.

Lemma for_each_write_text (files : list (string * string)) (w : world) :
  for_each files (fun f => write_text f.1 f.2 None) w =
  (Ret tt, set_fs (write_all files (fs w)) w,
   (fun f => FileWrite f.1 f.2) <$> files).
Proof.
  revert w. induction files as [|f files IH]; intros w.
  - cbn. by rewrite set_fs_same.
  - cbn [for_each]. unfold bind at 1.
    change (write_text f.1 f.2 None w)
      with (Ret tt, set_fs (<[f.1 := f.2]> (fs w)) w, [FileWrite f.1 f.2]).
    cbv beta iota. by rewrite IH.
Qed.

Lemma extractall_run (env : install_env) (w : world) :
  extractall env w =
  (match extract_failure env with
   | None => Ret tt
   | Some e => Raise e
   end,
   set_fs (write_all (unpacked env) (fs w)) w,
   (fun f => FileWrite f.1 f.2) <$> unpacked env).
Proof.
  unfold extractall. cbv [mbind M_bind Eff.bind].
  rewrite for_each_write_text.
  destruct (extract_failure env); cbn; by rewrite ?app_nil_r.
Qed.

(** How the guarded body ends: it has written the archive, or the archive
    and the unpacked files, or nothing; it returns [True] only after all of
    them and the change of [PATH]. *)
Lemma guarded_install_outcome (env : install_env)
    (url extract_dir archive : string) (w : world) :
  exists files,
    files ∈ [ [];
              [(archive, archive_bytes env)];
              (archive, archive_bytes env) :: unpacked env ] /\
    ((exists t,
         guarded_install env url extract_dir archive w
           = (Ret false, set_fs (write_all files (fs w)) w, t)) \/
     (exists t ffmpeg_path old,
         files = (archive, archive_bytes env) :: unpacked env /\
         urlretrieve_failure env = None /\ extract_failure env = None /\
         locate (walk env) = Some ffmpeg_path /\
         environ w !! "PATH" = Some old /\
         guarded_install env url extract_dir archive w
           = (Ret true,
              set_environ
                (<["PATH" := old +:+ path_pathsep
                             +:+ path_dirname ffmpeg_path]> (environ w))
                (set_fs (write_all files (fs w)) w),
              t))).
Proof.
  assert (forall files : list (string * string),
             files = [] \/ files = [(archive, archive_bytes env)] \/
             files = (archive, archive_bytes env) :: unpacked env ->
             files ∈ [ []; [(archive, archive_bytes env)];
                       (archive, archive_bytes env) :: unpacked env ])
    as Hin.
  { intros files [->|[->| ->]].
    - apply list_elem_of_here.
    - apply list_elem_of_further, list_elem_of_here.
    - do 2 apply list_elem_of_further. apply list_elem_of_here. }
  installer_unfold. eff_unfold. cbn [app fst snd]. rewrite urlretrieve_run.
  destruct (urlretrieve_failure env) as [e1|] eqn:Hdl.
  { destruct (archive_created env).
    - exists [(archive, archive_bytes env)].
      split; [by apply Hin; right; left|].
      left. destruct (decide (exn_cls e1 = URLError)); cbn; by eexists.
    - exists []. split; [by apply Hin; left|].
      left. rewrite write_all_nil.
      destruct (decide (exn_cls e1 = URLError)); cbn; by eexists. }
  cbn [app].
  destruct (Py.endswith ".zip" url) eqn:Hzip;
    [|destruct (Py.endswith ".tar.xz" url) eqn:Htar].
  3:{ exists [(archive, archive_bytes env)].
      split; [by apply Hin; right; left|].
      left. cbn. by eexists. }
  all: rewrite extractall_run; cbn [fs set_fs];
    exists ((archive, archive_bytes env) :: unpacked env);
    (split; [by apply Hin; right; right|]);
    rewrite write_all_cons; cbn [fst snd];
    (destruct (extract_failure env) as [e2|] eqn:Hex; cbn;
       [left; by eexists|]);
    (destruct (locate (walk env)) as [p|] eqn:Hloc; cbn;
       [|left; by eexists]);
    (destruct (environ w !! "PATH") as [old|] eqn:Hpath; cbn;
       [|left; by eexists]);
    right; eexists _, p, old; by split_and!.
Qed.

(** How the installer ends.  It has written nothing, or the archive, or
    the archive and the unpacked files; it returns [True] only after all
    of them and the change of [PATH]; it raises only what [os.makedirs]
    raises, before anything is written. *)
Lemma installer_outcome (env : install_env) (w : world) :
  let archive :=
    path_join (path_join (getcwd env) "ffmpeg_temp") "ffmpeg_download" in
  exists files,
    files ∈ [ [];
              [(archive, archive_bytes env)];
              (archive, archive_bytes env) :: unpacked env ] /\
    (ffmpeg_url_of (Py.lower (platform_system env)) = None -> files = []) /\
    ((exists t,
         download_and_install_ffmpeg env w
           = (Ret false, set_fs (write_all files (fs w)) w, t)) \/
     (exists t ffmpeg_path old,
         files = (archive, archive_bytes env) :: unpacked env /\
         urlretrieve_failure env = None /\ extract_failure env = None /\
         locate (walk env) = Some ffmpeg_path /\
         environ w !! "PATH" = Some old /\
         download_and_install_ffmpeg env w
           = (Ret true,
              set_environ
                (<["PATH" := old +:+ path_pathsep
                             +:+ path_dirname ffmpeg_path]> (environ w))
                (set_fs (write_all files (fs w)) w),
              t)) \/
     (exists e,
         files = [] /\
         extract_dir_exists env = false /\ makedirs_failure env = Some e /\
         download_and_install_ffmpeg env w = (Raise e, w, []))).
Proof.
  intros archive. unfold download_and_install_ffmpeg. fold archive.
  destruct (ffmpeg_url_of _) as [url|] eqn:Hurl.
  2:{ exists []. split_and!; [apply list_elem_of_here|done|].
      left. eff_simpl. rewrite write_all_nil. by eexists. }
  destruct (guarded_install_outcome env url
              (path_join (getcwd env) "ffmpeg_temp") archive w)
    as (files & Hfiles & Hrun).
  destruct (extract_dir_exists env) eqn:Hdir; cbn [negb];
    [|unfold makedirs; destruct (makedirs_failure env) as [e|] eqn:Hmk].
  2:{ exists []. split_and!; [apply list_elem_of_here|done|].
      right. right. by exists e. }
  all: exists files; (split_and!; [done|done|]);
    destruct Hrun as [[t E]|(t & p & old & Hf & Hdl & Hex & Hloc & Hpath & E)];
    eff_unfold; cbn [app fst snd]; rewrite E;
    [left; by eexists|right; left; eexists _, p, old; by split_and!].
Qed.

(** With [ffmpeg_temp] missing on a supported system, creating it is the
    first thing the installer does. *)
Lemma installer_makedirs env w :
  is_Some (ffmpeg_url_of (Py.lower (platform_system env))) ->
  extract_dir_exists env = false -> makedirs_failure env = None ->
  exists t,
    (download_and_install_ffmpeg env w).2
      = DirCreated (path_join (getcwd env) "ffmpeg_temp") :: t.
Proof.
  intros [url Hurl] Hdir Hmk. unfold download_and_install_ffmpeg, makedirs.
  rewrite Hurl, Hdir, Hmk. eff_unfold. cbn [negb app fst snd].
  destruct (guarded_install _ _ _ _ _) as [[o w1] t1]. by eexists.
Qed.

(** The rest of C4 holds: once the directory is there, the installer
    returns a Boolean.  It touches nothing but files and the environment,
    and of the files only the archive [ffmpeg_temp/ffmpeg_download] and
    what is unpacked from it.  It returns [False], with the environment
    as it was, on an unsupported system (then no file is written either),
    when the download or the unpacking raises, and when no executable is
    found; it returns [True] only after the archive was written and
    unpacked, the executable found and its directory appended to [PATH],
    and only then is the environment changed.  When [ffmpeg_temp] was
    missing on a supported system, its creation is the first event. *)
Lemma download_and_install_ffmpeg_best_effort env w :
  extract_dir_exists env = true \/ makedirs_failure env = None ->
  exists b w' t,
    download_and_install_ffmpeg env w = (Ret b, w', t) /\
    w' = set_environ (environ w') (set_fs (fs w') w) /\
    (forall p,
        p <> path_join (path_join (getcwd env) "ffmpeg_temp")
               "ffmpeg_download" ->
        p ∉ (unpacked env).*1 ->
        fs w' !! p = fs w !! p) /\
    (b = false -> environ w' = environ w) /\
    (b = true ->
     exists ffmpeg_path old,
       locate (walk env) = Some ffmpeg_path /\
       environ w !! "PATH" = Some old /\
       environ w'
         = <["PATH" := old +:+ path_pathsep +:+ path_dirname ffmpeg_path]>
             (environ w) /\
       fs w'
         = write_all (unpacked env)
             (<[path_join (path_join (getcwd env) "ffmpeg_temp")
                  "ffmpeg_download" := archive_bytes env]> (fs w)) /\
       urlretrieve_failure env = None /\ extract_failure env = None /\
       is_Some (ffmpeg_url_of (Py.lower (platform_system env)))) /\
    (ffmpeg_url_of (Py.lower (platform_system env)) = None ->
     b = false /\ w' = w) /\
    (is_Some (urlretrieve_failure env) -> b = false) /\
    (is_Some (extract_failure env) -> b = false) /\
    (locate (walk env) = None -> b = false) /\
    (is_Some (ffmpeg_url_of (Py.lower (platform_system env))) ->
     extract_dir_exists env = false ->
     exists t', t = DirCreated (path_join (getcwd env) "ffmpeg_temp") :: t').
Proof.
  intros Hdir.
  assert (forall b w' t,
             download_and_install_ffmpeg env w = (Ret b, w', t) ->
             is_Some (ffmpeg_url_of (Py.lower (platform_system env))) ->
             extract_dir_exists env = false ->
             exists t',
               t = DirCreated (path_join (getcwd env) "ffmpeg_temp") :: t')
    as Hcreated.
  { intros b w' t Hrun Hurl Hnodir.
    destruct (installer_makedirs env w Hurl Hnodir) as [t' Ht'].
    - destruct Hdir as [Hdir|Hdir]; congruence.
    - exists t'. by rewrite Hrun in Ht'. }
  destruct (installer_outcome env w) as (files & Hfiles & Hnone & Hrun).
  set (archive := path_join (path_join (getcwd env) "ffmpeg_temp")
                    "ffmpeg_download") in *.
  assert (forall p, p <> archive -> p ∉ (unpacked env).*1 ->
                    write_all files (fs w) !! p = fs w !! p) as Hframe.
  { intros p Hp Hun. apply write_all_other.
    repeat (apply elem_of_cons in Hfiles as [->|Hfiles]);
      [by intros ?%elem_of_nil| | |by apply elem_of_nil in Hfiles];
      cbn [fmap list_fmap fst].
    - by intros [?|?%elem_of_nil]%elem_of_cons.
    - by intros [?|?]%elem_of_cons. }
  destruct Hrun as [[t Hrun]|[(t & p & old & -> & Hdl & Hex & Hloc & Hpath & Hrun)
                   |(e & _ & Hnodir & Hmk & _)]].
  - exists false, (set_fs (write_all files (fs w)) w), t.
    split_and!; try done.
    + intros Hurl. split; [done|]. by rewrite (Hnone Hurl), write_all_nil.
    + by apply (Hcreated _ _ _ Hrun).
  - eexists true, _, t. split; [exact Hrun|].
    pose proof (Hcreated _ _ _ Hrun) as Ht.
    cbn [environ fs set_environ set_fs].
    split_and!; try done.
    + intros _. exists p, old. split_and!; try done.
      destruct (ffmpeg_url_of _) eqn:Hurl; [by eexists|].
      by specialize (Hnone eq_refl).
    + intros Hurl. by specialize (Hnone Hurl).
    + rewrite Hdl. by intros [].
    + rewrite Hex. by intros [].
    + by rewrite Hloc.
  - destruct Hdir as [Hdir|Hdir]; congruence.
Qed.

(** An archive that is neither a zip nor a tar.xz makes the guarded body
    return [False] once it is downloaded, before anything is unpacked.
    None of the three addresses of [ffmpeg_url_of] is such an archive. *)
Lemma guarded_install_unsupported_archive env url extract_dir archive w :
  urlretrieve_failure env = None ->
  Py.endswith ".zip" url = false ->
  Py.endswith ".tar.xz" url = false ->
  exists t,
    guarded_install env url extract_dir archive w
      = (Ret false, set_fs (<[archive := archive_bytes env]> (fs w)) w, t).
Proof.
  intros Hdl Hzip Htar. installer_unfold. eff_unfold. cbn [app fst snd].
  rewrite urlretrieve_run, Hdl, Hzip, Htar. cbn. by eexists.
Qed.

Lemma ffmpeg_url_of_archive system url :
  ffmpeg_url_of system = Some url ->
  Py.endswith ".zip" url = true \/ Py.endswith ".tar.xz" url = true.
Proof.
  unfold ffmpeg_url_of. intros Hurl.
  repeat (case_match;
          [injection Hurl as <-;
           first [left; by vm_compute | right; by vm_compute]|]).
  done.
Qed.

End InstallerFacts.

(** An instance: Linux, a working directory that cannot be written to. *)
Lemma download_and_install_ffmpeg_makedirs_raises_witness :
  Installer.download_and_install_ffmpeg
    {| Installer.platform_system := "Linux";
       Installer.getcwd := "/opt/app";
       Installer.extract_dir_exists := false;
       Installer.makedirs_failure :=
         Some (Eff.Exn Eff.OSError "[Errno 13] Permission denied");
       Installer.urlretrieve_failure := None;
       Installer.extract_failure := None;
       Installer.walk := [];
       Installer.archive_created := false;
       Installer.archive_bytes := "";
       Installer.unpacked := [] |}
    (YouTubeDownloader.fresh_window "/home/u/Downloads" ∅
       {[ "PATH" := "/usr/bin" ]})
  = (Eff.Raise (Eff.Exn Eff.OSError "[Errno 13] Permission denied"),
     YouTubeDownloader.fresh_window "/home/u/Downloads" ∅
       {[ "PATH" := "/usr/bin" ]},
     []).
Proof.
  apply (download_and_install_ffmpeg_makedirs_raises (H := posix)) with
    (url := "https://johnvansickle.com/ffmpeg/releases/ffmpeg-release-amd64-static.tar.xz");
    reflexivity.
Defined.

(** An instance: Linux, the directory in place, the archive unpacked. *)
Lemma download_and_install_ffmpeg_best_effort_witness :
  exists b w' t,
    Installer.download_and_install_ffmpeg
      {| Installer.platform_system := "Linux";
         Installer.getcwd := "/opt/app";
         Installer.extract_dir_exists := true;
         Installer.makedirs_failure := None;
         Installer.urlretrieve_failure := None;
         Installer.extract_failure := None;
         Installer.walk :=
           [ ("/opt/app/ffmpeg_temp", ["ffmpeg-static"], ["ffmpeg_download"]);
             ("/opt/app/ffmpeg_temp/ffmpeg-static", [], ["ffmpeg"; "ffprobe"]) ];
         Installer.archive_created := true;
         Installer.archive_bytes := "xz";
         Installer.unpacked :=
           [ ("/opt/app/ffmpeg_temp/ffmpeg-static/ffmpeg", "ELF");
             ("/opt/app/ffmpeg_temp/ffmpeg-static/ffprobe", "ELF") ] |}
      (YouTubeDownloader.fresh_window "/home/u/Downloads" ∅
         {[ "PATH" := "/usr/bin" ]})
    = (Eff.Ret b, w', t).
Proof.
  destruct (download_and_install_ffmpeg_best_effort (H := posix)
    {| Installer.platform_system := "Linux";
       Installer.getcwd := "/opt/app";
       Installer.extract_dir_exists := true;
       Installer.makedirs_failure := None;
       Installer.urlretrieve_failure := None;
       Installer.extract_failure := None;
       Installer.walk :=
         [ ("/opt/app/ffmpeg_temp", ["ffmpeg-static"], ["ffmpeg_download"]);
           ("/opt/app/ffmpeg_temp/ffmpeg-static", [], ["ffmpeg"; "ffprobe"]) ];
       Installer.archive_created := true;
       Installer.archive_bytes := "xz";
       Installer.unpacked :=
         [ ("/opt/app/ffmpeg_temp/ffmpeg-static/ffmpeg", "ELF");
           ("/opt/app/ffmpeg_temp/ffmpeg-static/ffprobe", "ELF") ] |}
    (YouTubeDownloader.fresh_window "/home/u/Downloads" ∅
       {[ "PATH" := "/usr/bin" ]})
    (or_introl eq_refl)) as (b & w' & t & Hrun & _).
  by exists b, w', t.
Defined.

Example install_on_linux :
  let r := Installer.download_and_install_ffmpeg
    {| Installer.platform_system := "Linux";
       Installer.getcwd := "/opt/app";
       Installer.extract_dir_exists := true;
       Installer.makedirs_failure := None;
       Installer.urlretrieve_failure := None;
       Installer.extract_failure := None;
       Installer.walk :=
         [ ("/opt/app/ffmpeg_temp", ["ffmpeg-static"], ["ffmpeg_download"]);
           ("/opt/app/ffmpeg_temp/ffmpeg-static", [], ["ffmpeg"; "ffprobe"]) ];
       Installer.archive_created := true;
       Installer.archive_bytes := "xz";
       Installer.unpacked :=
         [ ("/opt/app/ffmpeg_temp/ffmpeg-static/ffmpeg", "ELF");
           ("/opt/app/ffmpeg_temp/ffmpeg-static/ffprobe", "ELF") ] |}
    (YouTubeDownloader.fresh_window "/home/u/Downloads" ∅
       {[ "PATH" := "/usr/bin" ]}) in
  r.1.1 = Eff.Ret true /\
  Eff.environ r.1.2 !! "PATH"
    = Some "/usr/bin:/opt/app/ffmpeg_temp/ffmpeg-static" /\
  Eff.fs r.1.2 !! "/opt/app/ffmpeg_temp/ffmpeg_download" = Some "xz" /\
  Eff.fs r.1.2 !! "/opt/app/ffmpeg_temp/ffmpeg-static/ffmpeg" = Some "ELF".
Proof. by vm_compute. Qed.

(** * The history log: JSON round trip *)

Section JsonFacts.
Import Json.

(** Arithmetic on code points: quotients and remainders by constants. *)
Local Ltac Zify.zify_post_hook ::= Z.to_euclidean_division_equations.

(** A property of the numbers below a bound, by checking each. *)
Lemma below_cases (P : N -> Prop) (bound : nat) :
  Forall P (N.of_nat <$> seq 0 bound) ->
  forall n, (n < N.of_nat bound)%N -> P n.
Proof.
  intros Hall n Hn. rewrite Forall_forall in Hall. apply Hall.
  apply list_elem_of_fmap. exists (N.to_nat n). split; [lia|].
  apply elem_of_seq. lia.
Qed.

Lemma hex_value_digit (d : N) :
  (d < 16)%N -> hex_value (hex_digit d) = Some d.
Proof.
  revert d. apply (below_cases _ 16).
  apply (bool_decide_unpack _). by vm_compute.
Qed.

(** The four digits [escape_u] writes are read as the number written. *)
Lemma decode_escape_u (n : N) :
  (n < 0x10000)%N ->
  decode_uXXXX (hex_digit (n / 4096 mod 16)) (hex_digit (n / 256 mod 16))
    (hex_digit (n / 16 mod 16)) (hex_digit (n mod 16)) = Some n.
Proof.
  intros Hn. unfold decode_uXXXX.
  rewrite !hex_value_digit by lia. cbn [mbind option_bind]. f_equal. lia.
Qed.

Lemma high_surrogate_value (n : N) :
  high_surrogate n = (0xd7c0 + n / 1024)%N.
Proof. unfold high_surrogate. by rewrite !N.shiftr_div_pow2. Qed.

Lemma low_surrogate_value (n : N) :
  low_surrogate n = (0xdc00 + n mod 1024)%N.
Proof.
  unfold low_surrogate. change 0x3ff%N with (N.ones 10).
  by rewrite N.land_ones.
Qed.

Lemma land_shiftl_low (a b : N) :
  (b < 1024)%N -> N.land (N.shiftl a 10) b = 0%N.
Proof.
  intros Hb. apply N.bits_inj. intros i. rewrite N.land_spec, N.bits_0.
  destruct (N.lt_ge_cases i 10) as [Hi|Hi].
  - by rewrite N.shiftl_spec_low.
  - destruct (N.eq_dec b 0%N) as [->|Hb0];
      [by rewrite N.bits_0, andb_false_r|].
    rewrite (N.bits_above_log2 b i), andb_false_r; [done|].
    apply N.lt_le_trans with 10%N; [|done].
    apply N.log2_lt_pow2; lia.
Qed.

Lemma lor_shiftl_low (a b : N) :
  (b < 1024)%N -> N.lor (N.shiftl a 10) b = (a * 1024 + b)%N.
Proof.
  intros Hb.
  rewrite <- N.lxor_lor, <- N.add_nocarry_lxor by by apply land_shiftl_low.
  by rewrite N.shiftl_mul_pow2.
Qed.

Lemma join_surrogates_value (high low : N) :
  join_surrogates high low
  = (0x10000 + (high mod 1024 * 1024 + low mod 1024))%N.
Proof.
  unfold join_surrogates. change 0x3ff%N with (N.ones 10).
  rewrite !N.land_ones, lor_shiftl_low; [done|].
  change (2 ^ 10)%N with 1024%N. lia.
Qed.

(** The two halves of a code point from 0x10000 up are a high and a low
    surrogate, and join to the code point. *)
Lemma surrogates_of (n : N) :
  (0x10000 <= n < 0x110000)%N ->
  Py.is_high_surrogate (high_surrogate n) = true /\
  Py.is_low_surrogate (low_surrogate n) = true /\
  (high_surrogate n < 0x10000)%N /\ (low_surrogate n < 0x10000)%N /\
  join_surrogates (high_surrogate n) (low_surrogate n) = n.
Proof.
  intros Hn. rewrite join_surrogates_value.
  unfold Py.is_high_surrogate, Py.is_low_surrogate.
  rewrite high_surrogate_value, low_surrogate_value.
  change (2 ^ 10)%N with 1024%N.
  split_and!; try lia.
  - apply andb_true_iff. split; apply N.leb_le; lia.
  - apply andb_true_iff. split; apply N.leb_le; lia.
Qed.

Lemma high_is_not_low (c : N) :
  Py.is_high_surrogate c = true -> Py.is_low_surrogate c = false.
Proof.
  unfold Py.is_high_surrogate, Py.is_low_surrogate.
  intros [H1 H2]%andb_true_iff. apply N.leb_le in H1, H2.
  apply andb_false_iff. left. apply N.leb_gt. lia.
Qed.

(** What follows the escape of a high surrogate, case by case. *)
Lemma second_escape_other (b : ascii) (t : string) :
  Ascii.eqb b backslash = false ->
  scan_second_escape (String b t) = NoLowSurrogate.
Proof.
  intros Hb. destruct t as [|? [|? [|? [|? [|? ?]]]]]; try done.
  cbn [scan_second_escape]. by rewrite Hb.
Qed.

Lemma second_escape_not_u (x : ascii) (t : string) :
  Ascii.eqb x "u" = false ->
  scan_second_escape (String backslash (String x t)) = NoLowSurrogate.
Proof.
  intros Hx. destruct t as [|? [|? [|? [|? ?]]]]; try done.
  cbn [scan_second_escape]. by rewrite Hx, andb_false_r.
Qed.

Lemma second_escape_u (n : N) (t : string) :
  (n < 0x10000)%N ->
  scan_second_escape (escape_u n +:+ t) =
  if Py.is_low_surrogate n then LowSurrogate n t else NoLowSurrogate.
Proof.
  intros Hn. unfold escape_u. rewrite !app_cons, app_empty_l.
  cbn [scan_second_escape].
  change (Ascii.eqb backslash backslash && Ascii.eqb "u" "u") with true.
  cbn match. by rewrite decode_escape_u.
Qed.

(** Scanning [\uXXXX] and what follows it. *)
Lemma scanstring_escape_u (n : N) (t : string) :
  (n < 0x10000)%N ->
  scanstring (escape_u n +:+ t) =
  let alone :=
    match scanstring t with
    | Some (str, r) => Some (n :: str, r)
    | None => None
    end in
  if Py.is_high_surrogate n then
    match scan_second_escape t with
    | LowSurrogate low rest =>
        match scanstring rest with
        | Some (str, r) => Some (join_surrogates n low :: str, r)
        | None => None
        end
    | BadEscape => None
    | NoLowSurrogate => alone
    end
  else alone.
Proof.
  intros Hn. unfold escape_u. rewrite !app_cons, app_empty_l.
  cbn [scanstring].
  change (Ascii.eqb backslash quote) with false.
  change (Ascii.eqb backslash backslash) with true.
  change (Ascii.eqb "u" "u") with true. cbn match.
  rewrite decode_escape_u by done. cbn zeta.
  destruct (Py.is_high_surrogate n); [|done].
  destruct t as [|b [|u [|k1 [|k2 [|k3 [|k4 rest]]]]]]; try done.
  cbn [scan_second_escape].
  destruct (Ascii.eqb b backslash && Ascii.eqb u "u"); [|done].
  destruct (decode_uXXXX k1 k2 k3 k4) as [low|]; [|done].
  by destruct (Py.is_low_surrogate low).
Qed.

Lemma ord_ascii_of_N (n : N) : (n < 256)%N -> Py.ord (ascii_of_N n) = n.
Proof. intros Hn. by apply N_ascii_embedding. Qed.

Lemma eqb_ascii_of_N (n : N) (c : ascii) :
  (n < 256)%N -> n <> Py.ord c -> Ascii.eqb (ascii_of_N n) c = false.
Proof.
  intros Hn Hne. apply Ascii.eqb_neq. intros E. apply Hne.
  by rewrite <- E, ord_ascii_of_N.
Qed.

(** The escape of a code point that is no low surrogate does not read as
    the escape of one. *)
Lemma second_escape_escape_char (c : N) (t : string) :
  (c < 0x110000)%N -> Py.is_low_surrogate c = false ->
  scan_second_escape (escape_char c +:+ t) = NoLowSurrogate.
Proof.
  intros Hc Hlow. unfold escape_char.
  repeat match goal with
         | |- context [if (c =? ?k)%N then _ else _] =>
             destruct (N.eqb_spec c k) as [->|?];
             [rewrite !app_cons, app_empty_l; by apply second_escape_not_u|]
         end.
  case_match eqn:Hprint.
  { apply andb_true_iff in Hprint as [Hlo Hhi]. apply N.leb_le in Hlo, Hhi.
    rewrite !app_cons, app_empty_l. apply second_escape_other.
    by apply eqb_ascii_of_N; [lia|]. }
  case_match eqn:Hbmp.
  { apply N.ltb_lt in Hbmp. by rewrite second_escape_u, Hlow. }
  apply N.ltb_ge in Hbmp.
  destruct (surrogates_of c) as (Hh & _ & Hhb & _); [lia|].
  by rewrite app_assoc_str, second_escape_u, (high_is_not_low _ Hh).
Qed.

Lemma second_escape_escape (u : Py.str) (rest : string) :
  Forall (fun c => (c < 0x110000)%N) u ->
  match u with c :: _ => Py.is_low_surrogate c = false | [] => True end ->
  scan_second_escape (escape u +:+ String quote rest) = NoLowSurrogate.
Proof.
  intros Hu Hhead. destruct u as [|c u].
  - rewrite app_empty_l. by apply second_escape_other.
  - cbn [escape]. rewrite app_assoc_str.
    apply second_escape_escape_char; [|done]. by apply Forall_cons in Hu as [? _].
Qed.

(** Scanning the escape of one code point gives the code point back. *)
Lemma scanstring_escape_char (c : N) (t : string) :
  (c < 0x110000)%N ->
  (Py.is_high_surrogate c = true -> scan_second_escape t = NoLowSurrogate) ->
  scanstring (escape_char c +:+ t) =
  match scanstring t with
  | Some (str, r) => Some (c :: str, r)
  | None => None
  end.
Proof.
  intros Hc Hnext. unfold escape_char.
  repeat match goal with
         | |- context [if (c =? ?k)%N then _ else _] =>
             destruct (N.eqb_spec c k) as [->|?]; [reflexivity|]
         end.
  case_match eqn:Hprint.
  { apply andb_true_iff in Hprint as [Hlo Hhi]. apply N.leb_le in Hlo, Hhi.
    rewrite !app_cons, app_empty_l. cbn [scanstring].
    rewrite !eqb_ascii_of_N by (done || lia).
    rewrite ord_ascii_of_N by lia.
    replace (c <? 32)%N with false by (symmetry; apply N.ltb_ge; lia).
    done. }
  case_match eqn:Hbmp.
  { apply N.ltb_lt in Hbmp. rewrite scanstring_escape_u by done. cbn zeta.
    destruct (Py.is_high_surrogate c); [|done]. by rewrite Hnext. }
  apply N.ltb_ge in Hbmp.
  destruct (surrogates_of c) as (Hh & Hl & Hhb & Hlb & Hjoin); [lia|].
  rewrite app_assoc_str, scanstring_escape_u by done. cbn zeta.
  by rewrite Hh, second_escape_u, Hl, Hjoin.
Qed.

Lemma scanstring_escape (s : Py.str) (rest : string) :
  Py.qstring_text s ->
  scanstring (escape s +:+ String quote rest) = Some (s, rest).
Proof.
  intros [Hs Hpair]. induction s as [|c s IH]; [reflexivity|].
  apply Forall_cons in Hs as [Hc Hs].
  cbn [Py.has_surrogate_pair] in Hpair.
  apply orb_false_iff in Hpair as [Hhead Hpair].
  cbn [escape]. rewrite app_assoc_str, scanstring_escape_char, IH; try done.
  intros Hhigh. apply second_escape_escape; [done|].
  destruct s as [|c' s]; [done|]. by rewrite Hhigh in Hhead.
Qed.

Lemma encode_app (s : Py.str) (rest : string) :
  encode_basestring_ascii s +:+ rest
  = String quote (escape s +:+ String quote rest).
Proof.
  unfold encode_basestring_ascii. by rewrite app_cons, app_assoc_str.
Qed.

(** One encoded string is scanned as that string. *)
Lemma scan_once_encoded (fuel : nat) (s : Py.str) (rest : string) :
  Py.qstring_text s ->
  scan_once (S fuel) (encode_basestring_ascii s +:+ rest)
  = Some (JString s, rest).
Proof.
  intros Hs. rewrite encode_app. cbn [scan_once].
  change (Ascii.eqb quote quote) with true. cbn match.
  by rewrite scanstring_escape.
Qed.
(** The indentation is blank, an encoded string does not start blank. *)
Lemma skip_ws_indent (n : nat) (s : string) :
  skip_ws (String newline (spaces n) +:+ s) = skip_ws s.
Proof.
  rewrite app_cons. unfold skip_ws. cbn [Py.lstrip_by].
  change (is_ws newline) with true. cbn match.
  induction n as [|n IH]; [done|]. cbn [spaces]. rewrite app_cons.
  cbn [Py.lstrip_by]. change (is_ws " ") with true. by cbn match.
Qed.

Lemma skip_ws_encoded (s : Py.str) (rest : string) :
  skip_ws (encode_basestring_ascii s +:+ rest)
  = encode_basestring_ascii s +:+ rest.
Proof. by rewrite encode_app. Qed.

(** The scanners, one step at a time. *)
Lemma scan_elements_step (fuel : nat) (s : string) :
  scan_elements (S fuel) s =
  scan_once fuel s ≫= (fun vr =>
    match skip_ws vr.2 with
    | String "]" r' => Some ([vr.1], r')
    | String "," r' =>
        scan_elements fuel (skip_ws r') ≫= (fun vsr =>
          Some (vr.1 :: vsr.1, vsr.2))
    | _ => None
    end).
Proof.
  cbn [scan_elements]. destruct (scan_once fuel s) as [[v r]|]; [|done].
  cbn [mbind option_bind fst snd]. repeat case_match; try done.
  all: by destruct (scan_elements fuel _) as [[vs r'']|].
Qed.

Lemma scan_once_array (fuel : nat) (rest : string) :
  scan_once (S fuel) (String "[" rest) =
  match skip_ws rest with
  | String "]" r => Some (JArray [], r)
  | r => scan_elements fuel r ≫= (fun vsr => Some (JArray vsr.1, vsr.2))
  end.
Proof.
  cbn [scan_once]. change (Ascii.eqb "[" quote) with false.
  change (Ascii.eqb "[" "{") with false.
  change (Ascii.eqb "[" "[") with true. cbn match.
  repeat case_match; try done.
  all: by destruct (scan_elements fuel _) as [[vs r'']|].
Qed.

(** The items of a non-empty list, as [json.dump] lays them out, followed
    by the closing line, are scanned as those items. *)
Lemma scan_elements_join (indent : nat) (x : Py.str) (xs : list Py.str)
    (tail : string) (fuel : nat) :
  Forall Py.qstring_text (x :: xs) ->
  length xs <= fuel ->
  scan_elements (S (S fuel))
    (join ("," +:+ String newline (spaces indent))
       (map encode_basestring_ascii (x :: xs))
     +:+ String newline "]" +:+ tail)
  = Some (JString <$> (x :: xs), tail).
Proof.
  revert x fuel. induction xs as [|y xs IH]; intros x fuel Hall Hfuel;
    apply Forall_cons in Hall as [Hx Hxs].
  - rewrite scan_elements_step. cbn [map join].
    rewrite (scan_once_encoded fuel x) by done. reflexivity.
  - destruct fuel as [|fuel]; [simpl in Hfuel; lia|].
    rewrite scan_elements_step.
    change (join ?sep (map encode_basestring_ascii (x :: y :: xs)))
      with (encode_basestring_ascii x +:+ sep
            +:+ join sep (map encode_basestring_ascii (y :: xs))).
    rewrite !app_assoc_str, (scan_once_encoded (S fuel) x) by done.
    cbn [mbind option_bind fst snd]. rewrite app_cons, app_empty_l.
    change (skip_ws (String "," ?r)) with (String "," r). cbn match.
    rewrite skip_ws_indent.
    replace (skip_ws (join _ (map encode_basestring_ascii (y :: xs))
                      +:+ String newline "]" +:+ tail))
      with (join ("," +:+ String newline (spaces indent))
              (map encode_basestring_ascii (y :: xs))
            +:+ String newline "]" +:+ tail).
    + rewrite IH; [done|done|]. simpl in Hfuel. lia.
    + destruct xs; cbn [map join]; by rewrite ?app_assoc_str, skip_ws_encoded.
Qed.
Lemma scan_once_array_elements (fuel : nat) (rest body : string) :
  skip_ws rest = String quote body ->
  scan_once (S fuel) (String "[" rest) =
  scan_elements fuel (skip_ws rest)
    ≫= (fun vsr => Some (JArray vsr.1, vsr.2)).
Proof. intros Hrest. rewrite scan_once_array, Hrest. reflexivity. Qed.

Lemma length_join_encoded (sep : string) (items : list Py.str) :
  length items <= String.length (join sep (map encode_basestring_ascii items)).
Proof.
  induction items as [|x [|y items] IH]; [simpl; lia| simpl; lia |].
  change (join sep (map encode_basestring_ascii (x :: y :: items)))
    with (encode_basestring_ascii x +:+ sep
          +:+ join sep (map encode_basestring_ascii (y :: items))).
  rewrite !length_app_str. simpl in *. lia.
Qed.

(** What [json.dump] writes for a list of strings, [json.load] reads back
    as the array of those strings. *)
Lemma loads_dumps_list (indent : nat) (items : list Py.str) :
  Forall Py.qstring_text items ->
  loads (dumps_list indent items) = Some (JArray (JString <$> items)).
Proof.
  intros Hitems. destruct items as [|x xs]; [reflexivity|].
  unfold loads, dumps_list.
  set (sep := "," +:+ String newline (spaces indent)).
  set (body := join sep (map encode_basestring_ascii (x :: xs))).
  rewrite (app_cons "[" EmptyString), app_empty_l.
  change (skip_ws (String "[" ?r)) with (String "[" r).
  assert (exists b, body +:+ String newline "]" = String quote b) as [b Hb].
  { subst body. destruct xs; cbn [map join];
      rewrite ?app_assoc_str, encode_app; eauto. }
  assert (skip_ws (String newline (spaces indent) +:+ body
                   +:+ String newline "]")
          = body +:+ String newline "]") as Hskip.
  { by rewrite skip_ws_indent, Hb. }
  pose proof (length_join_encoded sep (x :: xs)) as Hlen. fold body in Hlen.
  cbn [length] in Hlen.
  set (n := String.length _).
  assert (exists f, 2 * n + 2 = S (S (S f)) /\ length xs <= f) as (f & -> & Hf).
  { assert (length xs + 2 <= n) as Hn.
    { subst n. cbn [String.length]. rewrite !length_app_str.
      cbn [String.length]. lia. }
    exists (2 * n - 1). lia. }
  rewrite (scan_once_array_elements _ _ b); [|by rewrite Hskip].
  rewrite Hskip. subst body sep.
  rewrite <- (app_empty_r (String newline "]")), scan_elements_join;
    [|done|done].
  reflexivity.
Qed.
End JsonFacts.

(** * Texts of code points *)

Section TextFacts.

Lemma latin1_of_latin1 (s : string) : Py.latin1 (Py.of_latin1 s) = Some s.
Proof.
  unfold Py.latin1, Py.of_latin1.
  assert (forallb (fun c => c <? 256)%N
            (N_of_ascii <$> list_ascii_of_string s) = true) as ->.
  { induction s as [|a s IH]; [done|]. cbn. rewrite IH, andb_true_r.
    apply N.ltb_lt, N_ascii_bounded. }
  f_equal. induction s as [|a s IH]; [done|].
  cbn. by rewrite ascii_N_embedding, IH.
Qed.

Lemma of_latin1_latin1 (u : Py.str) (p : string) :
  Py.latin1 u = Some p -> Py.of_latin1 p = u.
Proof.
  unfold Py.latin1, Py.of_latin1.
  destruct (forallb _ u) eqn:Hu; [|done]. intros [= <-].
  rewrite list_ascii_of_string_of_list_ascii.
  induction u as [|c u IH]; [done|].
  cbn in Hu. apply andb_true_iff in Hu as [Hc Hu]. apply N.ltb_lt in Hc.
  cbn. by rewrite N_ascii_embedding, IH.
Qed.

Lemma of_latin1_below (s : string) :
  Forall (fun c => (c < 256)%N) (Py.of_latin1 s).
Proof.
  apply Forall_fmap, Forall_forall. intros a _. apply N_ascii_bounded.
Qed.

Lemma no_pair_below (u : Py.str) :
  Forall (fun c => (c < 0xd800)%N) u -> Py.has_surrogate_pair u = false.
Proof.
  induction 1 as [|c u Hc Hu IH]; [done|].
  cbn [Py.has_surrogate_pair]. rewrite IH, orb_false_r.
  destruct u; [done|]. apply andb_false_iff. left.
  unfold Py.is_high_surrogate. apply andb_false_iff. left.
  apply N.leb_gt. lia.
Qed.

(** A text of code points below 256 is a text as a Qt string yields
    it. *)
Lemma qstring_text_latin1 (s : string) : Py.qstring_text (Py.of_latin1 s).
Proof.
  split.
  - eapply Forall_impl; [apply of_latin1_below|]. cbn. lia.
  - apply no_pair_below.
    eapply Forall_impl; [apply of_latin1_below|]. cbn. lia.
Qed.

End TextFacts.

(** * The history log: the list and its file *)

Section HistoryFacts.
Import Eff YouTubeDownloader.

Lemma save_history_written (w : world) :
  save_history None w =
  (Ret tt,
   set_fs (<[HISTORY_FILE := Json.dumps_list 4 (history_list w)]> (fs w)) w,
   [FileWrite HISTORY_FILE (Json.dumps_list 4 (history_list w))]).
Proof. reflexivity. Qed.

(** A failed write leaves the file as it was and is reported. *)
Lemma save_history_failed (e : exn) (w : world) :
  save_history (Some e) w =
  (Ret tt, w,
   [FileWrite HISTORY_FILE (Json.dumps_list 4 (history_list w));
    MessageBox Warning "History Save Error"
      ("Failed to save download history: " +:+ exn_str e);
    Logging ERROR ("Failed to save download history: " +:+ exn_str e)]).
Proof. reflexivity. Qed.

Lemma set_history_list_same (w : world) :
  set_history_list (history_list w) w = w.
Proof. by destruct w. Qed.

(** Adding the strings of an array one by one appends them in order. *)
Lemma for_each_addItem (items : list Py.str) (w : world) :
  for_each (Json.JString <$> items) addItem w =
  (Ret tt, set_history_list (history_list w ++ items) w, []).
Proof.
  revert w. induction items as [|x items IH]; intros w.
  - cbn. by rewrite app_nil_r, set_history_list_same.
  - cbn [fmap list_fmap for_each]. unfold bind at 1.
    cbn [addItem modify]. rewrite IH. cbn [app]. do 2 f_equal.
    destruct w. cbn. by rewrite <- app_assoc.
Qed.

Lemma load_history_read (items : list Py.str) (w : world) :
  Forall Py.qstring_text items ->
  fs w !! HISTORY_FILE = Some (Json.dumps_list 4 items) ->
  load_history None w =
  (Ret tt, set_history_list (history_list w ++ items) w, []).
Proof.
  intros Hitems Hfile. unfold load_history. eff_simpl.
  rewrite bool_decide_eq_true_2 by (rewrite Hfile; eauto).
  rewrite Hfile. cbn [from_option id default].
  rewrite loads_dumps_list by done. cbn [iterate].
  eff_simpl. by rewrite for_each_addItem.
Qed.

(** C2.  The entries of the list are texts as the list widget yields
    them: code points up to 0x10FFFF of any script, a lone surrogate
    included, and no two surrogates that pair, which a Qt string hands
    over as one code point.  When a session finds the history file as
    [save_history] wrote it for the list of [w], a write that did not
    fail, [load_history] reads it without error and appends exactly the
    entries of that list, in order; started from the empty list of a new
    window, the list is the saved one again. *)
Theorem save_load_round_trip (w w0 : world) :
  Forall Py.qstring_text (history_list w) ->
  fs w0 = fs (save_history None w).1.2 ->
  load_history None w0 =
    (Ret tt, set_history_list (history_list w0 ++ history_list w) w0, []) /\
  (history_list w0 = [] ->
   history_list (load_history None w0).1.2 = history_list w).
Proof.
  intros Htexts Hfs. rewrite save_history_written in Hfs. cbn in Hfs.
  assert (load_history None w0 =
          (Ret tt, set_history_list (history_list w0 ++ history_list w) w0, []))
    as Hload.
  { apply load_history_read; [done|]. by rewrite Hfs, lookup_insert_eq. }
  split; [done|]. intros Hnew. by rewrite Hload, Hnew.
Qed.

Lemma add_to_history_list (filepath : Py.str) (write_failure : option exn)
    (w : world) :
  history_list (add_to_history filepath write_failure w).1.2
    = history_list w ++ [filepath] /\
  FileWrite HISTORY_FILE (Json.dumps_list 4 (history_list w ++ [filepath]))
    ∈ (add_to_history filepath write_failure w).2.
Proof.
  destruct write_failure as [e|]; (split; [reflexivity|]);
    cbn; apply list_elem_of_here.
Qed.

Lemma add_to_history_written (filepath : Py.str) (w : world) :
  fs (add_to_history filepath None w).1.2
    = <[HISTORY_FILE := Json.dumps_list 4 (history_list w ++ [filepath])]>
        (fs w).
Proof. reflexivity. Qed.

Lemma existing_file_run `{OsPath} (filepath : Py.str) (w : world) :
  existing_file filepath w =
  (Ret match Py.latin1 filepath with
       | Some p => if bool_decide (is_Some (fs w !! p)) then Some p else None
       | None => None
       end, w, []).
Proof. unfold existing_file. by destruct (Py.latin1 filepath). Qed.

(** C3.  [add_to_history], and a [delete_selected_file] that removes an
    entry, write to the history file the serialisation of the whole list
    as it is after the change; when the write does not fail the file then
    holds exactly that text, which reads back as the current list.  A
    [delete_selected_file] that removes no entry changes neither the list
    nor the files. *)
Theorem history_file_is_whole_list `{OsPath} :
  (forall filepath write_failure w,
      history_list (add_to_history filepath write_failure w).1.2
        = history_list w ++ [filepath] /\
      FileWrite HISTORY_FILE
        (Json.dumps_list 4
           (history_list (add_to_history filepath write_failure w).1.2))
        ∈ (add_to_history filepath write_failure w).2 /\
      (write_failure = None ->
       fs (add_to_history filepath write_failure w).1.2 !! HISTORY_FILE
         = Some (Json.dumps_list 4
                   (history_list
                      (add_to_history filepath write_failure w).1.2)))) /\
  (forall selected remove_failure write_failure w,
      (delete_selected_file selected remove_failure write_failure w).1.2 = w \/
      exists row (filepath : string),
        selected = Some row /\
        history_list w !! row = Some (filepath : Py.str) /\
        is_Some (fs w !! filepath) /\
        remove_failure = None /\
        history_list
          (delete_selected_file selected remove_failure write_failure w).1.2
          = delete row (history_list w) /\
        FileWrite HISTORY_FILE (Json.dumps_list 4 (delete row (history_list w)))
          ∈ (delete_selected_file selected remove_failure write_failure w).2 /\
        (write_failure = None ->
         fs (delete_selected_file selected remove_failure write_failure w).1.2
           !! HISTORY_FILE
           = Some (Json.dumps_list 4 (delete row (history_list w))))) /\
  (forall items,
      Forall Py.qstring_text items ->
      Json.loads (Json.dumps_list 4 items)
        = Some (Json.JArray (Json.JString <$> items))).
Proof.
  split_and!.
  - intros filepath write_failure w.
    destruct (add_to_history_list filepath write_failure w) as [-> Hw].
    split_and!; [done|done|]. intros ->.
    rewrite add_to_history_written. apply lookup_insert_eq.
  - intros selected remove_failure write_failure w.
    unfold delete_selected_file.
    eff_simpl. destruct selected as [row|]; [|by left].
    destruct (history_list w !! row) as [filepath|] eqn:Hrow; [|by left].
    cbn [for_each fst snd]. unfold delete_item, existing_file.
    destruct (Py.latin1 filepath) as [p|] eqn:Hp; eff_simpl; [|by left].
    apply of_latin1_latin1 in Hp as <-.
    case_bool_decide as Hfile; [|by left].
    destruct remove_failure as [e|]; [by left|].
    right. exists row, p.
    destruct write_failure as [e|].
    + rewrite save_history_failed.
      cbn [fst snd fs set_fs set_history_list history_list app].
      split_and!; try done. do 1 apply list_elem_of_further.
      apply list_elem_of_further, list_elem_of_here.
    + rewrite save_history_written.
      cbn [fst snd fs set_fs set_history_list history_list app].
      split_and!; try done.
      * apply list_elem_of_further, list_elem_of_further, list_elem_of_here.
      * intros _. by rewrite lookup_insert_eq.
  - intros items. apply loads_dumps_list.
Qed.

End HistoryFacts.

(** An instance: a path, a Greek title with a face from beyond the basic
    plane, and a lone surrogate, saved by one window and loaded by the
    next. *)
Lemma save_load_round_trip_witness :
  Eff.history_list
    (YouTubeDownloader.load_history None
       (Eff.set_fs
          (Eff.fs (YouTubeDownloader.save_history None
                     (Eff.set_history_list
                        [Py.of_latin1 "C:\Temp\clip.mp3";
                         [0x3b1; 0x3b2; 0x20; 0x1f600]%N; [0xdc80]%N]
                        (YouTubeDownloader.fresh_window "/home/u/Downloads" ∅ ∅))).1.2)
          (YouTubeDownloader.fresh_window "/home/u/Downloads" ∅ ∅))).1.2
  = [Py.of_latin1 "C:\Temp\clip.mp3";
     [0x3b1; 0x3b2; 0x20; 0x1f600]%N; [0xdc80]%N].
Proof.
  refine (proj2 (save_load_round_trip
                  (Eff.set_history_list
                     [Py.of_latin1 "C:\Temp\clip.mp3";
                      [0x3b1; 0x3b2; 0x20; 0x1f600]%N; [0xdc80]%N]
                     (YouTubeDownloader.fresh_window "/home/u/Downloads" ∅ ∅))
                  (Eff.set_fs
                     (Eff.fs (YouTubeDownloader.save_history None
                        (Eff.set_history_list
                           [Py.of_latin1 "C:\Temp\clip.mp3";
                            [0x3b1; 0x3b2; 0x20; 0x1f600]%N; [0xdc80]%N]
                           (YouTubeDownloader.fresh_window "/home/u/Downloads" ∅ ∅))).1.2)
                     (YouTubeDownloader.fresh_window "/home/u/Downloads" ∅ ∅))
                  _ eq_refl) eq_refl).
  apply (bool_decide_unpack _). by vm_compute.
Defined.

(** * The URL pattern and the layout of the history file, for reference *)

(** The match object of [validate_url] holds, as group 1, the longest run
    of characters other than colon, slash and white space that follows an
    optional [http://] or [https://]; the scheme is skipped only when such
    a run follows it. *)
Theorem url_pattern_captures (url : string) :
  Re.re_match YouTubeDownloader.url_pattern url
  = (fun d => {[1 := d]}) <$> YouTubeDownloader.domain_of url.
Proof. intros. apply re_match_url_pattern. Qed.

Example url_pattern_scheme_only :
  YouTubeDownloader.domain_of "http://" = Some "http" /\
  YouTubeDownloader.domain_of "https://www.youtube.com/watch?v=1"
    = Some "www.youtube.com" /\
  YouTubeDownloader.domain_of " youtube.com" = None /\
  YouTubeDownloader.validate_url "HTTPS://YouTu.be/x" = None /\
  YouTubeDownloader.validate_url "m.YouTube.com:443/x" = Some "YouTube".
Proof. by vm_compute. Qed.

Example dumps_list_layout :
  Json.dumps_list 4 [Py.of_latin1 "a"; Py.of_latin1 "b"]
  = "[" +:+ String Json.newline "    " +:+ String Json.quote "a"
    +:+ String Json.quote ","
    +:+ String Json.newline "    " +:+ String Json.quote "b"
    +:+ String Json.quote (String Json.newline "]").
Proof. reflexivity. Qed.

(** A code point beyond the basic plane is written as the escapes of its
    two surrogates, so the two surrogates as two code points are written
    the same way and are read back as the one code point. *)
Example surrogate_pair_is_joined :
  Json.encode_basestring_ascii [0x1f600%N]
  = String Json.quote "\ud83d\ude00" +:+ String Json.quote "" /\
  Json.dumps_list 4 [[0xd83d; 0xde00]%N] = Json.dumps_list 4 [[0x1f600%N]] /\
  Json.loads (Json.dumps_list 4 [[0xd83d; 0xde00]%N])
  = Some (Json.JArray [Json.JString [0x1f600%N]]) /\
  Json.loads (Json.dumps_list 4 [[0xde00; 0xd83d]%N])
  = Some (Json.JArray [Json.JString [0xde00; 0xd83d]%N]).
Proof. by vm_compute. Qed.

(** * The history file as text *)

Section HistoryText.
Import Json Window.

Lemma plain_app (a b : string) :
  Forall plain (list_ascii_of_string a) ->
  Forall plain (list_ascii_of_string b) ->
  Forall plain (list_ascii_of_string (a +:+ b)).
Proof. intros Ha Hb. rewrite chars_app. by apply Forall_app. Qed.

Lemma hex_digit_plain (d : N) : (d < 16)%N -> plain (hex_digit d).
Proof.
  revert d. apply (below_cases _ 16).
  apply (bool_decide_unpack _). by vm_compute.
Qed.

Lemma escape_u_plain (n : N) :
  Forall plain (list_ascii_of_string (escape_u n)).
Proof.
  unfold escape_u. cbn [list_ascii_of_string].
  repeat apply Forall_cons_2;
    first [apply Forall_nil_2 | right; by vm_compute
          | apply hex_digit_plain, N.mod_lt; lia].
Qed.

Lemma escape_char_plain (c : N) :
  Forall plain (list_ascii_of_string (escape_char c)).
Proof.
  unfold escape_char.
  repeat (case_match; [apply (bool_decide_unpack _); by vm_compute|]).
  case_match eqn:Hprint.
  { apply andb_true_iff in Hprint as [Hlo Hhi]. apply N.leb_le in Hlo, Hhi.
    apply Forall_cons_2; [|apply Forall_nil_2]. right. unfold Py.ord.
    rewrite N_ascii_embedding by lia. lia. }
  case_match; [apply escape_u_plain|].
  apply plain_app; apply escape_u_plain.
Qed.

Lemma escape_plain (s : Py.str) :
  Forall plain (list_ascii_of_string (escape s)).
Proof.
  induction s as [|c s IH]; [constructor|].
  cbn [escape]. apply plain_app; [apply escape_char_plain|done].
Qed.

Lemma encode_plain (s : Py.str) :
  Forall plain (list_ascii_of_string (encode_basestring_ascii s)).
Proof.
  unfold encode_basestring_ascii. cbn [list_ascii_of_string].
  constructor; [right; by vm_compute|].
  apply plain_app; [apply escape_plain|].
  apply (bool_decide_unpack _). by vm_compute.
Qed.

Lemma spaces_plain (n : nat) : Forall plain (list_ascii_of_string (spaces n)).
Proof.
  induction n as [|n IH]; [constructor|].
  cbn. constructor; [right; by vm_compute|done].
Qed.

Lemma join_plain (sep : string) (chunks : list string) :
  Forall plain (list_ascii_of_string sep) ->
  Forall (fun x => Forall plain (list_ascii_of_string x)) chunks ->
  Forall plain (list_ascii_of_string (join sep chunks)).
Proof.
  intros Hsep. induction 1 as [|x [|y chunks] Hx Hrest IH]; [constructor|done|].
  change (join sep (x :: y :: chunks))
    with (x +:+ sep +:+ join sep (y :: chunks)).
  by repeat apply plain_app.
Qed.

(** Whatever the entries contain, the text written for them is printable
    ASCII and line breaks. *)
Lemma dumps_list_plain (indent : nat) (items : list Py.str) :
  Forall plain (list_ascii_of_string (dumps_list indent items)).
Proof.
  destruct items as [|x xs]; [apply (bool_decide_unpack _); by vm_compute|].
  unfold dumps_list.
  assert (Forall plain (list_ascii_of_string (String newline (spaces indent))))
    as Hnl.
  { cbn [list_ascii_of_string]. constructor; [by left|apply spaces_plain]. }
  repeat apply plain_app; try done.
  - apply (bool_decide_unpack _); by vm_compute.
  - apply join_plain.
    + apply plain_app; [|done]. apply (bool_decide_unpack _); by vm_compute.
    + apply Forall_forall. intros y [z [-> _]]%list_elem_of_fmap.
      apply encode_plain.
  - apply (bool_decide_unpack _); by vm_compute.
Qed.

End HistoryText.

(** * Loading the history *)

Section LoadHistory.
Import Eff YouTubeDownloader Window.

(** [save_history] writes to no file but the history file, and what it
    writes is printable ASCII and line breaks whatever characters the
    entries of the list hold; when the write does not fail the file is
    such a text. *)
Theorem save_history_plain (write_failure : option exn) (w : world) :
  Forall writes_plain_history (save_history write_failure w).2 /\
  exists text,
    fs (save_history None w).1.2 !! HISTORY_FILE = Some text /\
    Forall plain (list_ascii_of_string text).
Proof.
  split.
  - destruct write_failure as [e|];
      [rewrite save_history_failed|rewrite save_history_written];
      cbn [snd]; repeat constructor; apply dumps_list_plain.
  - rewrite save_history_written. cbn [fst snd fs set_fs].
    eexists. split; [apply lookup_insert_eq|apply dumps_list_plain].
Qed.

Lemma iterate_elements (v : Json.value) (w : world) :
  iterate v w =
  match elements v with
  | Some items => (Ret items, w, [])
  | None => (Raise (Exn TypeError "object is not iterable"), w, [])
  end.
Proof. by destruct v. Qed.

(** Adding the items of a list one by one stops at the first item that is
    neither a string nor [null]; the strings before it stay added. *)
Lemma for_each_addItem_any (items : list Json.value) (w : world) :
  for_each items addItem w =
  (if all_strings items then Ret tt
   else Raise (Exn TypeError "addItem(): argument 1 has unexpected type"),
   set_history_list (history_list w ++ leading_strings items) w, []).
Proof.
  revert w. induction items as [|v items IH]; intros w.
  - cbn. by rewrite app_nil_r, set_history_list_same.
  - cbn [for_each]. unfold bind at 1.
    destruct v; cbn [addItem raise modify all_strings forallb leading_strings
                     andb mret M_ret ret];
      try by rewrite app_nil_r, set_history_list_same.
    + by rewrite IH.
    + rewrite IH. cbn [app]. f_equal. f_equal.
      destruct w. cbn. by rewrite <- app_assoc.
Qed.

(** The state [load_history] leaves. *)
Lemma load_history_world (read_failure : option exn) (w : world) :
  exists added t,
    load_history read_failure w =
      (Ret tt, set_history_list (history_list w ++ added) w, t) /\
    (fs w !! HISTORY_FILE = None -> added = []).
Proof.
  unfold load_history. eff_simpl.
  case_bool_decide as Hfile.
  2:{ exists [], []. by rewrite app_nil_r, set_history_list_same. }
  assert (fs w !! HISTORY_FILE <> None) as Hsome by by destruct Hfile as [? ->].
  destruct read_failure as [e|]; cbn [app].
  { eexists [], _. by rewrite app_nil_r, set_history_list_same. }
  destruct (Json.loads _) as [v|]; cbn [app].
  2:{ eexists [], _. by rewrite app_nil_r, set_history_list_same. }
  rewrite iterate_elements. destruct (elements v) as [items|]; cbn [app].
  2:{ eexists [], _. by rewrite app_nil_r, set_history_list_same. }
  rewrite for_each_addItem_any.
  destruct (all_strings items); cbn [app]; by eexists _, _.
Qed.

(** [load_history] never raises, never removes or reorders an entry and
    touches nothing but the list: the list it leaves is the old one with
    entries appended.  It does nothing at all when the file is missing,
    adds nothing when the file cannot be read, and reports every failure
    by one warning box and one log entry. *)
Theorem load_history_only_appends (read_failure : option exn) (w : world) :
  exists added t,
    load_history read_failure w =
      (Ret tt, set_history_list (history_list w ++ added) w, t) /\
    (fs w !! HISTORY_FILE = None -> added = [] /\ t = []) /\
    (is_Some read_failure -> added = []) /\
    (t = [] \/
     exists msg,
       t = [MessageBox Warning "History Load Error"
              ("Failed to load download history: " +:+ msg);
            Logging ERROR ("Failed to load download history: " +:+ msg)]).
Proof.
  unfold load_history. eff_simpl.
  case_bool_decide as Hfile.
  2:{ exists [], []. rewrite app_nil_r, set_history_list_same.
      split_and!; eauto. }
  assert (fs w !! HISTORY_FILE <> None) as Hsome by by destruct Hfile as [? ->].
  destruct read_failure as [e|]; cbn [app].
  { eexists [], _. rewrite app_nil_r, set_history_list_same.
    split; [reflexivity|]. split_and!; [done|done|right; by eexists]. }
  destruct (Json.loads _) as [v|]; cbn [app].
  2:{ eexists [], _. rewrite app_nil_r, set_history_list_same.
      split; [reflexivity|].
      split_and!; [done|by intros []|right; by eexists]. }
  rewrite iterate_elements. destruct (elements v) as [items|]; cbn [app].
  2:{ eexists [], _. rewrite app_nil_r, set_history_list_same.
      split; [reflexivity|].
      split_and!; [done|by intros []|right; by eexists]. }
  rewrite for_each_addItem_any.
  destruct (all_strings items); cbn [app];
    (eexists _, _; split; [reflexivity|]);
    (split_and!; [done|by intros []|first [by left|right; by eexists]]).
Qed.

End LoadHistory.

(** * Starting a download *)

Section Launch.
Import Eff YouTubeDownloader Window.
Context `{OsPath}.

Lemma first_match_names (keys : list string) (domain name : string) :
  first_match keys domain = Some name ->
  name ∈ ["YouTube"; "X (Twitter)"; "Facebook"].
Proof.
  induction keys as [|key keys IH]; [done|]. cbn [first_match].
  destruct (Py.contains key domain); [|exact IH].
  unfold SUPPORTED_PLATFORMS. cbn [dict_get].
  repeat (destruct (String.eqb _ key);
          [intros [= <-]; apply (bool_decide_unpack _); by vm_compute|]).
  done.
Qed.

Lemma validate_url_names (url name : string) :
  validate_url url = Some name ->
  name ∈ ["YouTube"; "X (Twitter)"; "Facebook"].
Proof.
  rewrite validate_url_domain. destruct (domain_of url) as [g|]; [|done].
  apply first_match_names.
Qed.

Lemma validate_url_truthy (url name : string) :
  validate_url url = Some name -> Py.truthy name = true.
Proof.
  intros Hin%validate_url_names.
  repeat (apply elem_of_cons in Hin as [->|Hin]; [reflexivity|]).
  by apply elem_of_nil in Hin.
Qed.

(** An event list without [ThreadStart], by inspection. *)
Ltac no_thread :=
  let Hin := fresh "Hin" in
  intros Hin;
  repeat (apply elem_of_cons in Hin as [Hin|Hin]; [discriminate|]);
  by apply elem_of_nil in Hin.

(** [start_download] either starts the download, leaving the state
    [launched], or changes nothing. *)
Lemma start_download_cases (env : download_env) (w : world) :
  match started env w with
  | Some (platform_name, filepath) =>
      exists t,
        start_download env w
          = (Ret tt, launched platform_name filepath env w,
             ExtractInfo (Py.strip (url_input w)) :: t
               ++ [NewThread; ThreadStart])
  | None =>
      exists t, start_download env w = (Ret tt, w, t) /\
                (ThreadStart ∉ t) /\ (NewThread ∉ t)
  end.
Proof.
  unfold started, prepared, reported_title, start_download. eff_simpl.
  rewrite get_format_option_value. fold (chosen_format w).
  destruct (Py.truthy (Py.strip (url_input w))); cbn [negb andb mbind option_bind].
  2:{ eexists. split; [reflexivity|split; no_thread]. }
  destruct (Py.truthy (Py.strip (dir_display w))); cbn [negb andb mbind option_bind].
  2:{ eexists. split; [reflexivity|split; no_thread]. }
  destruct (validate_url _) as [name|] eqn:Hname; cbn [mbind option_bind].
  2:{ eexists. split; [reflexivity|split; no_thread]. }
  rewrite (validate_url_truthy _ _ Hname).
  unfold launch, confirm_overwrite, expected_path. eff_simpl.
  destruct (extract_info_result env) as [info|e]; cbn [mbind option_bind].
  2:{ eexists. split; [reflexivity|split; no_thread]. }
  destruct (default _ _) as [| | |title|] eqn:Htitle; cbn [mbind option_bind].
  all: try (eexists; split; [reflexivity|split; no_thread]).
  cbn [snd].
  generalize (path_join (Py.strip (dir_display w))
                (expected_filename title (chosen_format w))).
  intros p. destruct (fs w !! p) as [old|] eqn:Hp.
  - rewrite bool_decide_eq_false_2 by done.
    rewrite bool_decide_eq_true_2 by eauto.
    destruct (overwrite_answer env); cbn [negb app].
    2:{ eexists. split; [reflexivity|split; no_thread]. }
    destruct (remove_failure env); cbn [app].
    { eexists. split; [reflexivity|split; no_thread]. }
    rewrite get_format_option_value. cbn [app].
    eexists [_; _; _]. reflexivity.
  - rewrite bool_decide_eq_true_2 by done.
    rewrite bool_decide_eq_false_2 by (by intros []).
    rewrite get_format_option_value. cbn [app].
    exists []. unfold launched. by rewrite delete_id, set_fs_same.
Qed.

Lemma chosen_format_option (w : world) : chosen_format w ∈ FORMAT_OPTIONS.
Proof.
  unfold chosen_format, FORMAT_OPTIONS.
  case_bool_decide as Hin; [|apply (bool_decide_unpack _); by vm_compute].
  repeat (apply elem_of_cons in Hin as [->|Hin];
          [apply (bool_decide_unpack _); by vm_compute|]).
  by apply elem_of_nil in Hin.
Qed.

(** What a started download went through. *)
Lemma started_inv (env : download_env) (w : world)
    (platform_name filepath : string) :
  started env w = Some (platform_name, filepath) ->
  Py.truthy (Py.strip (url_input w)) = true /\
  Py.truthy (Py.strip (dir_display w)) = true /\
  validate_url (Py.strip (url_input w)) = Some platform_name /\
  (exists title,
      reported_title env = Some title /\
      filepath = path_join (Py.strip (dir_display w))
                   (expected_filename title (chosen_format w))) /\
  (fs w !! filepath = None \/
   overwrite_answer env = true /\ remove_failure env = None).
Proof.
  unfold started, prepared.
  destruct (Py.truthy (Py.strip (url_input w))); [|done].
  destruct (Py.truthy (Py.strip (dir_display w))); [|done].
  cbn [andb]. destruct (validate_url _) as [name|]; [|done].
  destruct (reported_title env) as [title|]; [|done].
  cbn [mbind option_bind snd]. intros Hstarted.
  assert (name = platform_name /\
          path_join (Py.strip (dir_display w))
            (expected_filename title (chosen_format w)) = filepath /\
          (fs w !! filepath = None \/
           overwrite_answer env = true /\ remove_failure env = None))
    as (-> & <- & Hfile).
  { case_bool_decide as Hp.
    - injection Hstarted as -> <-. by split_and!; [..|left].
    - destruct (overwrite_answer env); [|done].
      destruct (remove_failure env); [done|].
      injection Hstarted as -> <-. by split_and!; [..|right]. }
  split_and!; try done. by exists title.
Qed.

(** A click on the delete button either changes nothing or removes the
    selected file and its row, and writes the list. *)
Lemma delete_selected_file_cases (selected : option nat)
    (remove_failure write_failure : option exn) (w : world) :
  (delete_selected_file selected remove_failure write_failure w).1.2 = w \/
  exists row (filepath : string),
    history_list w !! row = Some (filepath : Py.str) /\
    (delete_selected_file selected remove_failure write_failure w).1.2
      = (save_history write_failure
           (set_history_list (delete row (history_list w))
              (set_fs (delete filepath (fs w)) w))).1.2.
Proof.
  unfold delete_selected_file. eff_simpl.
  destruct selected as [row|]; [|by left].
  destruct (history_list w !! row) as [filepath|] eqn:Hrow; [|by left].
  cbn [for_each fst snd]. unfold delete_item, existing_file.
  destruct (Py.latin1 filepath) as [p|] eqn:Hp; eff_simpl; [|by left].
  apply of_latin1_latin1 in Hp as <-.
  case_bool_decide as Hfile; [|by left].
  destruct remove_failure as [e|]; [by left|].
  right. exists row, p. split; [done|].
  cbn [set_fs history_list fs].
  by destruct (save_history write_failure _) as [[[] ?] ?].
Qed.

(** [start_download] never raises and is all or nothing.  It starts the
    download exactly when the URL and the directory are not empty, the URL
    is one of a supported platform, the library reports a title, and the
    expected file is absent or the user agrees to overwrite it and it can
    be removed.  Then the expected file is gone, the buttons are switched
    to their busy state, the progress bar is at 0, the status names the
    platform, and the worker is created and its thread started last, for
    the stripped URL and the expected file.  In every other case the state
    is the one before the call and no thread is created or started. *)
Theorem start_download_starts_or_leaves (env : download_env) (w : world) :
  match started env w with
  | Some (platform_name, filepath) =>
      validate_url (Py.strip (url_input w)) = Some platform_name /\
      (exists title,
          reported_title env = Some title /\
          filepath = path_join (Py.strip (dir_display w))
                       (expected_filename title (chosen_format w))) /\
      (fs w !! filepath = None \/
       overwrite_answer env = true /\ remove_failure env = None) /\
      exists t,
        start_download env w
          = (Ret tt, launched platform_name filepath env w,
             ExtractInfo (Py.strip (url_input w)) :: t
               ++ [NewThread; ThreadStart])
  | None =>
      exists t, start_download env w = (Ret tt, w, t) /\
                (ThreadStart ∉ t) /\ (NewThread ∉ t)
  end.
Proof.
  pose proof (start_download_cases env w) as Hcases.
  destruct (started env w) as [[platform_name filepath]|] eqn:Hstarted;
    [|exact Hcases].
  apply started_inv in Hstarted as (_ & _ & Hname & Htitle & Hfile).
  by split_and!.
Qed.

End Launch.

(** * The classifier and the parts of a URL *)

Section Hosts.
Import YouTubeDownloader.

Lemma span_run (p : ascii -> bool) (run rest : string) :
  Forall (fun c => p c = true) (list_ascii_of_string run) ->
  (rest = EmptyString \/ exists c r, rest = String c r /\ p c = false) ->
  Py.span p (run +:+ rest) = (run, rest).
Proof.
  intros Hrun Hrest. induction run as [|c run IH].
  - rewrite app_empty_l. destruct Hrest as [->|(c & r & -> & Hc)]; [done|].
    cbn [Py.span]. by rewrite Hc.
  - rewrite app_cons. cbn [Py.span]. cbn [list_ascii_of_string] in Hrun.
    apply Forall_cons in Hrun as [Hc Hrun]. by rewrite Hc, (IH Hrun).
Qed.

Lemma captured_run (host rest : string) :
  host <> EmptyString ->
  Forall (fun c => domain_char c = true) (list_ascii_of_string host) ->
  (rest = EmptyString \/
   exists c r, rest = String c r /\ domain_char c = false) ->
  captured (host +:+ rest) = Some host.
Proof.
  intros Hne Hhost Hrest. unfold captured.
  rewrite span_run by done. by destruct host.
Qed.

(** A run of domain characters does not hold the colon of a scheme. *)
Lemma startswith_scheme_run (scheme host rest : string) :
  scheme ∈ ["https://"; "http://"] ->
  Forall (fun c => domain_char c = true) (list_ascii_of_string host) ->
  (rest = EmptyString \/
   exists c r, rest = String c r /\ domain_char c = false) ->
  Py.startswith "://" rest = false ->
  Py.startswith scheme (host +:+ rest) = false.
Proof.
  intros Hscheme Hhost Hrest Hbare.
  destruct (Py.startswith scheme (host +:+ rest)) eqn:Hs; [|done].
  exfalso. apply startswith_spec in Hs as [post Hs].
  repeat (apply elem_of_cons in Hscheme as [->|Hscheme]);
    [| |by apply elem_of_nil in Hscheme];
    rewrite !app_cons, app_empty_l in Hs;
    repeat
      (destruct host as [|? host];
       [ rewrite app_empty_l in Hs; subst rest;
         first [ by vm_compute in Hbare
               | destruct Hrest as [Hr|(c & r & Hr & Hc)];
                 [discriminate|injection Hr as <- _; by vm_compute in Hc] ]
       | rewrite app_cons in Hs; injection Hs as -> Hs;
         cbn [list_ascii_of_string] in Hhost;
         apply Forall_cons in Hhost as [Hc Hhost];
         try (by vm_compute in Hc); clear Hc ]).
Qed.

Lemma domain_of_host (scheme host rest : string) :
  scheme ∈ ["https://"; "http://"; ""] ->
  host <> EmptyString ->
  Forall (fun c => domain_char c = true) (list_ascii_of_string host) ->
  (rest = EmptyString \/
   exists c r, rest = String c r /\ domain_char c = false) ->
  (scheme = EmptyString -> Py.startswith "://" rest = false) ->
  domain_of (scheme +:+ host +:+ rest) = Some host.
Proof.
  intros Hscheme Hne Hhost Hrest Hbare. unfold domain_of.
  repeat (apply elem_of_cons in Hscheme as [->|Hscheme]);
    [| | |by apply elem_of_nil in Hscheme].
  - rewrite !app_cons, app_empty_l, !startswith_cons. cbn [Ascii.eqb Bool.eqb andb Py.startswith].
    rewrite !drop_cons, drop_0. by rewrite captured_run.
  - rewrite !app_cons, app_empty_l, !startswith_cons. cbn [Ascii.eqb Bool.eqb andb Py.startswith].
    rewrite !drop_cons, drop_0. by rewrite captured_run.
  - rewrite app_empty_l.
    rewrite !startswith_scheme_run; try done; try (by apply Hbare).
    + by rewrite captured_run.
    + apply list_elem_of_further, list_elem_of_here.
    + apply list_elem_of_here.
Qed.

(** [validate_url] looks at the host only: an [http://] or [https://]
    before it, and whatever follows it from the first colon, slash or
    white space on (a port, a path, a query), do not change the answer. *)
Theorem validate_url_host_only (scheme host rest : string) :
  scheme ∈ ["https://"; "http://"; ""] ->
  host <> EmptyString ->
  Forall (fun c => domain_char c = true) (list_ascii_of_string host) ->
  (rest = EmptyString \/
   exists c r, rest = String c r /\ domain_char c = false) ->
  (scheme = EmptyString -> Py.startswith "://" rest = false) ->
  validate_url (scheme +:+ host +:+ rest) = validate_url host.
Proof.
  intros Hscheme Hne Hhost Hrest Hbare.
  rewrite !validate_url_domain, domain_of_host by done.
  rewrite <- (app_empty_r host) at 2.
  rewrite <- (app_empty_l (host +:+ EmptyString)).
  rewrite (domain_of_host EmptyString host EmptyString); try done.
  - apply (bool_decide_unpack _). by vm_compute.
  - by left.
Qed.

End Hosts.

(** An instance: a watch page of YouTube, with scheme, path and query. *)
Lemma validate_url_host_only_witness :
  YouTubeDownloader.validate_url "https://www.youtube.com/watch?v=1"
  = YouTubeDownloader.validate_url "www.youtube.com".
Proof.
  apply (validate_url_host_only "https://" "www.youtube.com" "/watch?v=1").
  - apply (bool_decide_unpack _). by vm_compute.
  - done.
  - apply (bool_decide_unpack _). by vm_compute.
  - right. by exists "/"%char, "watch?v=1".
  - done.
Defined.

(** * The window from its creation on *)

Section Invariants.
Import Eff YouTubeDownloader Window.
Context `{OsPath}.

Lemma save_history_world (write_failure : option exn) (w : world) :
  (save_history write_failure w).1.2 =
  match write_failure with
  | None =>
      set_fs (<[HISTORY_FILE := Json.dumps_list 4 (history_list w)]> (fs w)) w
  | Some _ => w
  end.
Proof. by destruct write_failure. Qed.

Lemma clicked_world (enabled : world -> bool) (slot : M unit) (w : world) :
  (clicked enabled slot w).1.2 = if enabled w then (slot w).1.2 else w.
Proof.
  unfold clicked. eff_simpl. destruct (enabled w); [|done].
  by destruct (slot w) as [[? ?] ?].
Qed.

Ltac fields :=
  cbn [url_input dir_display quality_dropdown format_dropdown download_button
       cancel_button delete_button progress_bar status_label history_list
       worker fs environ
       set_download_button set_cancel_button set_delete_button
       set_progress_bar set_status_label set_history_list set_worker set_fs
       set_environ set_url_input set_dir_display set_quality_dropdown
       set_format_dropdown fst snd] in *.

Ltac finish :=
  first [done | by left | by right | by eauto | by intros (? & ? & ?)].

Ltac split5 := refine (conj _ (conj _ (conj _ (conj _ _)))).

Lemma step_controls (a : action) (w : world) :
  controls_ok w -> controls_ok (step a w).1.2.
Proof.
  intros Hok. destruct a as [text|i|i|chosen|env|f|row rf wf|percent|msg|filepath wf|].
  - exact Hok.
  - unfold step, pick. destruct (QUALITY_OPTIONS !! i) as [text|] eqn:Hi; [|exact Hok].
    destruct Hok as (Hb & Hp & Hf & Hq & Hw). split5; try finish.
    by apply list_elem_of_lookup_2 with i.
  - unfold step, pick. destruct (FORMAT_OPTIONS !! i) as [text|] eqn:Hi; [|exact Hok].
    destruct Hok as (Hb & Hp & Hf & Hq & Hw). split5; try finish.
    by apply list_elem_of_lookup_2 with i.
  - unfold step, browse_directory. by destruct (Py.truthy chosen).
  - cbn [step]. rewrite clicked_world. destruct (download_button w); [|exact Hok].
    pose proof (start_download_cases env w) as Hcases.
    destruct (started env w) as [[name p]|].
    + destruct Hcases as [t ->]. destruct Hok as (Hb & Hp & Hf & Hq & Hw).
      unfold launched, controls_ok, idle_buttons, busy_buttons. fields.
      split5; finish.
    + by destruct Hcases as (t & -> & _).
  - cbn [step]. rewrite clicked_world.
    destruct (cancel_button w); [|exact Hok]. unfold cancel_download. eff_simpl.
    destruct (worker w) as [args|] eqn:Hargs; [|exact Hok].
    destruct f as [e|]; [exact Hok|]. eff_simpl.
    destruct Hok as (Hb & Hp & Hf & Hq & Hw).
    unfold controls_ok, idle_buttons, busy_buttons. fields.
    split5; finish.
  - cbn [step]. rewrite clicked_world. destruct (delete_button w); [|exact Hok].
    destruct (delete_selected_file_cases row rf wf w) as [->|(r & p & _ & ->)];
      [exact Hok|].
    rewrite save_history_world. by destruct wf.
  - unfold step, update_progress, progress_bar_setValue. eff_simpl.
    destruct Hok as (Hb & Hp & Hf & Hq & Hw). case_bool_decide; split5; finish.
  - destruct Hok as (Hb & Hp & Hf & Hq & Hw).
    unfold controls_ok, idle_buttons, busy_buttons. cbn.
    split5; finish.
  - destruct Hok as (Hb & Hp & Hf & Hq & Hw).
    unfold controls_ok, idle_buttons, busy_buttons.
    destruct wf; cbn; (split5; finish).
  - destruct Hok as (Hb & Hp & Hf & Hq & Hw).
    unfold controls_ok, idle_buttons, busy_buttons. cbn.
    split5; finish.
Qed.


Lemma step_worker_ok (a : action) (w : world) :
  worker_ok w -> worker_ok (step a w).1.2.
Proof.
  intros Hok.
  destruct a as [text|i|i|chosen|env|f|row rf wf|percent|msg|filepath wf|];
    cbn [step]; rewrite ?clicked_world.
  - exact Hok.
  - unfold pick. by destruct (QUALITY_OPTIONS !! i).
  - unfold pick. by destruct (FORMAT_OPTIONS !! i).
  - unfold browse_directory. by destruct (Py.truthy chosen).
  - destruct (download_button w); [|exact Hok].
    pose proof (start_download_cases env w) as Hcases.
    destruct (started env w) as [[name p]|] eqn:Hstarted.
    + destruct Hcases as [t ->].
      apply started_inv in Hstarted as (_ & _ & Hname & (title & _ & ->) & _).
      intros args [= <-]. cbn.
      split_and!; [apply chosen_format_option|by rewrite Hname|by eauto|by eauto].
    + by destruct Hcases as (t & -> & _).
  - destruct (cancel_button w); [|exact Hok]. unfold cancel_download. eff_simpl.
    destruct (worker w) as [args|] eqn:Hargs; [|exact Hok].
    destruct f as [e|]; [exact Hok|]. intros args'. cbn. rewrite Hargs.
    intros [= <-]. by apply Hok.
  - destruct (delete_button w); [|exact Hok].
    destruct (delete_selected_file_cases row rf wf w) as [->|(r & p & _ & ->)];
      [exact Hok|].
    rewrite save_history_world. by destruct wf.
  - unfold update_progress, progress_bar_setValue. eff_simpl.
    by case_bool_decide.
  - exact Hok.
  - unfold add_to_history. by destruct wf.
  - exact Hok.
Qed.

(** What every step keeps holds after any number of steps. *)
Lemma steps_invariant (P : world -> Prop) (actions : list action) (w : world) :
  (forall a w, P w -> P (step a w).1.2) -> P w -> P (steps actions w).
Proof.
  intros Hstep. revert w. unfold steps.
  induction actions as [|a actions IH]; intros w Hw; [done|].
  cbn [foldl]. by apply IH, Hstep.
Qed.

End Invariants.

(** * The list and its file *)

Section Synced.
Import Eff YouTubeDownloader Window.

Lemma last_char_app (a b : string) :
  b <> EmptyString ->
  last (list_ascii_of_string (a +:+ b)) = last (list_ascii_of_string b).
Proof.
  intros Hb. rewrite chars_app, last_app.
  destruct b as [|c b]; [done|]. cbn [list_ascii_of_string].
  by destruct (last (c :: list_ascii_of_string b)) eqn:E;
    [|apply last_None in E].
Qed.

(** On POSIX an expected file ends in the last character of its
    extension. *)
Lemma expected_path_last_char (directory title export_format : string) :
  last (list_ascii_of_string
          (PosixPath.join directory (expected_filename title export_format)))
  ∈ [Some "4"%char; Some "3"%char; Some "v"%char].
Proof.
  assert (last (list_ascii_of_string (expected_filename title export_format))
          ∈ [Some "4"%char; Some "3"%char; Some "v"%char]) as Hname.
  { unfold expected_filename.
    pose proof (proj1 (ext_of_format export_format)) as Hext.
    unfold FORMAT_OPTIONS in Hext.
    rewrite last_char_app.
    2:{ repeat (apply elem_of_cons in Hext as [->|Hext]; [done|]).
        by apply elem_of_nil in Hext. }
    repeat (apply elem_of_cons in Hext as [->|Hext];
            [apply (bool_decide_unpack _); by vm_compute|]).
    by apply elem_of_nil in Hext. }
  assert (expected_filename title export_format <> EmptyString) as Hne.
  { intros E. rewrite E in Hname. revert Hname.
    apply (bool_decide_unpack _). by vm_compute. }
  unfold PosixPath.join.
  destruct (Py.startswith "/" _); [done|].
  destruct (negb _ || _); by rewrite ?app_assoc_str, !last_char_app.
Qed.

Lemma expected_path_not_history (directory title export_format : string) :
  PosixPath.join directory (expected_filename title export_format)
  <> HISTORY_FILE.
Proof.
  intros E. pose proof (expected_path_last_char directory title export_format)
    as Hlast.
  rewrite E in Hlast. revert Hlast. apply (bool_decide_unpack _). by vm_compute.
Qed.

Lemma step_synced (a : action) (w : world) :
  writes_succeed a -> history_synced w ->
  history_synced (step (H := posix) a w).1.2.
Proof.
  unfold history_synced. intros Hwrites Hsync.
  destruct a as [text|i|i|chosen|env|f|row rf wf|percent|msg|filepath wf|];
    cbn [step]; rewrite ?clicked_world.
  - exact Hsync.
  - unfold pick. by destruct (QUALITY_OPTIONS !! i).
  - unfold pick. by destruct (FORMAT_OPTIONS !! i).
  - unfold browse_directory. by destruct (Py.truthy chosen).
  - destruct (download_button w); [|exact Hsync].
    pose proof (start_download_cases (H := posix) env w) as Hcases.
    destruct (started env w) as [[name p]|] eqn:Hstarted.
    + destruct Hcases as [t ->].
      apply started_inv in Hstarted as (_ & _ & _ & (title & _ & ->) & _).
      cbn. rewrite lookup_delete_ne; [done|]. apply expected_path_not_history.
    + by destruct Hcases as (t & -> & _).
  - destruct (cancel_button w); [|exact Hsync]. unfold cancel_download. eff_simpl.
    destruct (worker w) as [args|]; [|exact Hsync].
    by destruct f as [e|].
  - destruct (delete_button w); [|exact Hsync].
    destruct (delete_selected_file_cases (H := posix) row rf wf w)
      as [->|(r & p & _ & ->)]; [exact Hsync|].
    cbn in Hwrites. subst wf. rewrite save_history_written. cbn.
    by rewrite lookup_insert_eq.
  - unfold update_progress, progress_bar_setValue. eff_simpl.
    by case_bool_decide.
  - exact Hsync.
  - cbn in Hwrites. subst wf. rewrite add_to_history_written.
    destruct (add_to_history_list filepath None w) as [-> _].
    by rewrite lookup_insert_eq.
  - exact Hsync.
Qed.

End Synced.

(** * Creating the window *)

Section Startup.
Import Eff Installer YouTubeDownloader Window.
Context `{OsPath}.

(** [check_ffmpeg], by the way it ends; [files] is what the installer has
    written by then. *)
Lemma check_ffmpeg_cases (env : startup_env) (w : world) :
  let archive :=
    path_join (path_join (getcwd (installer env)) "ffmpeg_temp")
      "ffmpeg_download" in
  (is_Some (ffmpeg_on_path env) /\ check_ffmpeg env w = (Ret None, w, [])) \/
  (ffmpeg_on_path env = None /\ install_answer env = false /\
   exists t title text,
     check_ffmpeg env w
       = (Ret (Some 1%Z), w, t ++ [MessageBox Critical title text])) \/
  (ffmpeg_on_path env = None /\ install_answer env = true /\
   exists files,
     files ∈ [ [];
               [(archive, archive_bytes (installer env))];
               (archive, archive_bytes (installer env))
                 :: unpacked (installer env) ] /\
     ((exists t title text,
          check_ffmpeg env w
            = (Ret (Some 1%Z), set_fs (write_all files (fs w)) w,
               t ++ [MessageBox Critical title text])) \/
      (exists t ffmpeg_path old,
          files = (archive, archive_bytes (installer env))
                    :: unpacked (installer env) /\
          locate (walk (installer env)) = Some ffmpeg_path /\
          environ w !! "PATH" = Some old /\
          check_ffmpeg env w
            = (Ret None,
               set_environ
                 (<["PATH" := old +:+ path_pathsep
                              +:+ path_dirname ffmpeg_path]> (environ w))
                 (set_fs (write_all files (fs w)) w),
               t ++ [MessageBox Information "FFmpeg Installed"
                       "FFmpeg has been installed temporarily and added to the current session's PATH."])) \/
      (exists t e,
          files = [] /\
          makedirs_failure (installer env) = Some e /\
          extract_dir_exists (installer env) = false /\
          check_ffmpeg env w = (Raise e, w, t)))).
Proof.
  intros archive.
  unfold check_ffmpeg, prompt_ffmpeg_installation, is_ffmpeg_installed.
  destruct (ffmpeg_on_path env) as [p|]; cbn [negb].
  { left. split; [by eexists|done]. }
  right. eff_simpl. destruct (install_answer env).
  2:{ left. split_and!; try done. by eexists [_], _, _. }
  right. split_and!; try done.
  destruct (installer_outcome (installer env) w)
    as (files & Hfiles & _ & Hrun).
  exists files. split; [exact Hfiles|].
  destruct Hrun
    as [[t Hrun]|[(t & p & old & Hf & _ & _ & Hloc & Hpath & Hrun)
                 |(e & Hf & Hdir & Hmk & Hrun)]];
    rewrite Hrun; cbn [app].
  - left. eexists (_ :: t), _, _. reflexivity.
  - right. left. eexists (_ :: t), p, old. by split_and!.
  - right. right. by eexists _, e.
Qed.

Lemma set_environ_same (w : world) : set_environ (environ w) w = w.
Proof. by destruct w. Qed.

Lemma set_dir_display_same (w : world) : set_dir_display (dir_display w) w = w.
Proof. by destruct w. Qed.

(** The step of [setup_ui] that creates the default directory. *)
Lemma ensure_default_dir_cases (env : startup_env) (w : world) :
  (exists t, ensure_default_dir env w = (Ret tt, w, t) /\
             (downloads_dir_exists env = true -> t = []) /\
             (downloads_dir_exists env = false ->
              downloads_makedirs_failure env = None /\
              t = [DirCreated (path_join (home env) "Downloads")])) \/
  downloads_dir_exists env = false /\
  exists e, downloads_makedirs_failure env = Some e /\
    ensure_default_dir env w
      = (Ret tt, set_dir_display EmptyString w,
         [MessageBox Critical "Directory Error"
            ("Failed to create default directory: " +:+ exn_str e)]).
Proof.
  unfold ensure_default_dir.
  destruct (downloads_dir_exists env); cbn [negb].
  { left. by exists []. }
  destruct (downloads_makedirs_failure env) as [e|].
  - right. split; [done|]. by exists e.
  - left. by eexists.
Qed.

(** The window [__init__] leaves is the one [setup_ui] builds, but for the
    directory field, the history list, the files the installer wrote and
    the environment. *)
Lemma init_world (env : startup_env) (files environment : gmap string string) :
  let archive :=
    path_join (path_join (getcwd (installer env)) "ffmpeg_temp")
      "ffmpeg_download" in
  exists d added e written,
    (init env files environment).1.2
      = set_environ e
          (set_fs (write_all written files)
             (set_history_list added
                (set_dir_display d
                   (fresh_window (path_join (home env) "Downloads")
                      files environment)))) /\
    (d = path_join (home env) "Downloads" \/
     d = EmptyString /\ downloads_dir_exists env = false /\
     is_Some (downloads_makedirs_failure env)) /\
    (files !! HISTORY_FILE = None -> added = []) /\
    written ∈ [ [];
                [(archive, archive_bytes (installer env))];
                (archive, archive_bytes (installer env))
                  :: unpacked (installer env) ] /\
    (is_Some (ffmpeg_on_path env) \/ install_answer env = false ->
     written = []).
Proof.
  intros archive. unfold init. cbv [mbind M_bind Eff.bind].
  set (w0 := fresh_window _ files environment).
  assert (exists d,
    ensure_default_dir env w0 = (Ret tt, set_dir_display d w0,
                                 (ensure_default_dir env w0).2) /\
    (d = path_join (home env) "Downloads" \/
     d = EmptyString /\ downloads_dir_exists env = false /\
     is_Some (downloads_makedirs_failure env))) as (d & Hdir & Hd).
  { destruct (ensure_default_dir_cases env w0)
      as [(t & E & _)|(Hex & e & Hmk & E)]; rewrite E.
    - exists (path_join (home env) "Downloads"). split; [done|]. by left.
    - exists EmptyString. split; [done|]. right. split_and!; eauto. }
  rewrite Hdir.
  destruct (load_history_world (history_read_failure env) (set_dir_display d w0))
    as (added & t & Hload & Hnone).
  rewrite Hload. cbn [history_list set_dir_display fresh_window w0 app] in *.
  set (w1 := set_history_list added _).
  exists d, added.
  assert (forall F, set_environ (environ w1) (set_fs F w1) = set_fs F w1)
    as Henv by done.
  assert (set_fs (write_all [] files) w1 = w1) as Hnil by done.
  destruct (check_ffmpeg_cases env w1)
    as [[Hpath E]|[(Hpath & Hno & t' & ? & ? & E)
       |(Hpath & Hyes & written & Hwritten & Hrun)]].
  - rewrite E. cbn [fst snd]. exists (environ w1), [].
    rewrite Henv, Hnil. split_and!; try done. apply list_elem_of_here.
  - rewrite E. cbn [fst snd]. exists (environ w1), [].
    rewrite Henv, Hnil. split_and!; try done. apply list_elem_of_here.
  - assert (is_Some (ffmpeg_on_path env) \/ install_answer env = false ->
            written = []) as Hnot.
    { rewrite Hpath, Hyes. by intros [[]|]. }
    destruct Hrun as [(t' & ? & ? & E)|[(t' & p & old & Hf & _ & _ & E)
                     |(t' & e & Hf & _ & _ & E)]];
      rewrite E; cbn [fst snd].
    + exists (environ w1), written. by rewrite Henv.
    + eexists _, written. split; [reflexivity|]. done.
    + subst written. exists (environ w1), [].
      rewrite Henv, Hnil. split_and!; try done.
Qed.

(** With [ffmpeg_temp] missing on a supported system, an installation
    the user agrees to creates it. *)
Lemma check_ffmpeg_makedirs (env : startup_env) (w : world) :
  ffmpeg_on_path env = None -> install_answer env = true ->
  is_Some (ffmpeg_url_of (Py.lower (platform_system (installer env)))) ->
  extract_dir_exists (installer env) = false ->
  makedirs_failure (installer env) = None ->
  DirCreated (path_join (getcwd (installer env)) "ffmpeg_temp")
    ∈ (check_ffmpeg env w).2.
Proof.
  intros Hpath Hyes Hurl Hdir Hmk.
  unfold check_ffmpeg, prompt_ffmpeg_installation, is_ffmpeg_installed.
  rewrite Hpath, Hyes. cbn [negb]. eff_simpl.
  destruct (installer_makedirs (installer env) w Hurl Hdir Hmk) as [t Ht].
  destruct (download_and_install_ffmpeg (installer env) w) as [[o w1] t1].
  cbn [snd] in Ht. subst t1.
  destruct o as [[]|e]; cbn [app snd];
    apply list_elem_of_further, list_elem_of_here.
Qed.

(** A missing Downloads folder that can be created is created before
    anything else happens. *)
Lemma init_makedirs (env : startup_env) (files environment : gmap string string) :
  downloads_dir_exists env = false ->
  downloads_makedirs_failure env = None ->
  exists t,
    (init env files environment).2
      = DirCreated (path_join (home env) "Downloads") :: t.
Proof.
  intros Hdir Hmk. unfold init. cbv [mbind M_bind Eff.bind].
  set (w0 := fresh_window _ files environment).
  destruct (ensure_default_dir_cases env w0)
    as [(t & E & _ & Ht)|(_ & e & Hfail & _)]; [|congruence].
  destruct (Ht Hdir) as [_ ->]. rewrite E.
  destruct (load_history _ _) as [[[[]|e1] w1] t1]; [|by eexists].
  destruct (check_ffmpeg _ _) as [[o2 w2] t2]. by eexists.
Qed.

End Startup.

Section StartupFacts.
Import Eff Installer YouTubeDownloader Window.
Context `{OsPath}.

(** [check_ffmpeg] returns, and the window goes on to be shown, only when
    FFmpeg is on the search path, nothing having changed, or was just
    installed: then the archive and the unpacked files are written and the
    directory of the executable is appended to [PATH].  It ends the
    program, always with status 1 and a critical box as the last thing
    shown, when the user declines the installation, the state being as it
    was, or when the installer reports failure: then the files are the old
    ones but for what the installer had written, which is nothing, the
    archive, or the archive and the unpacked files, and nothing else has
    changed.  The only exception that leaves it is the one of
    [os.makedirs] in the installer, which nothing catches and which comes
    before anything is written.  When the installer runs on a supported
    system and finds no [ffmpeg_temp], the directory it creates is among
    the events. *)
Theorem check_ffmpeg_outcome (env : startup_env) (w : world) :
  let r := check_ffmpeg env w in
  let archive :=
    path_join (path_join (getcwd (installer env)) "ffmpeg_temp")
      "ffmpeg_download" in
  let installed :=
    (archive, archive_bytes (installer env)) :: unpacked (installer env) in
  (r.1.1 = Ret None ->
   is_Some (ffmpeg_on_path env) /\ r = (Ret None, w, []) \/
   ffmpeg_on_path env = None /\ install_answer env = true /\
   exists ffmpeg_path old,
     locate (walk (installer env)) = Some ffmpeg_path /\
     environ w !! "PATH" = Some old /\
     r.1.2 = set_environ
               (<["PATH" := old +:+ path_pathsep +:+ path_dirname ffmpeg_path]>
                  (environ w))
               (set_fs (write_all installed (fs w)) w)) /\
  (forall status, r.1.1 = Ret (Some status) ->
     status = 1%Z /\ ffmpeg_on_path env = None /\
     (exists files,
         files ∈ [ []; [(archive, archive_bytes (installer env))];
                   installed ] /\
         r.1.2 = set_fs (write_all files (fs w)) w /\
         (install_answer env = false -> files = [])) /\
     exists t title text, r.2 = t ++ [MessageBox Critical title text]) /\
  (forall e, r.1.1 = Raise e ->
     r.1.2 = w /\ ffmpeg_on_path env = None /\ install_answer env = true /\
     extract_dir_exists (installer env) = false /\
     makedirs_failure (installer env) = Some e) /\
  (ffmpeg_on_path env = None -> install_answer env = false ->
   r.1.1 = Ret (Some 1%Z) /\ r.1.2 = w) /\
  (ffmpeg_on_path env = None -> install_answer env = true ->
   is_Some (ffmpeg_url_of (Py.lower (platform_system (installer env)))) ->
   extract_dir_exists (installer env) = false ->
   makedirs_failure (installer env) = None ->
   DirCreated (path_join (getcwd (installer env)) "ffmpeg_temp") ∈ r.2).
Proof.
  intros r archive installed. subst r installed.
  pose proof (check_ffmpeg_makedirs env w) as Hcreated.
  destruct (check_ffmpeg_cases env w)
    as [[Hpath E]|[(Hpath & Hno & t & title & text & E)
       |(Hpath & Hyes & files & Hfiles & Hrun)]].
  - rewrite E in Hcreated |- *; cbn [fst snd] in *.
    split_and!; [by left|done|done| |done]. intros Hnone.
    rewrite Hnone in Hpath. by destruct Hpath.
  - rewrite E in Hcreated |- *; cbn [fst snd] in *.
    split_and!; [done| |done|done|done].
    intros status [= <-]. split_and!; try done; [|by exists t, title, text].
    exists []. split_and!; [apply list_elem_of_here| |done].
    by rewrite write_all_nil.
  - destruct Hrun as [(t & title & text & E)
                     |[(t & p & old & -> & Hloc & Hold & E)
                      |(t & e & -> & Hmk & Hdir & E)]];
      rewrite E in Hcreated |- *; cbn [fst snd] in *.
    + split_and!; [done| |done|by rewrite Hyes|done].
      intros status [= <-]. split_and!; try done; [|by exists t, title, text].
      exists files. split_and!; [done|done|by rewrite Hyes].
    + split_and!; [|done|done|by rewrite Hyes|done].
      intros _. right. split_and!; try done. by exists p, old.
    + split_and!; [done|done| |by rewrite Hyes|done].
      intros e' [= <-]. by split_and!.
Qed.

(** The window [__init__] leaves: the controls are as [setup_ui] builds
    them and no worker exists.  The files are the ones found at start but
    for what the installer of FFmpeg wrote: nothing, the archive, or the
    archive and the unpacked files; nothing at all when FFmpeg is on the
    search path or the user declines the installation.  The directory
    field holds the Downloads folder of the home directory, or is empty
    when that folder was missing and could not be created; a missing
    folder that can be created is created first of all.  The history list
    is empty when there is no history file, and is the saved list when the
    file holds what [save_history] writes for it and can be read. *)
Theorem init_window (env : startup_env) (files environment : gmap string string) :
  let w := (init env files environment).1.2 in
  let archive :=
    path_join (path_join (getcwd (installer env)) "ffmpeg_temp")
      "ffmpeg_download" in
  url_input w = EmptyString /\
  quality_dropdown w = "Best Available (Default)" /\
  format_dropdown w = "mp4" /\
  idle_buttons w /\ progress_bar w = 0%Z /\ status_label w = "Idle" /\
  worker w = None /\
  (exists written,
      written ∈ [ [];
                  [(archive, archive_bytes (installer env))];
                  (archive, archive_bytes (installer env))
                    :: unpacked (installer env) ] /\
      fs w = write_all written files /\
      (is_Some (ffmpeg_on_path env) \/ install_answer env = false ->
       written = [])) /\
  (dir_display w = path_join (home env) "Downloads" \/
   dir_display w = EmptyString /\ downloads_dir_exists env = false /\
   is_Some (downloads_makedirs_failure env)) /\
  (files !! HISTORY_FILE = None -> history_list w = []) /\
  (forall items,
      Forall Py.qstring_text items ->
      files !! HISTORY_FILE = Some (Json.dumps_list 4 items) ->
      history_read_failure env = None ->
      history_list w = items) /\
  (downloads_dir_exists env = false ->
   downloads_makedirs_failure env = None ->
   exists t,
     (init env files environment).2
       = DirCreated (path_join (home env) "Downloads") :: t).
Proof.
  intros w archive. subst w.
  assert (forall items,
             Forall Py.qstring_text items ->
             files !! HISTORY_FILE = Some (Json.dumps_list 4 items) ->
             history_read_failure env = None ->
             history_list (init env files environment).1.2 = items) as Hitems.
  { intros items Htexts Hfile Hread.
    unfold init. cbv [mbind M_bind Eff.bind].
    set (w0 := fresh_window _ files environment).
    assert (exists d', (ensure_default_dir env w0).1.1 = Ret tt /\
                       (ensure_default_dir env w0).1.2 = set_dir_display d' w0)
      as (d' & Ho & Hw).
    { destruct (ensure_default_dir_cases env w0)
        as [(t & E & _)|(_ & e' & _ & E)];
        rewrite E; [exists (dir_display w0)|exists EmptyString]; by cbn. }
    destruct (ensure_default_dir env w0) as [[o w1] t1]. cbn in Ho, Hw.
    subst o w1. rewrite Hread.
    rewrite (load_history_read items) by done.
    cbn [history_list set_dir_display w0 fresh_window app].
    set (w2 := set_history_list items _).
    assert (history_list (check_ffmpeg env w2).1.2 = items) as Hlist.
    { destruct (check_ffmpeg_cases env w2)
        as [[_ E]|[(_ & _ & t' & ? & ? & E)
           |(_ & _ & written & _ & [(t' & ? & ? & E)
              |[(t' & p & old & _ & _ & _ & E)|(t' & e' & _ & _ & _ & E)]])]];
        by rewrite E. }
    by destruct (check_ffmpeg env w2) as [[[] ?] ?]. }
  destruct (init_world env files environment)
    as (d & added & e & written & E & Hd & Hnone & Hwritten & Hnot).
  rewrite E in *. unfold idle_buttons. cbn.
  split_and!; try done; [by exists written|apply init_makedirs].
Qed.

End StartupFacts.

Section WindowFacts.
Import Eff YouTubeDownloader Window.
Context `{OsPath}.

(** In every state the window reaches from its creation on, whatever the
    user does and whatever the worker signals, the three buttons are all
    in their idle or all in their busy configuration, the progress bar is
    within 0..100, each dropdown shows one of its entries, and the cancel
    button is enabled only when a worker exists.  So [get_format_option]
    answers the text of the dropdown itself: its default is taken for mp4
    only. *)
Theorem window_controls_ok (env : startup_env)
    (files environment : gmap string string) (actions : list action) :
  let w := steps actions (init env files environment).1.2 in
  controls_ok w /\
  get_format_option w = (Ret (format_dropdown w), w, []).
Proof.
  intros w.
  assert (controls_ok w) as Hok.
  { apply steps_invariant; [apply step_controls|].
    destruct (init_world env files environment)
      as (d & added & e & written & -> & _).
    unfold controls_ok, idle_buttons, busy_buttons. cbn.
    refine (conj _ (conj _ (conj _ (conj _ _)))).
    - by left.
    - lia.
    - apply (bool_decide_unpack _). by vm_compute.
    - apply (bool_decide_unpack _). by vm_compute.
    - by intros (? & ? & ?). }
  split; [done|]. rewrite get_format_option_value.
  destruct Hok as (_ & _ & Hf & _). unfold FORMAT_OPTIONS in Hf.
  repeat (apply elem_of_cons in Hf as [->|Hf]; [reflexivity|]).
  by apply elem_of_nil in Hf.
Qed.

(** Every worker the window ever holds was created for a URL of a
    supported platform, with one of the four format choices, the options
    built for that choice, and an expected file named for that choice. *)
Theorem window_worker_ok (env : startup_env)
    (files environment : gmap string string) (actions : list action) :
  worker_ok (steps actions (init env files environment).1.2).
Proof.
  apply steps_invariant; [apply step_worker_ok|].
  destruct (init_world env files environment)
      as (d & added & e & written & -> & _).
  by intros args.
Qed.

End WindowFacts.

Section SyncedFacts.
Import Eff YouTubeDownloader Window.

(** On POSIX, once the history file holds the serialisation of the list,
    it does so after every later action, as long as no write of the file
    fails: no other action changes the list, and the only file removed
    without a write that follows, the expected file of a download that
    overwrites, is never the history file. *)
Theorem history_synced_steps (actions : list action) (w : world) :
  history_synced w ->
  Forall writes_succeed actions ->
  history_synced (steps (H := posix) actions w).
Proof.
  intros Hsync Hwrites. revert w Hsync. unfold steps.
  induction Hwrites as [|a actions Ha _ IH]; intros w Hsync; [done|].
  cbn [foldl]. by apply IH, step_synced.
Qed.

End SyncedFacts.

(** An instance: after one download is recorded, a second one is recorded
    and the first entry, whose file exists, is deleted. *)
Lemma history_synced_steps_witness :
  Window.history_synced
    (Window.steps (H := posix)
       [ Window.DownloadCompleteSignal "/home/u/Downloads/b.mp3" None;
         Window.DeleteSelectedFile (Some 0) None None ]
       (YouTubeDownloader.add_to_history "/home/u/Downloads/a.mp4" None
          (YouTubeDownloader.fresh_window "/home/u/Downloads"
             {[ "/home/u/Downloads/a.mp4" := "video" ]} ∅)).1.2).
Proof.
  apply (history_synced_steps
           [ Window.DownloadCompleteSignal "/home/u/Downloads/b.mp3" None;
             Window.DeleteSelectedFile (Some 0) None None ]).
  - by vm_compute.
  - by repeat constructor.
Defined.

Example history_after_two_actions :
  let w := Window.steps (H := posix)
       [ Window.DownloadCompleteSignal "/home/u/Downloads/b.mp3" None;
         Window.DeleteSelectedFile (Some 0) None None ]
       (YouTubeDownloader.add_to_history "/home/u/Downloads/a.mp4" None
          (YouTubeDownloader.fresh_window "/home/u/Downloads"
             {[ "/home/u/Downloads/a.mp4" := "video" ]} ∅)).1.2 in
  Eff.history_list w = [Py.of_latin1 "/home/u/Downloads/b.mp3"] /\
  Eff.fs w !! "/home/u/Downloads/a.mp4" = None.
Proof. by vm_compute. Qed.

(** * The worker and the slots of its signals *)

Section Delivery.
Import Eff YouTubeDownloader DownloadWorker Window.
Context `{OsPath}.
Variable int_of_float : string -> conversion.
Variable self : worker_args.









End Delivery.

(** * The directory the installer adds to the search path *)

Section SearchPath.
Import Eff Installer.

Lemma upto_last_sep_app (a b : string) :
  PosixPath.has_sep b = false ->
  PosixPath.upto_last_sep (a +:+ String PosixPath.sep b)
  = a +:+ String PosixPath.sep EmptyString.
Proof.
  intros Hb. induction a as [|c a IH].
  - rewrite !app_empty_l. simpl. by rewrite Hb.
  - rewrite !app_cons. cbn [PosixPath.upto_last_sep].
    assert (PosixPath.has_sep (a +:+ String PosixPath.sep b) = true) as ->
      by (rewrite has_sep_app; simpl; apply orb_true_r).
    by rewrite IH.
Qed.

Lemma lstrip_by_keeps (p : ascii -> bool) (pre : string) (c : ascii)
    (rest : string) :
  p c = false -> Py.truthy (Py.lstrip_by p (pre +:+ String c rest)) = true.
Proof.
  intros Hc. induction pre as [|a pre IH].
  - rewrite app_empty_l. cbn. by rewrite Hc.
  - rewrite app_cons. cbn [Py.lstrip_by]. by destruct (p a).
Qed.

(** A non-empty string that does not end in a slash, by its last
    character. *)
Lemma not_endswith_sep (root : string) :
  root <> EmptyString -> Py.endswith "/" root = false ->
  exists pre c, root = pre +:+ String c EmptyString /\
                PosixPath.is_sep c = false.
Proof.
  intros Hne Hend. unfold Py.endswith in Hend.
  change (Py.rev_string "/" EmptyString) with "/" in Hend.
  revert Hend.
  destruct (Py.rev_string root EmptyString) as [|c r] eqn:Hrev; intros Hend.
  - apply (f_equal (fun s => Py.rev_string s EmptyString)) in Hrev.
    by rewrite rev_string_involutive in Hrev.
  - exists (Py.rev_string r EmptyString), c. split.
    + rewrite <- (rev_string_involutive root), Hrev. cbn [Py.rev_string].
      apply rev_string_acc.
    + rewrite startswith_cons in Hend. cbn [Py.startswith] in Hend.
      rewrite andb_true_r in Hend.
      unfold PosixPath.is_sep, PosixPath.sep. by rewrite Ascii.eqb_sym.
Qed.

(** On POSIX, the directory of a file joined to [root] is [root]. *)
Lemma dirname_join (root file : string) :
  root <> EmptyString -> Py.endswith "/" root = false ->
  PosixPath.has_sep file = false ->
  PosixPath.dirname (PosixPath.join root file) = root.
Proof.
  intros Hne Hend Hfile. unfold PosixPath.join.
  assert (Py.startswith "/" file = false) as ->.
  { destruct file as [|c file]; [done|]. cbn [PosixPath.has_sep] in Hfile.
    apply orb_false_iff in Hfile as [Hc _].
    unfold PosixPath.is_sep, PosixPath.sep in Hc.
    by rewrite startswith_cons, Ascii.eqb_sym, Hc. }
  rewrite Hend. destruct root as [|r root]; [done|]. cbn [Py.truthy negb orb].
  destruct (not_endswith_sep (String r root) Hne Hend) as (pre & c & -> & Hc).
  unfold PosixPath.dirname.
  change (?a +:+ "/" +:+ file) with (a +:+ String PosixPath.sep file).
  rewrite upto_last_sep_app by done.
  rewrite app_assoc_str, app_cons.
  change (EmptyString +:+ String PosixPath.sep EmptyString)
    with (String PosixPath.sep EmptyString).
  rewrite lstrip_by_keeps by done.
  unfold Py.rstrip_by. rewrite rev_string_app. cbn [Py.rev_string].
  rewrite !app_cons, app_empty_l. cbn [Py.lstrip_by].
  change (PosixPath.is_sep PosixPath.sep) with true. cbn iota. rewrite Hc.
  cbn [Py.rev_string].
  rewrite (rev_string_acc (Py.rev_string pre EmptyString)).
  by rewrite rev_string_involutive.
Qed.

(** The inner loop answers the first file with one of the two names. *)
Lemma find_in_files_spec (root : string) (files : list string) :
  match find_in_files (H := posix) root files with
  | Some ffmpeg_path =>
      exists file, file ∈ files /\ file ∈ ["ffmpeg"; "ffmpeg.exe"] /\
                   ffmpeg_path = PosixPath.join root file
  | None => forall file, file ∈ files -> file ∉ ["ffmpeg"; "ffmpeg.exe"]
  end.
Proof.
  induction files as [|file files IH]; cbn [find_in_files].
  - by intros file ?%elem_of_nil.
  - destruct (String.eqb_spec file "ffmpeg") as [->|Hne1]; cbn [orb].
    { exists "ffmpeg". split_and!; [apply list_elem_of_here| |done].
      apply list_elem_of_here. }
    destruct (String.eqb_spec file "ffmpeg.exe") as [->|Hne2].
    { exists "ffmpeg.exe". split_and!; [apply list_elem_of_here| |done].
      apply list_elem_of_further, list_elem_of_here. }
    destruct (find_in_files root files) as [p|].
    + destruct IH as (f & Hin & Hname & ->). exists f.
      split_and!; try done. by apply list_elem_of_further.
    + intros f [->|Hin]%elem_of_cons; [|by apply IH].
      intros Hf. repeat (apply elem_of_cons in Hf as [?|Hf]; [done|]).
      by apply elem_of_nil in Hf.
Qed.

Lemma truthy_app_r (a b : string) :
  Py.truthy b = true -> Py.truthy (a +:+ b) = true.
Proof. destruct a; [by rewrite app_empty_l|by rewrite app_cons]. Qed.

Lemma join_truthy (root file : string) :
  file ∈ ["ffmpeg"; "ffmpeg.exe"] ->
  Py.truthy (PosixPath.join root file) = true.
Proof.
  intros Hf. unfold PosixPath.join.
  repeat (apply elem_of_cons in Hf as [->|Hf]);
    [| |by apply elem_of_nil in Hf];
    cbn [Py.startswith Ascii.eqb Bool.eqb andb];
    destruct (negb _ || _); by rewrite !truthy_app_r.
Qed.

(** The outer loop answers for the first directory of the walk that holds
    such a file. *)
Lemma locate_spec (entries : list (string * list string * list string)) :
  match locate (H := posix) entries with
  | Some ffmpeg_path =>
      exists i root dirs files file,
        entries !! i = Some (root, dirs, files) /\
        file ∈ files /\ file ∈ ["ffmpeg"; "ffmpeg.exe"] /\
        ffmpeg_path = PosixPath.join root file /\
        forall j entry file',
          j < i -> entries !! j = Some entry -> file' ∈ entry.2 ->
          file' ∉ ["ffmpeg"; "ffmpeg.exe"]
  | None =>
      forall entry file, entry ∈ entries -> file ∈ entry.2 ->
                         file ∉ ["ffmpeg"; "ffmpeg.exe"]
  end.
Proof.
  induction entries as [|[[root dirs] files] entries IH]; cbn [locate].
  - by intros entry file ?%elem_of_nil.
  - pose proof (find_in_files_spec root files) as Hfind.
    destruct (find_in_files root files) as [p|].
    + destruct Hfind as (file & Hin & Hname & ->).
      rewrite join_truthy by done.
      exists 0, root, dirs, files, file. split_and!; try done.
      intros j entry file' Hlt. lia.
    + destruct (locate entries) as [p|].
      * destruct IH as (i & r & d & f & file & Hi & Hin & Hname & -> & Hfirst).
        exists (S i), r, d, f, file. split_and!; try done.
        intros [|j] entry file' Hlt Hj Hfile.
        -- injection Hj as <-. by apply Hfind.
        -- apply (Hfirst j entry); [lia|done|done].
      * intros entry file [->|Hin]%elem_of_cons Hfile; [by apply Hfind|].
        by apply (IH entry).
Qed.

(** On POSIX, when the installer returns [True], what it has appended to
    [PATH] is a colon and the first directory of the walk that holds a file
    named [ffmpeg] or [ffmpeg.exe]; the walk yields directories without a
    trailing slash.  The state it leaves differs from the one before in
    [PATH] and in the files it wrote, the archive and then the unpacked
    files. *)
Theorem installer_path_entry (env : install_env) (w : world) :
  Forall (fun entry => entry.1.1 <> EmptyString /\
                       Py.endswith "/" entry.1.1 = false) (walk env) ->
  (download_and_install_ffmpeg (H := posix) env w).1.1 = Ret true ->
  exists i root dirs files old,
    walk env !! i = Some (root, dirs, files) /\
    (exists file, file ∈ files /\ file ∈ ["ffmpeg"; "ffmpeg.exe"]) /\
    (forall j entry file,
        j < i -> walk env !! j = Some entry -> file ∈ entry.2 ->
        file ∉ ["ffmpeg"; "ffmpeg.exe"]) /\
    environ w !! "PATH" = Some old /\
    (download_and_install_ffmpeg (H := posix) env w).1.2
      = set_environ (<["PATH" := old +:+ ":" +:+ root]> (environ w))
          (set_fs
             (write_all
                ((PosixPath.join (PosixPath.join (getcwd env) "ffmpeg_temp")
                    "ffmpeg_download", archive_bytes env) :: unpacked env)
                (fs w))
             w).
Proof.
  intros Hwalk Htrue.
  destruct (installer_outcome (H := posix) env w)
    as (written & _ & _ & [[t E]|[(t & p & old & -> & _ & _ & Hloc & Hpath & E)
                                 |(e & _ & _ & _ & E)]]);
    rewrite E in Htrue |- *; [done| |done].
  pose proof (locate_spec (walk env)) as Hspec. rewrite Hloc in Hspec.
  destruct Hspec as (i & root & dirs & files & file & Hi & Hin & Hname & -> & Hfirst).
  exists i, root, dirs, files, old. split_and!; try done; [by exists file|].
  cbn [fst snd path_pathsep path_dirname posix]. unfold PosixPath.pathsep.
  rewrite dirname_join; [done| | |].
  - by apply (proj1 (Forall_forall _ _) Hwalk _ (list_elem_of_lookup_2 _ _ _ Hi)).
  - by apply (proj1 (Forall_forall _ _) Hwalk _ (list_elem_of_lookup_2 _ _ _ Hi)).
  - repeat (apply elem_of_cons in Hname as [->|Hname]; [done|]).
    by apply elem_of_nil in Hname.
Qed.

End SearchPath.

(** An instance: Linux, the archive unpacked into a sub-directory. *)
Lemma installer_path_entry_witness :
  exists root,
    Eff.environ
      (Installer.download_and_install_ffmpeg (H := posix)
         {| Installer.platform_system := "Linux";
            Installer.getcwd := "/opt/app";
            Installer.extract_dir_exists := true;
            Installer.makedirs_failure := None;
            Installer.urlretrieve_failure := None;
            Installer.extract_failure := None;
            Installer.walk :=
              [ ("/opt/app/ffmpeg_temp", ["ffmpeg-static"], ["ffmpeg_download"]);
                ("/opt/app/ffmpeg_temp/ffmpeg-static", [], ["ffprobe"; "ffmpeg"]) ];
            Installer.archive_created := true;
            Installer.archive_bytes := "xz";
            Installer.unpacked :=
              [ ("/opt/app/ffmpeg_temp/ffmpeg-static/ffprobe", "ELF");
                ("/opt/app/ffmpeg_temp/ffmpeg-static/ffmpeg", "ELF") ] |}
         (YouTubeDownloader.fresh_window "/home/u/Downloads" ∅
            {[ "PATH" := "/usr/bin" ]})).1.2
    !! "PATH" = Some ("/usr/bin" +:+ ":" +:+ root).
Proof.
  destruct (installer_path_entry
    {| Installer.platform_system := "Linux";
       Installer.getcwd := "/opt/app";
       Installer.extract_dir_exists := true;
       Installer.makedirs_failure := None;
       Installer.urlretrieve_failure := None;
       Installer.extract_failure := None;
       Installer.walk :=
         [ ("/opt/app/ffmpeg_temp", ["ffmpeg-static"], ["ffmpeg_download"]);
           ("/opt/app/ffmpeg_temp/ffmpeg-static", [], ["ffprobe"; "ffmpeg"]) ];
       Installer.archive_created := true;
       Installer.archive_bytes := "xz";
       Installer.unpacked :=
         [ ("/opt/app/ffmpeg_temp/ffmpeg-static/ffprobe", "ELF");
           ("/opt/app/ffmpeg_temp/ffmpeg-static/ffmpeg", "ELF") ] |}
    (YouTubeDownloader.fresh_window "/home/u/Downloads" ∅
       {[ "PATH" := "/usr/bin" ]}))
    as (i & root & dirs & files & old & _ & _ & _ & Hold & E).
  - repeat constructor; by vm_compute.
  - by vm_compute.
  - exists root. rewrite E. cbn [Eff.environ Eff.set_environ].
    rewrite lookup_insert_eq. cbn in Hold.
    rewrite lookup_singleton_eq in Hold. by injection Hold as <-.
Defined.

(** * The texts of the history list *)

Section ScannedTexts.
Import Json.

Local Ltac Zify.zify_post_hook ::= Z.to_euclidean_division_equations.

Lemma hex_value_below (c : ascii) (d : N) :
  hex_value c = Some d -> (d < 16)%N.
Proof.
  unfold hex_value. cbv zeta.
  repeat (case_match eqn:Hc;
          [apply andb_true_iff in Hc as [Hlo Hhi];
           apply N.leb_le in Hlo, Hhi; intros [= <-]; lia|clear Hc]).
  done.
Qed.

Lemma decode_uXXXX_below (h1 h2 h3 h4 : ascii) (n : N) :
  decode_uXXXX h1 h2 h3 h4 = Some n -> (n < 0x10000)%N.
Proof.
  unfold decode_uXXXX.
  destruct (hex_value h1) as [a|] eqn:Ha; [|done].
  destruct (hex_value h2) as [b|] eqn:Hb; [|done].
  destruct (hex_value h3) as [c|] eqn:Hc; [|done].
  destruct (hex_value h4) as [d|] eqn:Hd; [|done].
  apply hex_value_below in Ha, Hb, Hc, Hd. cbn. intros [= <-]. lia.
Qed.

Lemma join_surrogates_range (high low : N) :
  (0x10000 <= join_surrogates high low < 0x110000)%N.
Proof. rewrite join_surrogates_value. lia. Qed.

Lemma not_surrogate (c : N) :
  (c < 0xd800 \/ 0xe000 <= c)%N ->
  Py.is_high_surrogate c = false /\ Py.is_low_surrogate c = false.
Proof.
  intros Hc. unfold Py.is_high_surrogate, Py.is_low_surrogate.
  split; apply andb_false_iff; destruct Hc;
    first [left; apply N.leb_gt; lia | right; apply N.leb_gt; lia].
Qed.

Lemma unescape_below (e : ascii) (c : N) :
  unescape e = Some c -> (c < 256)%N.
Proof.
  unfold unescape. repeat (case_match; [intros [= <-]; lia|]). done.
Qed.

(** Scanning an escape [\uXXXX] of any four digits. *)
Lemma scanstring_u (h1 h2 h3 h4 : ascii) (t : string) :
  scanstring
    (String backslash
       (String "u" (String h1 (String h2 (String h3 (String h4 t))))))
  = match decode_uXXXX h1 h2 h3 h4 with
    | Some uni =>
        let alone :=
          match scanstring t with
          | Some (str, r) => Some (uni :: str, r)
          | None => None
          end in
        if Py.is_high_surrogate uni then
          match scan_second_escape t with
          | LowSurrogate low rest =>
              match scanstring rest with
              | Some (str, r) => Some (join_surrogates uni low :: str, r)
              | None => None
              end
          | BadEscape => None
          | NoLowSurrogate => alone
          end
        else alone
    | None => None
    end.
Proof.
  cbn [scanstring].
  change (Ascii.eqb backslash quote) with false.
  change (Ascii.eqb backslash backslash) with true.
  change (Ascii.eqb "u" "u") with true. cbn match.
  destruct (decode_uXXXX h1 h2 h3 h4) as [uni|]; [|done]. cbn zeta.
  destruct (Py.is_high_surrogate uni); [|done].
  destruct t as [|b [|u [|k1 [|k2 [|k3 [|k4 rest]]]]]]; try done.
  cbn [scan_second_escape].
  destruct (Ascii.eqb b backslash && Ascii.eqb u "u"); [|done].
  destruct (decode_uXXXX k1 k2 k3 k4) as [low|]; [|done].
  by destruct (Py.is_low_surrogate low).
Qed.

Lemma second_escape_rest (s : string) (low : N) (rest : string) :
  scan_second_escape s = LowSurrogate low rest ->
  String.length rest < String.length s.
Proof.
  destruct s as [|b [|u [|k1 [|k2 [|k3 [|k4 t]]]]]]; try done.
  cbn [scan_second_escape].
  destruct (_ && _); [|done].
  destruct (decode_uXXXX _ _ _ _); [|done].
  destruct (Py.is_low_surrogate _); [|done].
  intros [= _ <-]. cbn. lia.
Qed.

(** Whatever the text, the string [scanstring] reads from it is a text of
    code points up to 0x10FFFF in which no high surrogate stands before
    a low one; and it starts with no low surrogate unless the text starts
    with the escape of one. *)
Lemma scanstring_text (n : nat) (s : string) (u : Py.str) (r : string) :
  String.length s <= n ->
  scanstring s = Some (u, r) ->
  Py.qstring_text u /\
  (scan_second_escape s = NoLowSurrogate ->
   match u with c :: _ => Py.is_low_surrogate c = false | [] => True end).
Proof.
  revert s u r. induction n as [|n IH]; intros s u r Hlen Hscan.
  { destruct s; [done|]. cbn in Hlen. lia. }
  assert (forall c str,
             (c < 0xd800 \/ 0x10000 <= c < 0x110000)%N ->
             Py.qstring_text str ->
             Py.qstring_text (c :: str) /\
             Py.is_low_surrogate c = false) as Hplain.
  { intros c str Hc [Hrange Hpair].
    destruct (not_surrogate c) as [Hhigh Hlow]; [lia|].
    split; [|done]. split; [constructor; [lia|done]|].
    cbn [Py.has_surrogate_pair]. rewrite Hpair, orb_false_r.
    destruct str; [done|]. by rewrite Hhigh. }
  destruct s as [|c rest]; [done|]. cbn [String.length] in Hlen.
  destruct (Ascii.eqb c quote) eqn:Hquote.
  { cbn [scanstring] in Hscan. rewrite Hquote in Hscan.
    injection Hscan as <- <-. by repeat split. }
  destruct (Ascii.eqb c backslash) eqn:Hback.
  2:{ cbn [scanstring] in Hscan. rewrite Hquote, Hback in Hscan.
      destruct (Py.ord c <? 32)%N; [done|].
      destruct (scanstring rest) as [[str r']|] eqn:Hrest; [|done].
      injection Hscan as <- <-.
      destruct (IH rest str r') as [Hstr _]; [lia|done|].
      destruct (Hplain (Py.ord c) str) as [Htext Hlow]; [|done|done].
      left. pose proof (N_ascii_bounded c). unfold Py.ord. lia. }
  apply Ascii.eqb_eq in Hback as ->.
  destruct rest as [|e rest']; [done|]. cbn [String.length] in Hlen.
  destruct (Ascii.eqb e "u") eqn:Hu.
  2:{ cbn [scanstring] in Hscan.
      change (Ascii.eqb backslash quote) with false in Hscan.
      change (Ascii.eqb backslash backslash) with true in Hscan.
      cbn match in Hscan. rewrite Hu in Hscan.
      destruct (unescape e) as [c'|] eqn:He; [|done].
      destruct (scanstring rest') as [[str r']|] eqn:Hrest; [|done].
      injection Hscan as <- <-.
      destruct (IH rest' str r') as [Hstr _]; [lia|done|].
      destruct (Hplain c' str) as [Htext Hlow]; [|done|done].
      left. apply unescape_below in He. lia. }
  apply Ascii.eqb_eq in Hu as ->.
  destruct rest' as [|h1 [|h2 [|h3 [|h4 t]]]]; try done.
  cbn [String.length] in Hlen.
  rewrite scanstring_u in Hscan. cbn [scan_second_escape].
  change (Ascii.eqb backslash backslash && Ascii.eqb "u" "u") with true.
  cbn match.
  destruct (decode_uXXXX h1 h2 h3 h4) as [uni|] eqn:Huni; [|done].
  pose proof (decode_uXXXX_below _ _ _ _ _ Huni) as Hbelow.
  cbn zeta in Hscan.
  assert (match scanstring t with
          | Some (str, r0) => Some (uni :: str, r0)
          | None => None
          end = Some (u, r) ->
          (Py.is_high_surrogate uni = true ->
           scan_second_escape t = NoLowSurrogate) ->
          Py.qstring_text u /\
          ((if Py.is_low_surrogate uni
            then LowSurrogate uni t else NoLowSurrogate) = NoLowSurrogate ->
           match u with c :: _ => Py.is_low_surrogate c = false | [] => True end))
    as Halone.
  { intros Hu Hnext.
    destruct (scanstring t) as [[str r']|] eqn:Hrest; [|done].
    injection Hu as <- <-.
    destruct (IH t str r') as [[Hrange Hpair] Hhead]; [lia|done|].
    split; [|by destruct (Py.is_low_surrogate uni)].
    split; [constructor; [lia|done]|].
    cbn [Py.has_surrogate_pair]. rewrite Hpair, orb_false_r.
    destruct str as [|c' str]; [done|].
    destruct (Py.is_high_surrogate uni); [|done].
    cbn [andb]. by apply Hhead, Hnext. }
  destruct (Py.is_high_surrogate uni) eqn:Hhigh; [|by apply Halone].
  destruct (scan_second_escape t) as [low rest3| |] eqn:Hnext;
    [|done|by apply Halone].
  destruct (scanstring rest3) as [[str r']|] eqn:Hrest; [|done].
  injection Hscan as <- <-.
  apply second_escape_rest in Hnext.
  destruct (IH rest3 str r') as [Hstr _]; [lia|done|].
  pose proof (join_surrogates_range uni low).
  destruct (Hplain (join_surrogates uni low) str) as [Htext Hlow];
    [lia|done|]. split; [done|]. by intros _.
Qed.

End ScannedTexts.

Section HistoryTexts.
Import Json Eff YouTubeDownloader Window.

Lemma scan_once_text (fuel : nat) (s : string) (u : Py.str) (r : string) :
  scan_once fuel s = Some (JString u, r) -> Py.qstring_text u.
Proof.
  intros Hv. destruct fuel as [|fuel']; [done|].
  destruct s as [|c rest]; [done|]. cbn [scan_once] in Hv.
  destruct (Ascii.eqb c quote).
  - destruct (scanstring rest) as [[str r']|] eqn:Hstr; [|done].
    cbn in Hv. injection Hv as <- <-.
    by apply (scanstring_text (String.length rest) rest str r').
  - repeat (case_match; try done);
      repeat match goal with
             | H : context [mbind _ ?m] |- _ =>
                 destruct m as [[]|]; cbn in H; try done
             | H : context [mbind _ ?m] |- _ =>
                 destruct m; cbn in H; try done
             end.
Qed.

Lemma scan_elements_texts (fuel : nat) (s : string) (vs : list value)
    (r : string) :
  scan_elements fuel s = Some (vs, r) ->
  forall u, JString u ∈ vs -> Py.qstring_text u.
Proof.
  revert s vs r. induction fuel as [|fuel IH]; intros s vs r Hs; [done|].
  cbn [scan_elements] in Hs.
  destruct (scan_once fuel s) as [[v r1]|] eqn:Hv; [|done]. cbn in Hs.
  assert (forall u, v = JString u -> Py.qstring_text u) as Hhead.
  { intros u ->. by apply scan_once_text in Hv. }
  destruct (skip_ws r1) as [|c r2]; [done|].
  destruct (Ascii.eqb_spec c "]") as [->|Hclose].
  { injection Hs as <- <-. intros u [[= <-]|?%elem_of_nil]%elem_of_cons;
      [by apply Hhead|done]. }
  destruct (Ascii.eqb_spec c ",") as [->|Hcomma].
  2:{ destruct c as [[] [] [] [] [] [] [] []]; done. }
  destruct (scan_elements fuel (skip_ws r2)) as [[vs' r3]|] eqn:Hvs; [|done].
  cbn in Hs. injection Hs as <- <-.
  intros u [[= <-]|Hin]%elem_of_cons; [by apply Hhead|].
  by apply (IH _ _ _ Hvs).
Qed.

Lemma scan_members_keys (fuel : nat) (s : string)
    (ms : list (Py.str * value)) (r : string) :
  scan_members fuel s = Some (ms, r) ->
  forall k, k ∈ ms.*1 -> Py.qstring_text k.
Proof.
  revert s ms r. induction fuel as [|fuel IH]; intros s ms r Hs; [done|].
  cbn [scan_members] in Hs.
  destruct s as [|c rest]; [done|].
  destruct (Ascii.eqb c quote); [|done].
  destruct (scanstring rest) as [[key r1]|] eqn:Hkey; [|done]. cbn in Hs.
  apply (scanstring_text (String.length rest)) in Hkey as [Hkey _]; [|done].
  destruct (skip_ws r1) as [|c1 r2]; [done|].
  destruct (Ascii.eqb_spec c1 ":") as [->|Hcolon].
  2:{ destruct c1 as [[] [] [] [] [] [] [] []]; done. }
  destruct (scan_once fuel (skip_ws r2)) as [[v r3]|]; [|done]. cbn in Hs.
  destruct (skip_ws r3) as [|c2 r4]; [done|].
  destruct (Ascii.eqb_spec c2 "}") as [->|Hclose].
  { injection Hs as <- <-. cbn.
    by intros k [->|?%elem_of_nil]%elem_of_cons. }
  destruct (Ascii.eqb_spec c2 ",") as [->|Hcomma].
  2:{ destruct c2 as [[] [] [] [] [] [] [] []]; done. }
  destruct (scan_members fuel (skip_ws r4)) as [[ms' r5]|] eqn:Hms; [|done].
  cbn in Hs. injection Hs as <- <-. cbn.
  intros k [->|Hin]%elem_of_cons; [done|]. by apply (IH _ _ _ Hms).
Qed.

Lemma object_keys_members (members : list (Py.str * value))
    (seen : list Py.str) (k : Py.str) :
  k ∈ object_keys members seen -> k ∈ members.*1.
Proof.
  revert seen. induction members as [|[k' v] members IH]; intros seen;
    [done|].
  cbn [object_keys fmap list_fmap fst]. case_bool_decide.
  - intros Hin. apply list_elem_of_further. by apply (IH seen).
  - intros [->|Hin]%elem_of_cons; [apply list_elem_of_here|].
    apply list_elem_of_further. by apply (IH (k' :: seen)).
Qed.

(** The strings among what [for filepath in history] runs through, for a
    value read from any text, are such texts. *)
Lemma loads_elements_texts (text : string) (v : value) (items : list value) :
  loads text = Some v -> elements v = Some items ->
  forall u, JString u ∈ items -> Py.qstring_text u.
Proof.
  unfold loads. set (fuel := 2 * String.length text + 2).
  destruct (scan_once fuel (skip_ws text)) as [[v' r]|] eqn:Hv; [|done].
  cbn. destruct (skip_ws r); [|done]. intros [= ->].
  destruct fuel as [|fuel']; [done|].
  destruct v as [| | |u0|vs|ms]; try done; cbn [elements]; intros [= <-].
  - apply scan_once_text in Hv as [Hrange _].
    intros u [c [[= ->] Hc]]%list_elem_of_fmap. split; [|done].
    constructor; [|done]. by apply (proj1 (Forall_forall _ _) Hrange).
  - destruct (skip_ws text) as [|c rest]; [done|]. cbn [scan_once] in Hv.
    destruct (Ascii.eqb c quote).
    { destruct (scanstring rest) as [[]|]; done. }
    destruct (Ascii.eqb c "{").
    { repeat (case_match; try done);
        repeat match goal with
               | H : context [mbind _ ?m] |- _ =>
                   destruct m as [[]|]; cbn in H; try done
               end. }
    destruct (Ascii.eqb c "[").
    2:{ repeat (case_match; try done);
          repeat match goal with
                 | H : context [mbind _ ?m] |- _ =>
                     destruct m as [[]|]; cbn in H; try done
                 | H : context [mbind _ ?m] |- _ =>
                     destruct m; cbn in H; try done
                 end. }
    assert (vs = [] \/ exists s' r', scan_elements fuel' s' = Some (vs, r'))
      as [->|(s' & r' & Hvs)].
    { repeat (case_match; try (injection Hv as <- <-; by left));
        match goal with
        | H : context [mbind _ ?m] |- _ =>
            destruct m as [[vs' r']|] eqn:E; cbn in H; [|done];
            injection H as <- <-; right; by eexists _, _
        end. }
    + by intros u ?%elem_of_nil.
    + by apply (scan_elements_texts _ _ _ _ Hvs).
  - destruct (skip_ws text) as [|c rest]; [done|]. cbn [scan_once] in Hv.
    destruct (Ascii.eqb c quote).
    { destruct (scanstring rest) as [[]|]; done. }
    destruct (Ascii.eqb c "{").
    2:{ repeat (case_match; try done);
          repeat match goal with
                 | H : context [mbind _ ?m] |- _ =>
                     destruct m as [[]|]; cbn in H; try done
                 | H : context [mbind _ ?m] |- _ =>
                     destruct m; cbn in H; try done
                 end. }
    assert (ms = [] \/ exists s' r', scan_members fuel' s' = Some (ms, r'))
      as [->|(s' & r' & Hms)].
    { repeat (case_match; try (injection Hv as <- <-; by left));
        match goal with
        | H : context [mbind _ ?m] |- _ =>
            destruct m as [[ms' r']|] eqn:E; cbn in H; [|done];
            injection H as <- <-; right; by eexists _, _
        end. }
    + by intros u ?%elem_of_nil.
    + intros u [k [[= ->] Hk]]%list_elem_of_fmap.
      apply object_keys_members in Hk.
      by apply (scan_members_keys _ _ _ _ Hms).
Qed.

Lemma leading_strings_in (items : list value) (u : Py.str) :
  u ∈ leading_strings items -> JString u ∈ items.
Proof.
  induction items as [|v items IH]; [by intros ?%elem_of_nil|].
  destruct v; cbn [leading_strings]; try by intros ?%elem_of_nil.
  - intros Hin. by apply list_elem_of_further, IH.
  - intros [->|Hin]%elem_of_cons; [apply list_elem_of_here|].
    by apply list_elem_of_further, IH.
Qed.

(** [load_history] adds such texts only. *)
Lemma load_history_texts (read_failure : option exn) (w : world) :
  Forall Py.qstring_text (history_list w) ->
  Forall Py.qstring_text (history_list (load_history read_failure w).1.2).
Proof.
  intros Hw. unfold load_history. eff_simpl.
  case_bool_decide as Hfile; [|done].
  destruct read_failure as [e|]; [done|].
  destruct (Json.loads _) as [v|] eqn:Hv; [|done].
  rewrite iterate_elements.
  destruct (elements v) as [items|] eqn:Hitems; [|done].
  rewrite for_each_addItem_any.
  assert (Forall Py.qstring_text (history_list w ++ leading_strings items))
    as Hall.
  { apply Forall_app. split; [done|]. apply Forall_forall.
    intros u Hu%leading_strings_in.
    by apply (loads_elements_texts _ _ _ Hv Hitems). }
  by destruct (all_strings items).
Qed.

Lemma step_texts `{OsPath} (a : action) (w : world) :
  Forall Py.qstring_text (history_list w) ->
  Forall Py.qstring_text (history_list (step a w).1.2).
Proof.
  intros Hw.
  destruct a as [text|i|i|chosen|env|f|row rf wf|percent|msg|filepath wf|];
    cbn [step]; rewrite ?clicked_world.
  - exact Hw.
  - unfold pick. by destruct (QUALITY_OPTIONS !! i).
  - unfold pick. by destruct (FORMAT_OPTIONS !! i).
  - unfold browse_directory. by destruct (Py.truthy chosen).
  - destruct (download_button w); [|exact Hw].
    pose proof (start_download_cases env w) as Hcases.
    destruct (started env w) as [[name p]|].
    + by destruct Hcases as [t ->].
    + by destruct Hcases as (t & -> & _).
  - destruct (cancel_button w); [|exact Hw]. unfold cancel_download. eff_simpl.
    destruct (worker w) as [args|]; [|exact Hw].
    by destruct f as [e|].
  - destruct (delete_button w); [|exact Hw].
    destruct (delete_selected_file_cases row rf wf w)
      as [->|(r & p & _ & ->)]; [exact Hw|].
    rewrite save_history_world.
    assert (Forall Py.qstring_text (delete r (history_list w))) as Hdel.
    { by apply Forall_delete. }
    by destruct wf.
  - unfold update_progress, progress_bar_setValue. eff_simpl.
    by case_bool_decide.
  - exact Hw.
  - destruct (add_to_history_list filepath wf w) as [-> _].
    apply Forall_app. split; [done|].
    constructor; [apply qstring_text_latin1|done].
  - exact Hw.
Qed.

Lemma init_texts `{OsPath} (env : startup_env)
    (files environment : gmap string string) :
  Forall Py.qstring_text (history_list (init env files environment).1.2).
Proof.
  unfold init. cbv [mbind M_bind Eff.bind].
  set (w0 := fresh_window _ files environment).
  assert (exists d', (ensure_default_dir env w0).1.1 = Ret tt /\
                     (ensure_default_dir env w0).1.2 = set_dir_display d' w0)
    as (d' & Ho & Hw).
  { destruct (ensure_default_dir_cases env w0)
      as [(t & E & _)|(_ & e' & _ & E)];
      rewrite E; [exists (dir_display w0)|exists EmptyString]; by cbn. }
  destruct (ensure_default_dir env w0) as [[o w1] t1]. cbn in Ho, Hw.
  subst o w1.
  pose proof (load_history_texts (history_read_failure env)
                (set_dir_display d' w0) (Forall_nil_2 _)) as Hload.
  destruct (load_history_world (history_read_failure env)
              (set_dir_display d' w0)) as (added & t & E & _).
  rewrite E in Hload |- *. cbn [fst snd] in Hload.
  set (w2 := set_history_list _ _) in *.
  assert (history_list (check_ffmpeg env w2).1.2 = history_list w2) as Hlist.
  { destruct (check_ffmpeg_cases env w2)
      as [[_ E']|[(_ & _ & t' & ? & ? & E')
         |(_ & _ & written & _ & [(t' & ? & ? & E')
            |[(t' & p & old & _ & _ & _ & E')|(t' & e' & _ & _ & _ & E')]])]];
      by rewrite E'. }
  destruct (check_ffmpeg env w2) as [[[] ?] ?]; cbn [fst snd] in *;
    by rewrite Hlist.
Qed.

End HistoryTexts.

Section HistoryTextsFacts.
Import Eff YouTubeDownloader Window.
Context `{OsPath}.

(** In every state the window reaches from its creation on, whatever the
    history file held at start and whatever the user does and the worker
    signals, every entry of the history list is a text of code points up
    to 0x10FFFF in which no high surrogate stands before a low one.  So
    the list of every such state survives the round trip: a session that
    finds the history file as [save_history] wrote it, a write that did
    not fail, loads exactly the entries of that list, in order, and
    reports nothing. *)
Theorem window_history_round_trip (env : startup_env)
    (files environment : gmap string string) (actions : list action)
    (w0 : world) :
  let w := steps actions (init env files environment).1.2 in
  Forall Py.qstring_text (history_list w) /\
  (fs w0 = fs (save_history None w).1.2 ->
   load_history None w0 =
     (Ret tt, set_history_list (history_list w0 ++ history_list w) w0, [])).
Proof.
  intros w.
  assert (Forall Py.qstring_text (history_list w)) as Htexts.
  { apply (steps_invariant (fun w => Forall Py.qstring_text (history_list w)));
      [apply step_texts|apply init_texts]. }
  split; [done|]. intros Hfs. rewrite save_history_written in Hfs.
  cbn in Hfs. apply load_history_read; [done|].
  by rewrite Hfs, lookup_insert_eq.
Qed.

End HistoryTextsFacts.
